(** * The protocol core of the RethinkDB Python driver, embedded in Rocq

    The development follows the layout of [rethinkdb/core/net] and
    [rethinkdb/net/default_net]: the error classes ([core/errors.py]),
    the frame codec and the response classification ([core/net/msg.py]),
    the cursor ([core/net/cursor.py]), the response router
    ([core/net/protocol.py]), the blocking transport and its socket
    client ([net/default_net]), the connection ([core/net/connection.py]),
    the SCRAM handshake ([core/net/handshake.py]) and the connection
    configuration ([core/net/conn_config.py], [connections.py]).

    Python objects are records, mutation is explicit state passing, and a
    raised exception is a result that keeps the state reached when it was
    raised.  An attribute that [__init__] never assigns is [Unset]: reading
    it raises [AttributeError], as it does in Python. *)

From Stdlib Require Import ZArith Lia List Bool Ascii String DecimalString.
From stdpp Require Import base option list list_numbers gmap strings.

#[local] Set Warnings "-register-all".

Local Open Scope Z_scope.

(** ** Values *)

(** A [bytes] object: a list of 8-bit integers. *)
Abbreviation bytes := (list Z).

(** A Python [float]: the fraction [num / den] it stands for, or one of
    the constants [Infinity], [-Infinity] and [NaN], which the JSON
    decoder accepts. *)
Inductive pyfloat : Type :=
| FFinite (num : Z) (den : positive)
| FInfinity (negative : bool)
| FNaN.

(** Decoded JSON, the shape of everything the pluggable decoders return:
    a number written without fraction or exponent is an [int], any other
    number a [float]. *)
Inductive json : Type :=
| JNull
| JBool (b : bool)
| JNum (z : Z)
| JFloat (f : pyfloat)
| JStr (s : string)
| JArr (l : list json)
| JObj (l : list (string * json)).

(** A Python [dict] with string keys whose order of insertion is kept. *)
Abbreviation pydict := (list (string * json)).

Fixpoint dict_get (k : string) (d : pydict) : option json :=
  match d with
  | [] => None
  | (k', v) :: d' => if String.eqb k k' then Some v else dict_get k d'
  end.

(** Python truthiness of a decoded value ([not x] is its negation). *)
Definition truthy (v : json) : bool :=
  match v with
  | JNull => false
  | JBool b => b
  | JNum z => negb (z =? 0)
  | JFloat (FFinite num _) => negb (num =? 0)
  | JFloat _ => true
  | JStr s => negb (String.eqb s "")
  | JArr l => match l with [] => false | _ => true end
  | JObj l => match l with [] => false | _ => true end
  end.

(** ** Exceptions ([core/errors.py] and the built-in ones the code meets) *)

Module errors.

Inductive ReqlClass : Type :=
| ReqlError
| ReqlCompileError
| ReqlDriverCompileError
| ReqlServerCompileError
| ReqlRuntimeError
| ReqlQueryLogicError
| ReqlNonExistenceError
| ReqlResourceLimitError
| ReqlUserError
| ReqlInternalError
| ReqlOperationError
| ReqlOpFailedError
| ReqlOpIndeterminateError
| ReqlPermissionError
| ReqlDriverError
| ReqlAuthError
| ReqlTimeoutError
| InvalidHandshakeStateError.

#[global] Instance ReqlClass_eq_dec : EqDecision ReqlClass.
Proof. solve_decision. Defined.

(** The base class each class is declared with. *)
Definition base (c : ReqlClass) : option ReqlClass :=
  match c with
  | ReqlError => None
  | ReqlCompileError => Some ReqlError
  | ReqlDriverCompileError => Some ReqlCompileError
  | ReqlServerCompileError => Some ReqlCompileError
  | ReqlRuntimeError => Some ReqlError
  | ReqlQueryLogicError => Some ReqlRuntimeError
  | ReqlNonExistenceError => Some ReqlQueryLogicError
  | ReqlResourceLimitError => Some ReqlRuntimeError
  | ReqlUserError => Some ReqlRuntimeError
  | ReqlInternalError => Some ReqlRuntimeError
  | ReqlOperationError => Some ReqlRuntimeError
  | ReqlOpFailedError => Some ReqlOperationError
  | ReqlOpIndeterminateError => Some ReqlOperationError
  | ReqlPermissionError => Some ReqlRuntimeError
  | ReqlDriverError => Some ReqlError
  | ReqlAuthError => Some ReqlDriverError
  | ReqlTimeoutError => Some ReqlDriverError
  | InvalidHandshakeStateError => Some ReqlDriverError
  end.

(** [issubclass c d]; the hierarchy is four levels deep. *)
Fixpoint issubclass_upto (n : nat) (c d : ReqlClass) : bool :=
  bool_decide (c = d) ||
  match n, base c with
  | S n', Some b => issubclass_upto n' b d
  | _, _ => false
  end.

Definition issubclass : ReqlClass -> ReqlClass -> bool := issubclass_upto 4.

(** An exception message: literal text and the values formatted into it
    (the pieces of an f-string, in order). *)
Inductive piece : Type :=
| Lit (s : string)
| Val (v : json)
| Int (z : Z).

Inductive pykey : Type :=
| KToken (t : Z)
| KStr (s : string)
| KBytes (s : string).

Inductive exn : Type :=
| Reql (cls : ReqlClass) (message : list piece)
| ReqlCursorEmpty
| KeyError (key : pykey)
| AttributeError (attr : string)
| IndexError
| ValueError
| OverflowError
| TypeError
| UnicodeError
| StructError
| RuntimeError
| NotImplementedError
| JSONDecodeError
| OSError (what : string).

(** [isinstance(e, ReqlDriverError)]: the driver-level errors. *)
Definition is_driver_error (e : exn) : bool :=
  match e with
  | Reql c _ => issubclass c ReqlDriverError
  | _ => false
  end.

(** [isinstance(e, ReqlAuthError)]. *)
Definition is_auth_error (e : exn) : bool :=
  match e with
  | Reql c _ => issubclass c ReqlAuthError
  | _ => false
  end.

(** [isinstance(e, ReqlError)]: any error of the driver's own taxonomy. *)
Definition is_reql_error (e : exn) : bool :=
  match e with
  | Reql c _ => issubclass c ReqlError
  | _ => false
  end.

(** [ReqlAuthError(message)] prefixes its argument. *)
Definition new_ReqlAuthError (m : json) : exn :=
  Reql ReqlAuthError [Lit "Authentication failed, "; Val m].

End errors.
Import errors.

(** ** Computations that may raise *)

Inductive result (A : Type) : Type :=
| Ok (a : A)
| Raise (e : exn).
Arguments Ok {A} a.
Arguments Raise {A} e.

Definition rbind {A B} (r : result A) (k : A -> result B) : result B :=
  match r with
  | Ok a => k a
  | Raise e => Raise e
  end.

Notation "'let!' x := r 'in' k" := (rbind r (fun x => k))
  (at level 10, x name, r at level 100, k at level 200).
Notation "'let!' ' p := r 'in' k" := (rbind r (fun x => let 'p := x in k))
  (at level 10, p pattern, r at level 100, k at level 200).

(** A method on mutable objects: it runs from a state, yields a value or
    raises, and leaves the state it reached either way. *)
Definition M (S A : Type) : Type := S -> result A * S.

Definition mret {S A} (a : A) : M S A := fun s => (Ok a, s).
Definition mraise {S A} (e : exn) : M S A := fun s => (Raise e, s).
Definition mbind {S A B} (m : M S A) (k : A -> M S B) : M S B :=
  fun s => match m s with
           | (Ok a, s') => k a s'
           | (Raise e, s') => (Raise e, s')
           end.
Definition mget {S} : M S S := fun s => (Ok s, s).
Definition mgets {S A} (f : S -> A) : M S A := fun s => (Ok (f s), s).
Definition mmodify {S} (f : S -> S) : M S unit := fun s => (Ok tt, f s).
Definition mlift {S A} (r : result A) : M S A := fun s => (r, s).

Notation "'let*' x := m 'in' k" := (mbind m (fun x => k))
  (at level 10, x name, m at level 100, k at level 200).
Notation "'let*' ' p := m 'in' k" := (mbind m (fun x => let 'p := x in k))
  (at level 10, p pattern, m at level 100, k at level 200).
Notation "'exec' m 'in' k" := (mbind m (fun _ => k))
  (at level 10, m at level 100, k at level 200).

(** ** The generated protocol constants *)

(** Modelled from the spec: the module [ql2_pb2] that the sources import is
    generated from the protocol definition and is not part of the source
    tree.  The names are the ones the sources and section 4.4 of the
    specification use; the integers are the codes of the wire protocol.
    Nothing below depends on them beyond their being pairwise distinct. *)
Module ql2_pb2.
Module QueryType.
Definition START : Z := 1.
Definition CONTINUE : Z := 2.
Definition STOP : Z := 3.
Definition NOREPLY_WAIT : Z := 4.
Definition SERVER_INFO : Z := 5.
End QueryType.
Module ResponseType.
Definition SUCCESS_ATOM : Z := 1.
Definition SUCCESS_SEQUENCE : Z := 2.
Definition SUCCESS_PARTIAL : Z := 3.
Definition WAIT_COMPLETE : Z := 4.
Definition SERVER_INFO : Z := 5.
Definition CLIENT_ERROR : Z := 16.
Definition COMPILE_ERROR : Z := 17.
Definition RUNTIME_ERROR : Z := 18.
End ResponseType.
Module ErrorType.
Definition INTERNAL : Z := 1000000.
Definition RESOURCE_LIMIT : Z := 2000000.
Definition QUERY_LOGIC : Z := 3000000.
Definition NON_EXISTENCE : Z := 3100000.
Definition OP_FAILED : Z := 4100000.
Definition OP_INDETERMINATE : Z := 4200000.
Definition USER : Z := 5000000.
Definition PERMISSION_ERROR : Z := 6000000.
End ErrorType.
Module Version.
Definition V1_0 : Z := 0x34c2bdc3.
End Version.
End ql2_pb2.

Abbreviation pQueryType_START := ql2_pb2.QueryType.START.
Abbreviation pQueryType_CONTINUE := ql2_pb2.QueryType.CONTINUE.
Abbreviation pQueryType_STOP := ql2_pb2.QueryType.STOP.
Abbreviation pQueryType_NOREPLY_WAIT := ql2_pb2.QueryType.NOREPLY_WAIT.
Abbreviation pQueryType_SERVER_INFO := ql2_pb2.QueryType.SERVER_INFO.

(** ** [struct]: the two formats the frame codec uses *)

Module struct.

(** [struct.pack("<QL", q, l)]: an unsigned 64-bit and an unsigned 32-bit
    integer, little-endian, no padding; [struct.error] out of range. *)
Definition pack_QL (q l : Z) : result bytes :=
  if bool_decide (0 <= q < 2 ^ 64) && bool_decide (0 <= l < 2 ^ 32)
  then Ok (Z_to_little_endian 8 8 q ++ Z_to_little_endian 4 8 l)
  else Raise StructError.

(** [struct.unpack("<qL", buf)]: a _signed_ 64-bit and an unsigned 32-bit
    integer; [struct.error] unless the buffer has exactly 12 bytes. *)
Definition unpack_qL (buf : bytes) : result (Z * Z) :=
  if bool_decide (length buf = 12%nat)
  then
    let u := little_endian_to_Z 8 (take 8 buf) in
    let q := if bool_decide (u < 2 ^ 63) then u else u - 2 ^ 64 in
    Ok (q, little_endian_to_Z 8 (drop 8 buf))
  else Raise StructError.

(** [struct.pack("<L", l)]. *)
Definition pack_L (l : Z) : result bytes :=
  if bool_decide (0 <= l < 2 ^ 32)
  then Ok (Z_to_little_endian 4 8 l)
  else Raise StructError.

End struct.

(** ** [core/net/msg.py] *)

(** Modelled from the spec: the class [Token] of [core/net/token.py] is not
    part of the source tree.  The sources read [token.value], build
    [Token(token_int)] and use tokens as dictionary keys; the specification
    calls a token an opaque 64-bit identifier.  A token is its integer
    value. *)
Abbreviation Token := Z.

Record Query : Type := mkQuery {
  q_type : Z;
  q_token : Token;
  q_term_type : option json;
  q_kwargs : pydict;
}.

(** [Query.__init__]: [self.kwargs = kwargs or {}]. *)
Definition Query_init (type : Z) (token : Token) (term_type : option json)
    (kwargs : option pydict) : Query :=
  mkQuery type token term_type (default [] kwargs).

Definition Q_NoReplayWait := Query_init pQueryType_NOREPLY_WAIT.
Definition Q_Server_Info := Query_init pQueryType_SERVER_INFO.
Definition Q_Start := Query_init pQueryType_START.
Definition Q_Continue := Query_init pQueryType_CONTINUE.
Definition Q_Stop := Query_init pQueryType_STOP.

(** The dictionary the decoder hands to [Response.__init__]: the fields [t]
    and [r], and the optional [b], [p], [e] and [n], typed as the class
    annotates them. *)
Record FullResponse : Type := mkFullResponse {
  fr_t : Z;
  fr_r : list json;
  fr_b : option (list json);
  fr_p : option json;
  fr_e : option Z;
  fr_n : option (list Z);
}.

Record Response : Type := mkResponse {
  r_token : Token;
  r_type : Z;
  r_data : list json;
  r_backtrace : option (list json);
  r_profile : option json;
  r_error_type : option Z;
  r_response_note : option (list Z);
}.

(** The pluggable query encoder and response decoder
    ([ConnectionConfig.json_encoder], [json_decoder]):
    [reql_encode message] is [reql_encoder.encode(message).encode("utf-8")]
    for the message list [[type, term?, options]]; [reql_decode kwargs buf]
    is the decoder built from the query's options applied to the decoded
    text of [buf], the dictionary of the response or an exception. *)
Class ReqlCodec : Type := {
  reql_encode : list json -> bytes;
  reql_decode : pydict -> bytes -> result FullResponse;
}.

Section Codec.

Context `{codec : !ReqlCodec}.

(** [Query.serialize]. [self.kwargs] is never [None] after [__init__], so
    the options are always appended. *)
Definition Query_serialize (q : Query) : result bytes :=
  let message :=
    [JNum (q_type q)]
    ++ match q_term_type q with Some t => [t] | None => [] end
    ++ [JObj (q_kwargs q)] in
  let query_bytes := reql_encode message in
  let! query_header :=
    struct.pack_QL (q_token q) (Z.of_nat (length query_bytes)) in
  Ok (query_header ++ query_bytes).

(** [Response.__init__]. *)
Definition Response_init (token : Token) (json_response : bytes)
    (kwargs : pydict) : result Response :=
  let! full_response := reql_decode kwargs json_response in
  Ok (mkResponse token (fr_t full_response) (fr_r full_response)
        (fr_b full_response) (fr_p full_response) (fr_e full_response)
        (fr_n full_response)).

End Codec.

(** *** Classifying a response *)

Definition Response__is_type_of (r : Response) (expeced_type : Z) : bool :=
  r_type r =? expeced_type.

Definition is_success_atom r :=
  Response__is_type_of r ql2_pb2.ResponseType.SUCCESS_ATOM.
Definition is_success_partial r :=
  Response__is_type_of r ql2_pb2.ResponseType.SUCCESS_PARTIAL.
Definition is_success_sequence r :=
  Response__is_type_of r ql2_pb2.ResponseType.SUCCESS_SEQUENCE.
Definition is_server_info r :=
  Response__is_type_of r ql2_pb2.ResponseType.SERVER_INFO.
Definition is_wait_complete r :=
  Response__is_type_of r ql2_pb2.ResponseType.WAIT_COMPLETE.
Definition is_client_error r :=
  Response__is_type_of r ql2_pb2.ResponseType.CLIENT_ERROR.
Definition is_compile_error r :=
  Response__is_type_of r ql2_pb2.ResponseType.COMPILE_ERROR.
Definition is_runtime_error r :=
  Response__is_type_of r ql2_pb2.ResponseType.RUNTIME_ERROR.

(** [Response.is_sequential]: the type is one of the two stream types. *)
Definition is_sequential (r : Response) : bool :=
  is_success_partial r || is_success_sequence r.

(** [self.data[0]]. *)
Definition data_0 (r : Response) : result json :=
  match r_data r with
  | x :: _ => Ok x
  | [] => Raise IndexError
  end.

(** The table of [make_error] for runtime errors, with its default. *)
Definition runtime_error_class (error_type : option Z) : ReqlClass :=
  match error_type with
  | None => ReqlRuntimeError
  | Some e =>
      if e =? ql2_pb2.ErrorType.INTERNAL then ReqlInternalError
      else if e =? ql2_pb2.ErrorType.RESOURCE_LIMIT then ReqlResourceLimitError
      else if e =? ql2_pb2.ErrorType.QUERY_LOGIC then ReqlQueryLogicError
      else if e =? ql2_pb2.ErrorType.NON_EXISTENCE then ReqlNonExistenceError
      else if e =? ql2_pb2.ErrorType.OP_FAILED then ReqlOpFailedError
      else if e =? ql2_pb2.ErrorType.OP_INDETERMINATE
           then ReqlOpIndeterminateError
      else if e =? ql2_pb2.ErrorType.USER then ReqlUserError
      else if e =? ql2_pb2.ErrorType.PERMISSION_ERROR then ReqlPermissionError
      else ReqlRuntimeError
  end.

(** [Response.make_error].  It returns the exception; it raises only when
    [self.data[0]] does.  The term and the backtrace that the exception
    also stores serve its printing alone and are left out. *)
Definition make_error (r : Response) (query : Query) : result exn :=
  if is_client_error r then
    let! m := data_0 r in Ok (Reql ReqlDriverError [Val m])
  else if is_compile_error r then
    let! m := data_0 r in Ok (Reql ReqlServerCompileError [Val m])
  else if is_runtime_error r then
    let err_type := runtime_error_class (r_error_type r) in
    let! m := data_0 r in Ok (Reql err_type [Val m])
  else
    Ok (Reql ReqlDriverError
          [Lit "Unknown Response type "; Int (r_type r);
           Lit " encountered in a response."]).

(** What [get_data] can return. *)
Inductive pyvalue : Type :=
| VNone
| VJson (v : json)
| VList (l : list json).

(** [Response.get_data]. *)
Definition get_data (r : Response) (err_trace_query : Query)
    : result pyvalue :=
  if is_success_atom r then
    let! x := data_0 r in Ok (VJson x)
  else if is_sequential r then
    Ok (VList (r_data r))
  else if is_server_info r then
    let! x := data_0 r in Ok (VJson x)
  else if is_wait_complete r then
    Ok VNone
  else
    let! e := make_error r err_trace_query in Raise e.

(** ** [core/net/cursor.py] *)

(** An instance attribute: assigned, or never assigned so far. *)
Inductive attr (A : Type) : Type :=
| Unset
| Assigned (a : A).
Arguments Unset {A}.
Arguments Assigned {A} a.

Definition getattr {A} (name : string) (a : attr A) : result A :=
  match a with
  | Assigned x => Ok x
  | Unset => Raise (AttributeError name)
  end.

(** A [Cursor] object.  [__init__] assigns [ctx], [query], [items] and
    [completed]; [threshold], [outstanding_requests] and [error] exist only
    once some method has assigned them.  [ctx] is the connection, which
    is part of the state the cursor's methods run in. *)
Record Cursor : Type := mkCursor {
  c_query : Query;
  c_items : list json;
  c_completed : bool;
  c_threshold : attr Z;
  c_outstanding_requests : attr Z;
  c_error : attr (option exn);
}.

Definition set_items (v : list json) (c : Cursor) : Cursor :=
  mkCursor (c_query c) v (c_completed c) (c_threshold c)
    (c_outstanding_requests c) (c_error c).
Definition set_completed (v : bool) (c : Cursor) : Cursor :=
  mkCursor (c_query c) (c_items c) v (c_threshold c)
    (c_outstanding_requests c) (c_error c).
Definition set_threshold (v : Z) (c : Cursor) : Cursor :=
  mkCursor (c_query c) (c_items c) (c_completed c) (Assigned v)
    (c_outstanding_requests c) (c_error c).
Definition set_outstanding_requests (v : Z) (c : Cursor) : Cursor :=
  mkCursor (c_query c) (c_items c) (c_completed c) (c_threshold c)
    (Assigned v) (c_error c).
Definition set_error (v : option exn) (c : Cursor) : Cursor :=
  mkCursor (c_query c) (c_items c) (c_completed c) (c_threshold c)
    (c_outstanding_requests c) (Assigned v).

(** [Cursor._extend_internal]; it touches the cursor alone. *)
Definition Cursor__extend_internal (res : Response) : M Cursor unit :=
  exec mmodify (set_threshold (Z.of_nat (length (r_data res)))) in
  let* completed := mgets c_completed in
  if completed : bool then mret tt
  else if is_success_partial res then
    mmodify (fun c => set_items (c_items c ++ r_data res) c)
  else if is_success_sequence res then
    exec mmodify (fun c => set_items (c_items c ++ r_data res) c) in
    mmodify (set_completed true)
  else
    let* query := mgets c_query in
    let* e := mlift (make_error res query) in
    mmodify (set_error (Some e)).

(** [Cursor.__init__]: the attributes it assigns, then
    [_extend_internal(first_response)]. *)
Definition Cursor_init (query : Query) (first_response : Response)
    : result Cursor :=
  let self := mkCursor query [] false Unset Unset Unset in
  match Cursor__extend_internal first_response self with
  | (Ok _, self') => Ok self'
  | (Raise e, _) => Raise e
  end.

(** [_fmt_cursor], as far as it can raise: it reads [obj.error] to choose
    the status text.  [Cursor.__str__] and [__repr__] go through it. *)
Inductive cursor_status : Type :=
| Streaming
| DoneStreaming
| StatusError (e : exn).

Definition _fmt_cursor (obj : Cursor) : result cursor_status :=
  let! error := getattr "error" (c_error obj) in
  match error with
  | None => Ok Streaming
  | Some ReqlCursorEmpty => Ok DoneStreaming
  | Some e => Ok (StatusError e)
  end.

(** The argument of [Cursor.next]: a [bool], a [float] (its value as a
    scaled integer; only its sign is read), or anything else. *)
Inductive pywait : Type :=
| WaitBool (b : bool)
| WaitFloat (millis : Z)
| WaitOther.

(** [Cursor._wait_to_timeout]; the message leaves out the argument it
    quotes. *)
Definition _wait_to_timeout (wait : pywait) : result (option Z) :=
  match wait with
  | WaitBool b => Ok (if b then None else Some 0)
  | WaitFloat f =>
      if 0 <=? f then Ok (Some f)
      else Raise (Reql ReqlDriverError [Lit "Invalid wait timeout"])
  | WaitOther => Raise (Reql ReqlDriverError [Lit "Invalid wait timeout"])
  end.

(** [Cursor._get_next] is abstract and no class of the tree overrides it. *)
Definition Cursor__get_next (timeout : option Z) : result json :=
  Raise NotImplementedError.

(** [Cursor.next]. *)
Definition Cursor_next (wait : pywait) : result json :=
  let! timeout := _wait_to_timeout wait in
  Cursor__get_next timeout.

(** ** [core/net/handshake.py] and [chain_to_bytes] of [core/utilities.py]

    The handshake computes on ASCII text; its byte strings are Rocq
    strings (one character per byte), so that [chain_to_bytes], which
    encodes [str] arguments as latin-1 and joins, is concatenation. *)

Definition chain_to_bytes (strings : list string) : string :=
  foldr String.append EmptyString strings.

(** [s.replace(c, by)] for a one-character pattern. *)
Fixpoint replace_char (c : ascii) (by_ : string) (s : string) : string :=
  match s with
  | EmptyString => EmptyString
  | String a s' =>
      if Ascii.eqb a c then by_ +:+ replace_char c by_ s'
      else String a (replace_char c by_ s')
  end.

(** [s.split(c)]: the pieces between the occurrences of [c]. *)
Fixpoint split_on (c : ascii) (s : string) : list string :=
  match s with
  | EmptyString => [EmptyString]
  | String a s' =>
      if Ascii.eqb a c then EmptyString :: split_on c s'
      else match split_on c s' with
           | p :: ps => String a p :: ps
           | [] => [String a EmptyString]
           end
  end.

(** [key, value = s.split(c, 1)]: unpacking fails without an occurrence. *)
Fixpoint split_once (c : ascii) (s : string) : result (string * string) :=
  match s with
  | EmptyString => Raise ValueError
  | String a s' =>
      if Ascii.eqb a c then Ok (EmptyString, s')
      else let! '(k, v) := split_once c s' in Ok (String a k, v)
  end.

Fixpoint is_ascii (s : string) : bool :=
  match s with
  | EmptyString => true
  | String a s' => (N_of_ascii a <? 128)%N && is_ascii s'
  end.

(** [s.encode("ascii")] and [b.decode("ascii")]. *)
Definition ascii_codec (s : string) : result string :=
  if is_ascii s then Ok s else Raise UnicodeError.

(** Bytewise exclusive or of two equally long byte strings. *)
Fixpoint xor_bytes (l r : string) : string :=
  match l, r with
  | String a l', String b r' =>
      String (ascii_of_N (N.lxor (N_of_ascii a) (N_of_ascii b)))
             (xor_bytes l' r')
  | _, _ => EmptyString
  end.

Definition string_of_bytes (b : bytes) : string :=
  string_of_list_ascii (map (fun z => ascii_of_N (Z.to_N z)) b).
Definition bytes_of_string (s : string) : bytes :=
  map (fun a => Z.of_N (N_of_ascii a)) (list_ascii_of_string s).

(** The library functions the handshake calls: the pluggable JSON encoder
    and decoder, [base64], [hashlib], [hmac], and [int] on text. *)
Class HandshakeLibs : Type := {
  json_encode : pydict -> string;
  json_decode : string -> result pydict;
  b64encode : string -> string;
  b64decode : string -> result string;
  pbkdf2_hmac_sha256 : string -> string -> Z -> result string;
  hmac_sha256 : string -> string -> string;
  sha256 : string -> string;
  int_of_text : string -> result Z;
}.

Record HandshakeV1_0 : Type := mkHandshake {
  hs_username : string;
  hs_password : string;
  _random_nonce : string;
  _first_client_message : string;
  _server_signature : string;
}.

Definition comma : ascii := ",".
Definition equals_sign : ascii := "=".

(** [HandshakeV1_0.reset]. *)
Definition Handshake_reset (self : HandshakeV1_0) : HandshakeV1_0 :=
  mkHandshake (hs_username self) (hs_password self) "" "" "".

(** [HandshakeV1_0.__init__]. *)
Definition Handshake_init (username password : string) : HandshakeV1_0 :=
  Handshake_reset
    (mkHandshake
       (replace_char comma "=2C" (replace_char equals_sign "=3D" username))
       password "" "" "").

Definition protocol_version : Z := 0.

Section Handshake.

Context `{libs : !HandshakeLibs}.

(** [int(x)] for a decoded JSON value: a [float] is truncated towards
    zero, and the constants have no integer value. *)
Definition py_int (v : json) : result Z :=
  match v with
  | JNum z => Ok z
  | JFloat (FFinite num den) => Ok (Z.quot num (Z.pos den))
  | JFloat (FInfinity _) => Raise OverflowError
  | JFloat FNaN => Raise ValueError
  | JBool b => Ok (Z.b2z b)
  | JStr s => int_of_text s
  | _ => Raise TypeError
  end.

(** [d[k]]. *)
Definition dict_item (k : string) (d : pydict) : result json :=
  match dict_get k d with
  | Some v => Ok v
  | None => Raise (KeyError (KStr k))
  end.

(** [__get_authentication_message]: the comma-separated [key=value]
    fields of the server's [authentication] text, later fields
    overwriting earlier ones. *)
Fixpoint auth_fields (parts : list string) (message : gmap string string)
    : result (gmap string string) :=
  match parts with
  | [] => Ok message
  | auth :: rest =>
      let! '(key, value) := split_once equals_sign auth in
      auth_fields rest (<[key := value]> message)
  end.

Definition text_of (v : json) : result string :=
  match v with
  | JStr s => Ok s
  | _ => Raise (AttributeError "encode")
  end.

Definition __get_authentication_message (response : pydict)
    : result (gmap string string) :=
  let! a := dict_item "authentication" response in
  let! a := text_of a in
  let! a := ascii_codec a in
  auth_fields (split_on comma a) ∅.

Definition bytes_item (k : string) (d : gmap string string)
    : result string :=
  match d !! k with
  | Some v => Ok v
  | None => Raise (KeyError (KBytes k))
  end.

(** [__decode_json_response]. *)
Definition __decode_json_response (response : string) : result pydict :=
  let! json_response := json_decode response in
  if negb (from_option truthy false (dict_get "success" json_response)) then
    let! code := dict_item "error_code" json_response in
    let! code := py_int code in
    if (10 <=? code) && (code <=? 20) then
      let! err := dict_item "error" json_response in
      Raise (new_ReqlAuthError err)
    else
      let! err := dict_item "error" json_response in
      Raise (Reql ReqlDriverError [Val err])
  else Ok json_response.

(** [__initialize_connection]; [rand] is what the eighteen calls of
    [SystemRandom().getrandbits(8)] return. *)
Definition __initialize_connection (rand : string)
    : M HandshakeV1_0 string :=
  let* self := mget in
  let nonce := b64encode rand in
  let fcm := chain_to_bytes ["n="; hs_username self; ",r="; nonce] in
  exec mmodify (fun self =>
    mkHandshake (hs_username self) (hs_password self) nonce fcm
      (_server_signature self)) in
  let* version := mlift (struct.pack_L ql2_pb2.Version.V1_0) in
  let* authentication := mlift (ascii_codec (chain_to_bytes ["n,,"; fcm])) in
  mret (chain_to_bytes
          [string_of_bytes version;
           json_encode
             [("protocol_version", JNum protocol_version);
              ("authentication_method", JStr "SCRAM-SHA-256");
              ("authentication", JStr authentication)];
           String zero EmptyString]).

(** [__read_response]. *)
Definition __read_response (response : string) : M HandshakeV1_0 string :=
  let* json_response := mlift (__decode_json_response response) in
  let* lo := mlift (let! v := dict_item "min_protocol_version" json_response
                    in py_int v) in
  let* hi := mlift (let! v := dict_item "max_protocol_version" json_response
                    in py_int v) in
  if negb ((lo <=? protocol_version) && (protocol_version <=? hi)) then
    mraise (Reql ReqlDriverError
              [Lit "Unsupported protocol version "; Int protocol_version;
               Lit ", expected between "; Int lo; Lit " and "; Int hi])
  else mret "".

(** The client proof of [__prepare_auth_request], from the salted
    password and the authentication message.  [struct.unpack("32B", _)]
    raises unless its argument has 32 bytes. *)
Definition client_proof (salted_password auth_message : string)
    : result string :=
  let client_key := hmac_sha256 salted_password "Client Key" in
  let client_signature := hmac_sha256 (sha256 client_key) auth_message in
  if bool_decide (String.length client_key = 32%nat)
     && bool_decide (String.length client_signature = 32%nat)
  then Ok (xor_bytes client_key client_signature)
  else Raise StructError.

(** [__prepare_auth_request]. *)
Definition __prepare_auth_request (response : string)
    : M HandshakeV1_0 string :=
  let* json_response := mlift (__decode_json_response response) in
  let* first_client_message :=
    mlift (let! a := dict_item "authentication" json_response in
           let! a := text_of a in ascii_codec a) in
  let* authentication :=
    mlift (__get_authentication_message json_response) in
  let* random_nonce := mlift (bytes_item "r" authentication) in
  let* self := mget in
  if negb (String.prefix (_random_nonce self) random_nonce) then
    mraise (new_ReqlAuthError (JStr "Invalid nonce from server"))
  else
    let* salt := mlift (let! s := bytes_item "s" authentication in
                        b64decode s) in
    let* iterations := mlift (let! i := bytes_item "i" authentication in
                              int_of_text i) in
    let* salted_password :=
      mlift (pbkdf2_hmac_sha256 (hs_password self) salt iterations) in
    let message_without_proof := chain_to_bytes ["c=biws,r="; random_nonce] in
    let auth_message :=
      chain_to_bytes [_first_client_message self; ","; first_client_message;
                      ","; message_without_proof] in
    let server_signature :=
      hmac_sha256 (hmac_sha256 salted_password "Server Key") auth_message in
    exec mmodify (fun self =>
      mkHandshake (hs_username self) (hs_password self)
        (_random_nonce self) (_first_client_message self)
        server_signature) in
    let* proof := mlift (client_proof salted_password auth_message) in
    let* authentication_text :=
      mlift (ascii_codec
               (chain_to_bytes
                  [message_without_proof; ",p="; b64encode proof])) in
    mret (chain_to_bytes
            [json_encode [("authentication", JStr authentication_text)];
             String zero EmptyString]).

(** [__read_auth_response]; [hmac.compare_digest] is equality. *)
Definition __read_auth_response (response : string)
    : M HandshakeV1_0 unit :=
  let* json_response := mlift (__decode_json_response response) in
  let* authentication :=
    mlift (__get_authentication_message json_response) in
  let* signature := mlift (let! v := bytes_item "v" authentication in
                           b64decode v) in
  let* self := mget in
  if negb (String.eqb signature (_server_signature self)) then
    mraise (new_ReqlAuthError (JStr "Invalid server signature"))
  else mret tt.

End Handshake.

(** ** The connection and what it owns

    One state holds the objects that reference each other: the socket
    client ([net/default_net/_client.py]), the transport
    ([net/default_net/transport.py]), the router ([core/net/protocol.py])
    with its handshake, and the connection ([core/net/connection.py]).

    The cursor cache is a dictionary of weak references: an entry lasts as
    long as its cursor object does.  The state keeps every entry, as when
    something holds on to the cursor.  That is so at the moment a method
    returns or raises, which is the state a result carries here; what the
    real cache drops later, once nothing refers to a cursor any more (the
    cursor built by a call that raised, after the exception is gone), the
    state does not follow.  Error messages keep their fixed
    text and the host and port formatted into them; the text of the
    operating system's error that some of them end with is left out.
    Deadlines bound how long a read may wait and play no part here: the
    peer's stream is given in full. *)

(** What [print] is given: [build_query] and [read_response] both print. *)
Inductive printed : Type :=
| PStr (s : string)
| PToken (t : Token)
| PQuery (q : Query)
| PValue (v : pyvalue)
| PCursor (status : cursor_status) (items : list json).

(** The effects on the outside world, in the order they happen. *)
Inductive Event : Type :=
| EvConnect (host : string) (port : Z) (timeout : option Z)
| EvLoadCert (path : string)
| EvWrapSocket
| EvSend (data : bytes)
| EvShutdown
| EvPrint (args : list printed).

(** How [socket.create_connection] ends.  With a timeout that is not
    positive it never connects (it raises [BlockingIOError] at zero and
    [ValueError] below), so an environment that stands for a real network
    answers such an attempt with [ConnectFailed]. *)
Inductive connect_outcome : Type :=
| Connected (peer : bytes)
| ConnectTimeout
| ConnectFailed.

(** The answers of the outside world: the outcome of a connection attempt
    (when it succeeds, the bytes the peer delivers before it closes the
    stream), whether a certificate file loads, whether the TLS wrapping
    succeeds, and the random bytes drawn for the nonce. *)
Record Env : Type := mkEnv {
  env_connect : string -> Z -> option Z -> connect_outcome;
  env_cert_loads : string -> bool;
  env_wrap_ok : bool;
  env_random : string;
}.

(** Modelled from the spec: the class [TokenGenerator] of
    [core/net/token.py] is not part of the source tree.  Section 4.1: [new]
    returns a new value each call, monotonically increasing from an
    implementation-defined seed; [reset] reinitializes the sequence. *)
Record TokenGenerator : Type := mkTokenGenerator {
  tg_seed : Z;
  tg_next : Z;
}.

Definition TokenGenerator_new (g : TokenGenerator) : Token * TokenGenerator :=
  (tg_next g, mkTokenGenerator (tg_seed g) (tg_next g + 1)).

Definition TokenGenerator_reset (g : TokenGenerator) : TokenGenerator :=
  mkTokenGenerator (tg_seed g) (tg_seed g).

Record World : Type := mkWorld {
  (* DefaultClient *)
  w_host : string;
  w_port : Z;
  w_ssl : option string;       (* the [ca_certs] entry of [SSLParams] *)
  w_socket : option bytes;     (* [__socket]; open: what the peer still delivers *)
  (* DefaultTransport *)
  w_closing : bool;
  (* RdbProtocol *)
  w_waiting_respose : gmap Z Query;
  w_cursor_cache : gmap Z Cursor;
  w_ctx : attr unit;           (* [ctx]: the connection, once [set_ctx] ran *)
  w_handshake : HandshakeV1_0;
  (* Connection *)
  w_db : string;
  w_timeout : Z;
  w_token : TokenGenerator;
  (* the outside world *)
  w_trace : list Event;
}.

Definition set_socket (v : option bytes) (w : World) : World :=
  mkWorld (w_host w) (w_port w) (w_ssl w) v (w_closing w)
    (w_waiting_respose w) (w_cursor_cache w) (w_ctx w) (w_handshake w)
    (w_db w) (w_timeout w) (w_token w) (w_trace w).
Definition set_closing (v : bool) (w : World) : World :=
  mkWorld (w_host w) (w_port w) (w_ssl w) (w_socket w) v
    (w_waiting_respose w) (w_cursor_cache w) (w_ctx w) (w_handshake w)
    (w_db w) (w_timeout w) (w_token w) (w_trace w).
Definition set_waiting_respose (v : gmap Z Query) (w : World) : World :=
  mkWorld (w_host w) (w_port w) (w_ssl w) (w_socket w) (w_closing w)
    v (w_cursor_cache w) (w_ctx w) (w_handshake w)
    (w_db w) (w_timeout w) (w_token w) (w_trace w).
Definition set_cursor_cache (v : gmap Z Cursor) (w : World) : World :=
  mkWorld (w_host w) (w_port w) (w_ssl w) (w_socket w) (w_closing w)
    (w_waiting_respose w) v (w_ctx w) (w_handshake w)
    (w_db w) (w_timeout w) (w_token w) (w_trace w).
Definition set_ctx (w : World) : World :=
  mkWorld (w_host w) (w_port w) (w_ssl w) (w_socket w) (w_closing w)
    (w_waiting_respose w) (w_cursor_cache w) (Assigned tt) (w_handshake w)
    (w_db w) (w_timeout w) (w_token w) (w_trace w).
Definition set_handshake (v : HandshakeV1_0) (w : World) : World :=
  mkWorld (w_host w) (w_port w) (w_ssl w) (w_socket w) (w_closing w)
    (w_waiting_respose w) (w_cursor_cache w) (w_ctx w) v
    (w_db w) (w_timeout w) (w_token w) (w_trace w).
Definition set_token (v : TokenGenerator) (w : World) : World :=
  mkWorld (w_host w) (w_port w) (w_ssl w) (w_socket w) (w_closing w)
    (w_waiting_respose w) (w_cursor_cache w) (w_ctx w) (w_handshake w)
    (w_db w) (w_timeout w) v (w_trace w).
Definition set_trace (v : list Event) (w : World) : World :=
  mkWorld (w_host w) (w_port w) (w_ssl w) (w_socket w) (w_closing w)
    (w_waiting_respose w) (w_cursor_cache w) (w_ctx w) (w_handshake w)
    (w_db w) (w_timeout w) (w_token w) v.

(** Record an effect. *)
Definition emit (e : Event) : M World unit :=
  mmodify (fun w => set_trace (w_trace w ++ [e]) w).

(** A method only adds to the record of effects. *)
Definition trace_grows {A} (m : M World A) : Prop :=
  forall w, exists evs, w_trace (snd (m w)) = w_trace w ++ evs.

(** Run a method of one object inside a state that holds it. *)
Definition zoom_fst {S T A} (m : M S A) : M (S * T) A :=
  fun st => let '(r, s') := m (fst st) in (r, (s', snd st)).
Definition zoom_snd {S T A} (m : M T A) : M (S * T) A :=
  fun st => let '(r, t') := m (snd st) in (r, (fst st, t')).
Definition zoom_handshake {A} (m : M HandshakeV1_0 A) : M World A :=
  fun w => let '(r, h') := m (w_handshake w) in (r, set_handshake h' w).

(** [try: m  except E: handler], with [E] given as a test. *)
Definition mcatch {S A} (m : M S A) (test : exn -> bool)
    (handler : exn -> M S A) : M S A :=
  fun s => match m s with
           | (Raise e, s') => if test e then handler e s' else (Raise e, s')
           | ok => ok
           end.

(** *** [DefaultClient] *)

Definition DefaultClient_is_open (w : World) : bool :=
  match w_socket w with Some _ => true | None => false end.

(** [ReqlTimeoutError(host, port)], called with a [str] and an [int]. *)
Definition new_ReqlTimeoutError (host : string) (port : Z) : exn :=
  if negb (String.eqb host "") && negb (port =? 0) then
    Reql ReqlTimeoutError
      [Lit "Could not connect to "; Lit host; Lit ":"; Int port;
       Lit ", Operation timed out."]
  else Reql ReqlTimeoutError [Lit "Operation timed out."].

(** [DefaultClient.connect]: the socket first, the certificate after. *)
Definition DefaultClient_connect (env : Env) (timeout : option Z)
    : M World unit :=
  let* w := mget in
  exec emit (EvConnect (w_host w) (w_port w) timeout) in
  match env_connect env (w_host w) (w_port w) timeout with
  | ConnectTimeout => mraise (new_ReqlTimeoutError (w_host w) (w_port w))
  | ConnectFailed =>
      mraise (Reql ReqlDriverError
                [Lit "Could not connect to "; Lit (w_host w); Lit ":";
                 Int (w_port w)])
  | Connected peer =>
      exec mmodify (set_socket (Some peer)) in
      match w_ssl w with
      | None => mret tt
      | Some ca_certs =>
          exec emit (EvLoadCert ca_certs) in
          if env_cert_loads env ca_certs then
            exec emit EvWrapSocket in
            if env_wrap_ok env then mret tt
            else mraise (Reql ReqlDriverError [Lit "SSL handshake failed"])
          else mraise (Reql ReqlDriverError [Lit "SSL handshake failed"])
      end
  end.

(** [DefaultClient.close]; errors of the shutdown are logged, not raised. *)
Definition DefaultClient_close : M World unit :=
  let* w := mget in
  if negb (DefaultClient_is_open w) then mret tt
  else
    exec emit EvShutdown in
    mmodify (set_socket None).

(** [DefaultClient.recvall] without a deadline.  The peer's stream is all
    that will ever arrive: when it runs out, [recv] returns no bytes. *)
Definition DefaultClient_recvall (length_ : Z) : M World bytes :=
  let* w := mget in
  if length_ <=? 0 then mret []
  else
    match w_socket w with
    | None =>
        mraise (Reql ReqlDriverError
                  [Lit "Error receiving from "; Lit (w_host w); Lit ":";
                   Int (w_port w)])
    | Some peer =>
        if length_ <=? Z.of_nat (length peer) then
          exec mmodify (set_socket (Some (drop (Z.to_nat length_) peer))) in
          mret (take (Z.to_nat length_) peer)
        else
          exec mmodify (set_socket (Some [])) in
          exec DefaultClient_close in
          mraise (Reql ReqlDriverError [Lit "Connection is closed."])
    end.

(** Where the first separator byte is: what precedes it and what follows. *)
Fixpoint cut_at (sep : Z) (peer : bytes) : option (bytes * bytes) :=
  match peer with
  | [] => None
  | b :: rest =>
      if b =? sep then Some ([], rest)
      else match cut_at sep rest with
           | Some (pre, post) => Some (b :: pre, post)
           | None => None
           end
  end.

(** [DefaultClient.readuntil]: [recvall(1)] until the separator comes. *)
Definition DefaultClient_readuntil (separator : Z) : M World bytes :=
  let* w := mget in
  match w_socket w with
  | None =>
      mraise (Reql ReqlDriverError
                [Lit "Error receiving from "; Lit (w_host w); Lit ":";
                 Int (w_port w)])
  | Some peer =>
      match cut_at separator peer with
      | Some (response, rest) =>
          exec mmodify (set_socket (Some rest)) in mret response
      | None =>
          exec mmodify (set_socket (Some [])) in
          exec DefaultClient_close in
          mraise (Reql ReqlDriverError [Lit "Connection is closed."])
      end
  end.

(** [DefaultClient.sendall]; the peer accepts whatever is written. *)
Definition DefaultClient_sendall (data : bytes) : M World unit :=
  let* w := mget in
  match data with
  | [] => mret tt
  | _ =>
      if DefaultClient_is_open w then emit (EvSend data)
      else mraise (Reql ReqlDriverError
                     [Lit "Error sending to "; Lit (w_host w); Lit ":";
                      Int (w_port w)])
  end.

Section Driver.

Context `{codec : !ReqlCodec} `{libs : !HandshakeLibs}.

(** *** [RdbProtocol.build_query] and the sending half of [run_query] *)

Definition RdbProtocol_build_query (query : Query) (noreply : bool)
    : M World bytes :=
  let* data := mlift (Query_serialize query) in
  exec (if noreply then mret tt
        else
          exec mmodify (fun w =>
            set_waiting_respose
              (<[q_token query := query]> (w_waiting_respose w)) w) in
          emit (EvPrint [PStr "Add"; PToken (q_token query); PQuery query]))
  in mret data.

(** The first two statements of [DefaultTransport.run_query]. *)
Definition DefaultTransport_send_query (query : Query) (noreply : bool)
    : M World unit :=
  let* data := RdbProtocol_build_query query noreply in
  DefaultClient_sendall data.

(** *** [Connection]: the methods a cursor calls through [ctx] *)

Definition Connection_is_open (w : World) : bool := DefaultClient_is_open w.

Definition Connection__check_open : M World unit :=
  let* w := mget in
  if negb (Connection_is_open w)
  then mraise (Reql ReqlDriverError [Lit "Connection is closed."])
  else mret tt.

(** [Connection.resume]: [run_query(query, True)] returns [None] as soon
    as the query is sent. *)
Definition Connection_resume (cursor : Cursor) : M World pyvalue :=
  exec Connection__check_open in
  let query := Q_Continue (q_token (c_query cursor)) None None in
  exec DefaultTransport_send_query query true in
  mret VNone.

(** [Connection.stop]. *)
Definition Connection_stop (cursor : Cursor) : M World pyvalue :=
  exec Connection__check_open in
  let query := Q_Stop (q_token (c_query cursor)) None None in
  exec DefaultTransport_send_query query true in
  mret VNone.

(** *** The cursor's methods that reach the connection *)

(** [Cursor._maybe_fetch_batch]; the conjunction reads the attributes
    from left to right and stops at the first false one. *)
Definition Cursor__maybe_fetch_batch : M (World * Cursor) unit :=
  let* self := mgets snd in
  let* error := mlift (getattr "error" (c_error self)) in
  match error with
  | Some _ => mret tt
  | None =>
      let* threshold := mlift (getattr "threshold" (c_threshold self)) in
      if Z.of_nat (length (c_items self)) <? threshold then
        let* outstanding :=
          mlift (getattr "outstanding_requests"
                   (c_outstanding_requests self)) in
        if outstanding =? 0 then
          exec zoom_snd
                 (mmodify (set_outstanding_requests (outstanding + 1))) in
          let* self := mgets snd in
          exec zoom_fst (Connection_resume self) in
          mret tt
        else mret tt
      else mret tt
  end.

(** [Cursor.extend]. *)
Definition Cursor_extend (res : Response) : M (World * Cursor) unit :=
  let* self := mgets snd in
  let* outstanding :=
    mlift (getattr "outstanding_requests" (c_outstanding_requests self)) in
  exec zoom_snd (mmodify (set_outstanding_requests (outstanding - 1))) in
  exec Cursor__maybe_fetch_batch in
  zoom_snd (Cursor__extend_internal res).

(** [Cursor.close]. *)
Definition Cursor_close : M (World * Cursor) unit :=
  let* self := mgets snd in
  exec zoom_fst (Connection_stop self) in
  mret tt.

(** [Cursor.next], as a method on the same state. *)
Definition Cursor_next_m (wait : pywait) : M (World * Cursor) json :=
  mlift (Cursor_next wait).

(** The operations of a cursor's user and of the router on it. *)
Inductive cursor_op : Type :=
| OpExtend (res : Response)
| OpNext (wait : pywait)
| OpClose.

(** One operation; whatever it raises is the caller's to handle, the
    state it leaves is where the next operation starts. *)
Definition run_op (op : cursor_op) (st : World * Cursor) : World * Cursor :=
  match op with
  | OpExtend res => snd (Cursor_extend res st)
  | OpNext wait => snd (Cursor_next_m wait st)
  | OpClose => snd (Cursor_close st)
  end.

Definition run_ops (ops : list cursor_op) (st : World * Cursor)
    : World * Cursor :=
  fold_left (fun st op => run_op op st) ops st.

Definition is_close (op : cursor_op) : bool :=
  match op with OpClose => true | _ => false end.

(** *** [RdbProtocol.read_response]

    The generator asks for [HEADER_SIZE] bytes, then for the body; what
    it does with each answer is one function per resumption. *)

Definition HEADER_SIZE : Z := 12.

Definition RdbProtocol_read_header (header_buff : bytes)
    : result (Token * Z) :=
  struct.unpack_qL header_buff.

(** What [read_response] binds to [user_data]. *)
Inductive user_data : Type :=
| UCursor (c : Cursor)
| UValue (v : pyvalue).

(** [print(token, user_data)]: a cursor is formatted by its [__str__]. *)
Definition print_user_data (token : Token) (u : user_data)
    : M World unit :=
  match u with
  | UValue v => emit (EvPrint [PToken token; PValue v])
  | UCursor c =>
      let* status := mlift (_fmt_cursor c) in
      emit (EvPrint [PToken token; PCursor status (take 10 (c_items c))])
  end.

(** A method of the cursor cached under [token], run in place: the cache
    holds the object itself, so it sees what the method did to it. *)
Definition on_cached_cursor {A} (token : Token) (cursor : Cursor)
    (m : M (World * Cursor) A) : M World A :=
  fun w =>
    let '(r, (w', cursor')) := m (w, cursor) in
    (r, set_cursor_cache (<[token := cursor']> (w_cursor_cache w')) w').

(** The rest of [read_response], from the body on. *)
Definition RdbProtocol_read_body (token : Token) (body_buff : bytes)
    : M World unit :=
  let* w := mget in
  match w_waiting_respose w !! token with
  | None => mraise (KeyError (KToken token))
  | Some processed_query =>
      exec mmodify (fun w =>
        set_waiting_respose (delete token (w_waiting_respose w)) w) in
      let* response :=
        mlift (Response_init token body_buff (q_kwargs processed_query)) in
      match w_cursor_cache w !! token with
      | Some cursor => on_cached_cursor token cursor (Cursor_extend response)
      | None =>
          let* u :=
            if is_sequential response then
              let* w := mget in
              let* _ := mlift (getattr "ctx" (w_ctx w)) in
              let* c := mlift (Cursor_init processed_query response) in
              exec mmodify (fun w =>
                set_cursor_cache (<[token := c]> (w_cursor_cache w)) w) in
              mret (UCursor c)
            else
              let* v := mlift (get_data response processed_query) in
              mret (UValue v)
          in print_user_data token u
      end
  end.

(** *** [DefaultTransport] *)

(** [DefaultTransport.run_query]: nothing follows the loop that feeds the
    generator, so the method returns [None] on every path. *)
Definition DefaultTransport_run_query (query : Query) (noreply : bool)
    : M World pyvalue :=
  exec DefaultTransport_send_query query noreply in
  if noreply then mret VNone
  else
    let* header_buff := DefaultClient_recvall HEADER_SIZE in
    let* '(token, length_) := mlift (RdbProtocol_read_header header_buff) in
    let* body_buff := DefaultClient_recvall length_ in
    exec RdbProtocol_read_body token body_buff in
    mret VNone.

(** [DefaultTransport.close]. *)
Definition DefaultTransport_close (noreply_wait_quey : option Query)
    : M World unit :=
  exec mmodify (set_closing true) in
  exec match noreply_wait_quey with
       | Some q => exec DefaultTransport_run_query q false in mret tt
       | None => mret tt
       end in
  DefaultClient_close.

(** One turn of the loop of [connect]: send the request unless it is
    empty, then read the answer up to the null byte. *)
Definition handshake_exchange (request : string) : M World string :=
  exec (if String.eqb request "" then mret tt
        else DefaultClient_sendall (bytes_of_string request)) in
  let* resp := DefaultClient_readuntil 0 in
  mret (string_of_bytes resp).

(** [DefaultTransport.connect]: the loop over [HandshakeV1_0.run], whose
    three yields make three turns. *)
Definition DefaultTransport_connect (env : Env) (timeout : option Z)
    : M World unit :=
  exec DefaultClient_connect env timeout in
  exec mcatch
    (let* request :=
       zoom_handshake (exec mmodify Handshake_reset in
                       __initialize_connection (env_random env)) in
     let* init_response := handshake_exchange request in
     let* request := zoom_handshake (__read_response init_response) in
     let* auth_response1 := handshake_exchange request in
     let* request := zoom_handshake (__prepare_auth_request auth_response1) in
     let* auth_response2 := handshake_exchange request in
     zoom_handshake (__read_auth_response auth_response2))
    is_auth_error
    (fun _ =>
       let* w := mget in
       mraise (Reql ReqlDriverError
                 [Lit "Server "; Lit (w_host w); Lit ":"; Int (w_port w)]))
  in
  mmodify set_ctx.

(** *** [Connection] *)

(** [Connection.close]. *)
Definition Connection_close (noreply_wait : bool) : M World unit :=
  let* w := mget in
  if negb (Connection_is_open w) then mret tt
  else
    let* noreply_wait_quey :=
      if noreply_wait then
        let '(token, g) := TokenGenerator_new (w_token w) in
        exec mmodify (set_token g) in
        mret (Some (Q_NoReplayWait token None None))
      else mret None in
    exec DefaultTransport_close noreply_wait_quey in
    mmodify (fun w => set_token (TokenGenerator_reset (w_token w)) w).

(** [Connection.reconnect]. *)
Definition Connection_reconnect (env : Env) (noreply_wait : bool)
    (timeout : option Z) : M World unit :=
  exec Connection_close noreply_wait in
  let* w := mget in
  DefaultTransport_connect env
    (Some (match timeout with None => w_timeout w | Some t => t end)).

(** [Connection.server] and [Connection.noreply_wait]. *)
Definition Connection_server : M World pyvalue :=
  exec Connection__check_open in
  let* w := mget in
  let '(token, g) := TokenGenerator_new (w_token w) in
  exec mmodify (set_token g) in
  DefaultTransport_run_query (Q_Server_Info token None None) false.

Definition Connection_noreply_wait : M World pyvalue :=
  exec Connection__check_open in
  let* w := mget in
  let '(token, g) := TokenGenerator_new (w_token w) in
  exec mmodify (set_token g) in
  DefaultTransport_run_query (Q_NoReplayWait token None None) false.

End Driver.

(** *** [HandshakeV1_0.run]

    The generator, given the three values sent into it; every value it
    yields is appended to the log beside the handshake object, so that a
    failure still shows what had been yielded before it. *)
Section HandshakeRun.

Context `{libs : !HandshakeLibs}.

Definition yield_ (message : string) : M (HandshakeV1_0 * list string) unit :=
  mmodify (fun st => (fst st, snd st ++ [message])).

Definition HandshakeV1_0_run (rand : string)
    (init_response auth_response1 auth_response2 : string)
    : M (HandshakeV1_0 * list string) unit :=
  exec zoom_fst (mmodify Handshake_reset) in
  let* m := zoom_fst (__initialize_connection rand) in
  exec yield_ m in
  let* m := zoom_fst (__read_response init_response) in
  exec yield_ m in
  let* m := zoom_fst (__prepare_auth_request auth_response1) in
  exec yield_ m in
  zoom_fst (__read_auth_response auth_response2).

End HandshakeRun.

(** ** [core/net/conn_config.py] and [connections.py] *)

Record ConnectionConfig : Type := mkConnectionConfig {
  cfg_host : string;
  cfg_port : Z;
  cfg_db : string;
  cfg_user : string;
  cfg_password : string;
  cfg_timeout : Z;
  cfg_ssl : option string;     (* the [ca_certs] entry, if any *)
}.

Definition DEFAULT_PWD : string := "".
Definition DEFAULT_DB : string := "test".
Definition DEFAULT_TIMEOUT : Z := 20.

(** What [urlparse] and [parse_qs] give for a connection URL: the parts
    [ConnectionConfig.new] reads.  The port is what the [port] property
    returns or raises; the timeouts are the values of the query string,
    each as [int] converts it. *)
Record ParsedUrl : Type := mkParsedUrl {
  u_username : option string;
  u_password : option string;
  u_hostname : option string;
  u_port : result (option Z);
  u_path : string;
  u_timeouts : list (result Z);
}.

(** [a or b] on optional text and on optional integers. *)
Definition or_str (a : option string) (b : string) : string :=
  match a with
  | Some s => if String.eqb s "" then b else s
  | None => b
  end.
Definition or_int (a : option Z) (b : Z) : Z :=
  match a with
  | Some z => if z =? 0 then b else z
  | None => b
  end.

Definition slash : ascii := "/".

(** [ConnectionConfig.new]; [url] is [None] for a missing or empty URL. *)
Definition ConnectionConfig_new (host : string) (port : Z) (db user : string)
    (password : option string) (timeout : Z) (ssl : option string)
    (url : option ParsedUrl) : result ConnectionConfig :=
  let password := or_str password DEFAULT_PWD in
  match url with
  | None => Ok (mkConnectionConfig host port db user password timeout ssl)
  | Some connection_string =>
      let user := or_str (u_username connection_string) user in
      let password := or_str (u_password connection_string) password in
      let host := or_str (u_hostname connection_string) host in
      let! url_port := u_port connection_string in
      let port := or_int url_port port in
      let db :=
        or_str (Some (replace_char slash "" (u_path connection_string)))
          DEFAULT_DB in
      let! timeout :=
        match u_timeouts connection_string with
        | [] => Ok DEFAULT_TIMEOUT
        | t :: _ => t
        end in
      Ok (mkConnectionConfig host port db user password timeout ssl)
  end.

(** The [connection_type] argument of [new_connection]. *)
Inductive ConnectionTypes : Type :=
| library_None
| library_asyncio
| library_other.

(** The objects [new_connection] builds from the configuration, before
    [reconnect]; [seed] is where the new [TokenGenerator] starts. *)
Definition World_init (seed : Z) (cfg : ConnectionConfig) : World :=
  mkWorld (cfg_host cfg) (cfg_port cfg) (cfg_ssl cfg) None false ∅ ∅ Unset
    (Handshake_init (cfg_user cfg) (cfg_password cfg))
    (cfg_db cfg) (cfg_timeout cfg) (mkTokenGenerator seed seed) [].

Section NewConnection.

Context `{codec : !ReqlCodec} `{libs : !HandshakeLibs}.

(** [new_connection]: the outcome of [reconnect()] and the state it
    leaves, or the exception raised before [reconnect] is reached.  For
    ["asyncio"] the call of the coroutine method only creates the
    coroutine: nothing of it runs here. *)
Definition new_connection (env : Env) (seed : Z)
    (host : string) (port : Z) (db user password : string) (timeout : Z)
    (ssl : option string) (url : option ParsedUrl)
    (connection_type : ConnectionTypes) : result (result unit * World) :=
  let! _cfg :=
    ConnectionConfig_new host port db user (Some password) timeout ssl url in
  let conn := World_init seed _cfg in
  match connection_type with
  | library_None => Ok (Connection_reconnect env true None conn)
  | library_asyncio => Ok (Ok tt, conn)
  | library_other => Raise ValueError
  end.

End NewConnection.

(** ** More of the client, the connection and the transport *)

(** [DefaultClient.client_port] and [DefaultClient.client_address];
    [sockname] is what [getsockname()] returns on the open socket.  The
    [sock] property raises [RuntimeError] when the socket is not open. *)
Definition DefaultClient_client_port (sockname : string * Z) (w : World)
    : result (option Z) :=
  if negb (DefaultClient_is_open w) then Ok None
  else Ok (Some (snd sockname)).

Definition DefaultClient_client_address (sockname : string * Z) (w : World)
    : result (option string) :=
  if DefaultClient_is_open w then Ok None
  else Raise RuntimeError.

(** [Connection.client_port] and [Connection.client_address], through the
    properties of the same names of the transport. *)
Definition Connection_client_port (sockname : string * Z) (w : World)
    : result (option Z) :=
  if negb (DefaultClient_is_open w) then Ok None
  else DefaultClient_client_port sockname w.

Definition Connection_client_address (sockname : string * Z) (w : World)
    : result (option string) :=
  if negb (DefaultClient_is_open w) then Ok None
  else DefaultClient_client_address sockname w.

(** [SMapper] of [net/default_net/transport.py]: a dictionary from tokens
    to the pair [(query, None)].  The pair is a tuple, which does not
    support item assignment. *)
Abbreviation SMapper := (gmap Z (Query * option Response)).

Definition SMapper_register_query (query : Query) : M SMapper unit :=
  mmodify (fun data => <[q_token query := (query, None)]> data).

Definition SMapper_set_response (response : Response) : M SMapper unit :=
  let* data := mget in
  match data !! r_token response with
  | None => mraise (KeyError (KToken (r_token response)))
  | Some _ => mraise TypeError
  end.

Definition SMapper_pop_response (query : Query)
    : M SMapper (option (Query * option Response)) :=
  let* data := mget in
  exec mmodify (fun data => delete (q_token query) data) in
  mret (data !! q_token query).

(** The two-phase read of [run_query]: the header, then the body whose
    length the header gives. *)
Definition read_frame : M World (Token * bytes) :=
  let* header_buff := DefaultClient_recvall HEADER_SIZE in
  let* '(token, length_) := mlift (RdbProtocol_read_header header_buff) in
  let* body_buff := DefaultClient_recvall length_ in
  mret (token, body_buff).

(** The message list that [Query.serialize] hands to the encoder. *)
Definition Query_message (q : Query) : list json :=
  [JNum (q_type q)]
  ++ match q_term_type q with Some t => [t] | None => [] end
  ++ [JObj (q_kwargs q)].

(** The inverse of the escaping of [HandshakeV1_0.__init__], as a SCRAM
    server undoes it: [=2C] is a comma and [=3D] an equals sign. *)
Fixpoint unescape_username (s : string) : string :=
  match s with
  | String "=" (String "2" (String "C" s')) => String "," (unescape_username s')
  | String "=" (String "3" (String "D" s')) => String "=" (unescape_username s')
  | String a s' => String a (unescape_username s')
  | EmptyString => EmptyString
  end.

(** [c.join(pieces)] for a one-character separator, and the field
    [key=value] of the server's authentication text. *)
Fixpoint join_with (c : ascii) (pieces : list string) : string :=
  match pieces with
  | [] => EmptyString
  | [p] => p
  | p :: rest => p +:+ String c (join_with c rest)
  end.

Definition auth_field (kv : string * string) : string :=
  fst kv +:+ String equals_sign (snd kv).

(** Whether a character occurs in a text. *)
Fixpoint occurs (c : ascii) (s : string) : bool :=
  match s with
  | EmptyString => false
  | String a s' => Ascii.eqb a c || occurs c s'
  end.

(** ** Stand-ins for the pluggable collaborators

    The encoder, the decoder and the handshake's libraries are injected
    into the driver; these small ones make the examples run. *)

(** A query message as the byte of its type followed by one byte per
    further element. *)
Definition demo_encode (message : list json) : bytes :=
  flat_map (fun v => match v with JNum t => [t `mod` 256] | _ => [0] end)
    message.

(** A response body as the byte of its type followed by one data item per
    byte. *)
Definition demo_decode (kwargs : pydict) (body : bytes) : result FullResponse :=
  match body with
  | t :: items => Ok (mkFullResponse t (map JNum items) None None None None)
  | [] => Raise JSONDecodeError
  end.

Definition demo_codec : ReqlCodec :=
  {| reql_encode := demo_encode; reql_decode := demo_decode |}.

(** The server messages of the handshake examples, by name. *)
Definition demo_json_decode (s : string) : result pydict :=
  if String.eqb s "versions" then
    Ok [("success", JBool true); ("min_protocol_version", JNum 0);
        ("max_protocol_version", JNum 0)]
  else if String.eqb s "challenge" then
    Ok [("success", JBool true);
        ("authentication", JStr "r=cmFuZG9tc2VydmVy,s=c2FsdA==,i=4096")]
  else if String.eqb s "foreign-challenge" then
    Ok [("success", JBool true);
        ("authentication", JStr "r=Zm9yZWlnbg==,s=c2FsdA==,i=4096")]
  else if String.eqb s "signature" then
    Ok [("success", JBool true); ("authentication", JStr "v=c2ln")]
  else if String.eqb s "wrong-password" then
    Ok [("success", JBool false); ("error_code", JNum 12);
        ("error", JStr "Wrong password")]
  else if String.eqb s "incompatible" then
    Ok [("success", JBool false); ("error_code", JNum 3);
        ("error", JStr "Unsupported version")]
  else Raise JSONDecodeError.

(** Thirty-two bytes derived from the first character of the message. *)
Fixpoint repeat_char (n : nat) (a : ascii) : string :=
  match n with
  | O => EmptyString
  | S n' => String a (repeat_char n' a)
  end.

Definition demo_digest (key message : string) : string :=
  repeat_char 32 (match key +:+ message with
                  | String a _ => a
                  | EmptyString => zero
                  end).

Definition demo_libs : HandshakeLibs :=
  {| json_encode := fun d =>
       match dict_get "authentication" d with
       | Some (JStr a) => a
       | _ => ""
       end;
     json_decode := demo_json_decode;
     b64encode := fun s => "cmFuZG9t" +:+ s;
     b64decode := fun s => Ok s;
     pbkdf2_hmac_sha256 := fun password salt iterations =>
       if 0 <? iterations then Ok (password +:+ salt) else Raise ValueError;
     hmac_sha256 := demo_digest;
     sha256 := fun s => demo_digest s "";
     int_of_text := fun s =>
       if String.eqb s "4096" then Ok 4096 else Raise ValueError |}.

(** Libraries whose decoder knows three more server messages: a
    challenge whose foreign nonce is followed by a piece that is no field,
    a rejection that carries a code and no [error], and a rejection whose
    code is the float 20.5. *)
Definition odd_server_libs : HandshakeLibs :=
  {| json_encode := json_encode (HandshakeLibs := demo_libs);
     json_decode := fun s =>
       if String.eqb s "malformed-challenge" then
         Ok [("success", JBool true);
             ("authentication", JStr "r=Zm9yZWlnbg==,junk")]
       else if String.eqb s "code-without-error" then
         Ok [("success", JBool false); ("error_code", JNum 12)]
       else if String.eqb s "fractional-code" then
         Ok [("success", JBool false);
             ("error_code", JFloat (FFinite 41 2));
             ("error", JStr "Wrong password")]
       else demo_json_decode s;
     b64encode := b64encode (HandshakeLibs := demo_libs);
     b64decode := b64decode (HandshakeLibs := demo_libs);
     pbkdf2_hmac_sha256 := pbkdf2_hmac_sha256 (HandshakeLibs := demo_libs);
     hmac_sha256 := hmac_sha256 (HandshakeLibs := demo_libs);
     sha256 := sha256 (HandshakeLibs := demo_libs);
     int_of_text := int_of_text (HandshakeLibs := demo_libs) |}.

(** A network where the server is there and says nothing, and where no
    certificate file exists.  An attempt with a timeout that is not
    positive never connects: [socket.create_connection] raises for it
    ([BlockingIOError] at zero, [ValueError] below), which
    [DefaultClient.connect] reports as "Could not connect". *)
Definition demo_env : Env :=
  {| env_connect := fun _ _ timeout =>
       match timeout with
       | Some t => if t <=? 0 then ConnectFailed else Connected []
       | None => Connected []
       end;
     env_cert_loads := fun _ => false;
     env_wrap_ok := true;
     env_random := "" |}.

(** A server that answers the first message of the handshake with
    "wrong password". *)
Definition rejecting_env : Env :=
  {| env_connect := fun _ _ _ =>
       Connected (bytes_of_string "wrong-password" ++ [0]);
     env_cert_loads := fun _ => false;
     env_wrap_ok := true;
     env_random := "" |}.

(** Libraries whose decoder returns a rejection that carries nothing but
    its [success] field. *)
Definition bare_rejection_libs : HandshakeLibs :=
  {| json_encode := json_encode (HandshakeLibs := demo_libs);
     json_decode := fun _ => Ok [("success", JBool false)];
     b64encode := b64encode (HandshakeLibs := demo_libs);
     b64decode := b64decode (HandshakeLibs := demo_libs);
     pbkdf2_hmac_sha256 := pbkdf2_hmac_sha256 (HandshakeLibs := demo_libs);
     hmac_sha256 := hmac_sha256 (HandshakeLibs := demo_libs);
     sha256 := sha256 (HandshakeLibs := demo_libs);
     int_of_text := int_of_text (HandshakeLibs := demo_libs) |}.

(** Libraries and a server for a login that succeeds: the third answer
    carries the signature the client computes. *)
Definition accepting_libs : HandshakeLibs :=
  {| json_encode := json_encode (HandshakeLibs := demo_libs);
     json_decode := fun s =>
       if String.eqb s "good-signature" then
         Ok [("success", JBool true);
             ("authentication", JStr ("v=" +:+ repeat_char 32 "c"))]
       else demo_json_decode s;
     b64encode := b64encode (HandshakeLibs := demo_libs);
     b64decode := b64decode (HandshakeLibs := demo_libs);
     pbkdf2_hmac_sha256 := pbkdf2_hmac_sha256 (HandshakeLibs := demo_libs);
     hmac_sha256 := hmac_sha256 (HandshakeLibs := demo_libs);
     sha256 := sha256 (HandshakeLibs := demo_libs);
     int_of_text := int_of_text (HandshakeLibs := demo_libs) |}.

Definition accepting_env : Env :=
  {| env_connect := fun _ _ _ =>
       Connected (bytes_of_string "versions" ++ 0
                  :: bytes_of_string "challenge" ++ 0
                  :: bytes_of_string "good-signature" ++ 0 :: [9]);
     env_cert_loads := fun _ => false;
     env_wrap_ok := true;
     env_random := "" |}.

(** A connection that has never been connected. *)
Definition fresh_world : World :=
  mkWorld "localhost" 28015 None None false ∅ ∅ Unset
    (Handshake_init "admin" "") "test" 20 (mkTokenGenerator 0 0) [].

(** A network that refuses every connection. *)
Definition refusing_env : Env :=
  {| env_connect := fun _ _ _ => ConnectFailed;
     env_cert_loads := fun _ => false;
     env_wrap_ok := true;
     env_random := "" |}.

(** A connected world with nothing in flight; [peer] is what the server
    will deliver. *)
Definition demo_world (peer : bytes) : World :=
  mkWorld "localhost" 28015 None (Some peer) false ∅ ∅ (Assigned tt)
    (Handshake_init "admin" "") "test" 20 (mkTokenGenerator 0 0) [].

(** * Properties *)

(** ** The frame codec *)

Section FrameCodec.

Context `{codec : !ReqlCodec}.

Lemma pack_QL_inv q l frame :
  struct.pack_QL q l = Ok frame ->
  0 <= q < 2 ^ 64 /\ 0 <= l < 2 ^ 32 /\
  frame = Z_to_little_endian 8 8 q ++ Z_to_little_endian 4 8 l.
Proof.
  unfold struct.pack_QL. intros H.
  destruct (bool_decide (0 <= q < 2 ^ 64)) eqn:Hq; simpl in H; [|discriminate].
  destruct (bool_decide (0 <= l < 2 ^ 32)) eqn:Hl; simpl in H; [|discriminate].
  apply bool_decide_eq_true in Hq, Hl. by inversion H.
Qed.

Lemma length_little_endian (m : Z) (z : Z) :
  0 <= m -> length (Z_to_little_endian m 8 z) = Z.to_nat m.
Proof.
  intros Hm. pose proof (length_Z_to_little_endian m 8 z Hm). lia.
Qed.

(** What the header parser reads back from a packed header: the length
    as packed, and the token as packed only below [2 ^ 63]. *)
Lemma unpack_pack q l header :
  struct.pack_QL q l = Ok header ->
  struct.unpack_qL header
  = Ok (if bool_decide (q < 2 ^ 63) then q else q - 2 ^ 64, l).
Proof.
  intros H. apply pack_QL_inv in H as (Hq & Hl & ->).
  unfold struct.unpack_qL.
  rewrite bool_decide_eq_true_2
    by (rewrite length_app, !length_little_endian by lia; reflexivity).
  rewrite take_app_length' by (rewrite length_little_endian by lia; reflexivity).
  rewrite drop_app_length' by (rewrite length_little_endian by lia; reflexivity).
  rewrite !little_endian_to_Z_to_little_endian by lia.
  rewrite (Z.mod_small q) by (change (2 ^ (8 * 8)) with (2 ^ 64); lia).
  rewrite (Z.mod_small l) by (change (2 ^ (4 * 8)) with (2 ^ 32); lia).
  reflexivity.
Qed.

(** A serialized query is its twelve-byte header followed by the encoded
    message. *)
Lemma Query_serialize_inv query frame :
  Query_serialize query = Ok frame ->
  exists header body,
    frame = header ++ body /\ length header = 12%nat /\
    struct.pack_QL (q_token query) (Z.of_nat (length body)) = Ok header.
Proof.
  unfold Query_serialize. intros H.
  match type of H with
  | context [struct.pack_QL ?t ?n] =>
      destruct (struct.pack_QL t n) as [header|] eqn:Hp; [|discriminate]
  end.
  simpl in H. inversion H; subst. eexists _, _. split; [reflexivity|].
  split; [|exact Hp].
  apply pack_QL_inv in Hp as (? & ? & ->).
  rewrite length_app, !length_little_endian by lia. reflexivity.
Qed.

(** The round trip for the tokens below [2 ^ 63]. *)
Lemma frame_round_trip query frame :
  Query_serialize query = Ok frame ->
  q_token query < 2 ^ 63 ->
  RdbProtocol_read_header (take 12 frame)
  = Ok (q_token query, Z.of_nat (length (drop 12 frame))).
Proof.
  intros H Hlt. apply Query_serialize_inv in H as (header & body & -> & Hlen & Hp).
  rewrite take_app_length', drop_app_length' by done.
  unfold RdbProtocol_read_header. rewrite (unpack_pack _ _ _ Hp).
  by rewrite bool_decide_eq_true_2.
Qed.

(** C4 (frame round trip), where it breaks: the serializer writes the
    token as an unsigned 64-bit integer and the header parser reads it as a
    signed one, so for every query that serializes with a token of [2 ^ 63]
    or more, the parsed header carries the body length but a token that is
    the sent one minus [2 ^ 64], not the token sent. *)
Theorem frame_token_sign_mismatch query frame :
  Query_serialize query = Ok frame ->
  2 ^ 63 <= q_token query ->
  RdbProtocol_read_header (take 12 frame)
  = Ok (q_token query - 2 ^ 64, Z.of_nat (length (drop 12 frame))) /\
  q_token query - 2 ^ 64 <> q_token query.
Proof.
  intros H Hge. split; [|lia].
  apply Query_serialize_inv in H as (header & body & -> & Hlen & Hp).
  rewrite take_app_length', drop_app_length' by done.
  unfold RdbProtocol_read_header. rewrite (unpack_pack _ _ _ Hp).
  by rewrite bool_decide_eq_false_2 by lia.
Qed.

End FrameCodec.

(** An instance: a START query with the token [2 ^ 63] comes back as
    [- 2 ^ 63]. *)
Lemma frame_token_sign_mismatch_witness :
  let query := Q_Start (2 ^ 63) (Some (JStr "r.table")) None in
  let frame := [0; 0; 0; 0; 0; 0; 0; 128; 3; 0; 0; 0; 1; 0; 0] in
  Query_serialize (codec := demo_codec) query = Ok frame /\
  RdbProtocol_read_header (take 12 frame) = Ok (- 2 ^ 63, 3).
Proof.
  split; [reflexivity|].
  exact (proj1 (frame_token_sign_mismatch (codec := demo_codec)
                  (Q_Start (2 ^ 63) (Some (JStr "r.table")) None)
                  [0; 0; 0; 0; 0; 0; 0; 128; 3; 0; 0; 0; 1; 0; 0]
                  eq_refl ltac:(vm_compute; discriminate))).
Defined.

(** ** Running monadic code in proofs *)

Ltac unfold_m :=
  unfold mbind, mget, mgets, mmodify, mret, mraise, mlift, mcatch,
    zoom_fst, zoom_snd, zoom_handshake, emit in *.

Ltac run_m := unfold_m; simpl in *.

(** ** The cursor *)

Section CursorProperties.

Context `{codec : !ReqlCodec}.

(** [_extend_internal] never touches the request counter. *)
Lemma extend_internal_outstanding res c :
  c_outstanding_requests (snd (Cursor__extend_internal res c))
  = c_outstanding_requests c.
Proof.
  unfold Cursor__extend_internal. run_m.
  destruct (c_completed c); [reflexivity|].
  destruct (is_success_partial res); [reflexivity|].
  destruct (is_success_sequence res); [reflexivity|].
  destruct (make_error res _); reflexivity.
Qed.

(** [__init__] leaves [outstanding_requests] unassigned. *)
Lemma Cursor_init_outstanding query first_response c :
  Cursor_init query first_response = Ok c ->
  c_outstanding_requests c = Unset.
Proof.
  unfold Cursor_init. intros H.
  pose proof (extend_internal_outstanding first_response
                (mkCursor query [] false Unset Unset Unset)) as Hc.
  destruct (Cursor__extend_internal _ _) as [[[]|e] c']; simplify_eq.
  exact Hc.
Qed.

(** Without the counter, [extend] raises at its first statement and
    changes nothing. *)
Lemma extend_without_counter res w c :
  c_outstanding_requests c = Unset ->
  Cursor_extend res (w, c)
  = (Raise (AttributeError "outstanding_requests"), (w, c)).
Proof. intros H. unfold Cursor_extend. run_m. rewrite H. reflexivity. Qed.

(** [next] changes nothing: it raises before it could. *)
Lemma next_raises wait st :
  exists e, Cursor_next_m wait st = (Raise e, st).
Proof.
  unfold Cursor_next_m, Cursor_next, Cursor__get_next. run_m.
  destruct (_wait_to_timeout wait); simpl; eauto.
Qed.

(** [close] does not touch the cursor. *)
Lemma close_keeps_cursor w c :
  snd (snd (Cursor_close (w, c))) = c.
Proof.
  unfold Cursor_close. run_m.
  destruct (Connection_stop c w) as [[?|?] ?]; reflexivity.
Qed.

(** On a cursor as [__init__] leaves it, only [close] has any effect:
    the counter stays unassigned through every sequence of operations,
    so that no [extend] ever gets to ask for a batch. *)
Lemma counter_never_assigned ops w c :
  c_outstanding_requests c = Unset ->
  snd (run_ops ops (w, c)) = c /\
  run_ops ops (w, c) = run_ops (filter is_close ops) (w, c).
Proof.
  revert w. induction ops as [|op ops IH]; intros w Hc; [done|].
  change (run_ops (op :: ops) (w, c))
    with (run_ops ops (run_op op (w, c))).
  destruct op as [res|wait|]; unfold run_op at 1 2.
  - rewrite extend_without_counter by done.
    change (filter is_close (OpExtend res :: ops))
      with (filter is_close ops).
    by apply IH.
  - destruct (next_raises wait (w, c)) as [e ->].
    change (filter is_close (OpNext wait :: ops))
      with (filter is_close ops).
    by apply IH.
  - pose proof (close_keeps_cursor w c) as Hk.
    change (filter is_close (OpClose :: ops))
      with (OpClose :: filter is_close ops).
    change (run_ops (OpClose :: filter is_close ops) (w, c))
      with (run_ops (filter is_close ops) (snd (Cursor_close (w, c)))).
    destruct (Cursor_close (w, c)) as [r [w' c']]. simpl in Hk. subst c'.
    by apply IH.
Qed.

(** [_maybe_fetch_batch] on a cursor whose attributes are all assigned:
    it counts a request and calls [resume] exactly when no error is set,
    fewer items than the threshold are buffered and no request is
    outstanding; otherwise it does nothing. *)
Lemma maybe_fetch_batch_spec w c error threshold outstanding :
  c_error c = Assigned error ->
  c_threshold c = Assigned threshold ->
  c_outstanding_requests c = Assigned outstanding ->
  Cursor__maybe_fetch_batch (w, c)
  = if bool_decide (error = None)
       && (Z.of_nat (length (c_items c)) <? threshold)
       && (outstanding =? 0)
    then
      let c' := set_outstanding_requests 1 c in
      match Connection_resume c' w with
      | (Ok _, w') => (Ok tt, (w', c'))
      | (Raise e, w') => (Raise e, (w', c'))
      end
    else (Ok tt, (w, c)).
Proof.
  intros He Ht Ho. unfold Cursor__maybe_fetch_batch. run_m.
  rewrite He, Ht, Ho. simpl.
  destruct error as [e|]; simpl; [reflexivity|].
  destruct (Z.of_nat (length (c_items c)) <? threshold); simpl;
    [|reflexivity].
  destruct (outstanding =? 0) eqn:Hz; simpl; [|reflexivity].
  apply Z.eqb_eq in Hz. subst outstanding. simpl.
  destruct (Connection_resume _ w) as [[?|?] ?]; reflexivity.
Qed.

(** [extend] is the decrement and the prefetch check, then
    [_extend_internal] on the cursor these leave. *)
Lemma Cursor_extend_unfold res w c outstanding :
  c_outstanding_requests c = Assigned outstanding ->
  Cursor_extend res (w, c)
  = match Cursor__maybe_fetch_batch
            (w, set_outstanding_requests (outstanding - 1) c) with
    | (Ok _, (w', c')) =>
        let '(r, c'') := Cursor__extend_internal res c' in (r, (w', c''))
    | (Raise e, st) => (Raise e, st)
    end.
Proof.
  intros Ho. unfold Cursor_extend. run_m. rewrite Ho. simpl.
  destruct (Cursor__maybe_fetch_batch _) as [[[]|e] [w' c']]; reflexivity.
Qed.

(** C3 (the request counter), on every cursor the code creates:
    [__init__] never assigns [outstanding_requests], so the counter is not
    0 or 1 but missing; every [extend] raises [AttributeError] at its first
    statement and changes nothing, so no CONTINUE is ever issued; and
    through every sequence of [extend], [next] and [close] the counter
    stays unassigned, only [close] having any effect. *)
Theorem cursor_counter_never_initialized query first c w ops :
  Cursor_init query first = Ok c ->
  c_outstanding_requests c = Unset /\
  (forall res,
     Cursor_extend res (w, c)
     = (Raise (AttributeError "outstanding_requests"), (w, c))) /\
  c_outstanding_requests (snd (run_ops ops (w, c))) = Unset /\
  run_ops ops (w, c) = run_ops (filter is_close ops) (w, c).
Proof.
  intros Hinit. pose proof (Cursor_init_outstanding _ _ _ Hinit) as Hunset.
  destruct (counter_never_assigned ops w c Hunset) as [Hsame Hclose].
  split_and!; [done| |by rewrite Hsame|done].
  intros res. by apply extend_without_counter.
Qed.

End CursorProperties.

Section CursorExtend.

Context `{codec : !ReqlCodec}.

Lemma sequence_is_not_partial res :
  is_success_sequence res = true -> is_success_partial res = false.
Proof.
  unfold is_success_sequence, is_success_partial, Response__is_type_of.
  intros H%Z.eqb_eq. rewrite H. reflexivity.
Qed.

(** What [_extend_internal] does to a cursor, case by case. *)
Lemma extend_internal_spec res c :
  let n := Z.of_nat (length (r_data res)) in
  let r := fst (Cursor__extend_internal res c) in
  let c' := snd (Cursor__extend_internal res c) in
  c_threshold c' = Assigned n /\
  (c_completed c = true -> r = Ok tt /\ c' = set_threshold n c) /\
  (c_completed c = false -> is_success_partial res = true ->
     r = Ok tt /\ c_items c' = c_items c ++ r_data res /\
     c_completed c' = false /\ c_error c' = c_error c) /\
  (c_completed c = false -> is_success_sequence res = true ->
     r = Ok tt /\ c_items c' = c_items c ++ r_data res /\
     c_completed c' = true /\ c_error c' = c_error c) /\
  (c_completed c = false -> is_sequential res = false ->
     forall e, make_error res (c_query c) = Ok e ->
     r = Ok tt /\ c_items c' = c_items c /\
     c_completed c' = false /\ c_error c' = Assigned (Some e)).
Proof.
  unfold Cursor__extend_internal, is_sequential. run_m.
  destruct (c_completed c) eqn:Hcomp.
  { split_and!; intros; simplify_eq/=; done. }
  destruct (is_success_partial res) eqn:Hp.
  { split_and!; intros; simplify_eq/=; try done.
    match goal with
    | Hs : is_success_sequence res = true |- _ =>
        apply sequence_is_not_partial in Hs; congruence
    end. }
  destruct (is_success_sequence res) eqn:Hs.
  { split_and!; intros; simplify_eq/=; done. }
  destruct (make_error res _) as [e|x] eqn:He;
    split_and!; intros; simplify_eq/=; done.
Qed.

(** The prefetch check changes nothing of a cursor but its counter. *)
Lemma maybe_fetch_batch_cursor w c :
  let c' := snd (snd (Cursor__maybe_fetch_batch (w, c))) in
  c_query c' = c_query c /\ c_items c' = c_items c /\
  c_completed c' = c_completed c /\ c_error c' = c_error c /\
  c_threshold c' = c_threshold c.
Proof.
  unfold Cursor__maybe_fetch_batch. run_m.
  destruct (c_error c) as [|[e|]] eqn:He; simpl; try (by split_and!).
  destruct (c_threshold c) as [|t] eqn:Ht; simpl; try (by split_and!).
  destruct (_ <? t); simpl; try (by split_and!).
  destruct (c_outstanding_requests c) as [|o]; simpl; try (by split_and!).
  destruct (o =? 0); simpl; try (by split_and!).
  destruct (Connection_resume _ w) as [[?|?] ?]; by split_and!.
Qed.

(** What [extend] does with a response once its counter is there: on a
    cursor whose request counter is assigned, once the decrement and the
    prefetch check have completed, [extend] sets the threshold to the
    size of the batch; a cursor that is already completed is otherwise
    left as it is; on any other cursor a SUCCESS_PARTIAL response appends
    its items, a SUCCESS_SEQUENCE response appends its items and sets
    [completed], and a response of any other type has the error that
    [make_error] builds recorded as the cursor's error, with no item
    appended. *)
Lemma extend_consumes_response res w c outstanding w1 c1 :
  c_outstanding_requests c = Assigned outstanding ->
  Cursor__maybe_fetch_batch
    (w, set_outstanding_requests (outstanding - 1) c) = (Ok tt, (w1, c1)) ->
  exists r c',
    Cursor_extend res (w, c) = (r, (w1, c')) /\
    c_threshold c' = Assigned (Z.of_nat (length (r_data res))) /\
    (c_completed c = true ->
       r = Ok tt /\ c_items c' = c_items c /\ c_completed c' = true /\
       c_error c' = c_error c) /\
    (c_completed c = false -> is_success_partial res = true ->
       r = Ok tt /\ c_items c' = c_items c ++ r_data res /\
       c_completed c' = false /\ c_error c' = c_error c) /\
    (c_completed c = false -> is_success_sequence res = true ->
       r = Ok tt /\ c_items c' = c_items c ++ r_data res /\
       c_completed c' = true /\ c_error c' = c_error c) /\
    (c_completed c = false -> is_sequential res = false ->
       forall e, make_error res (c_query c) = Ok e ->
       r = Ok tt /\ c_items c' = c_items c /\
       c_completed c' = false /\ c_error c' = Assigned (Some e)).
Proof.
  intros Ho Hfetch.
  pose proof (maybe_fetch_batch_cursor w
                (set_outstanding_requests (outstanding - 1) c)) as Hsame.
  rewrite Hfetch in Hsame. simpl in Hsame.
  destruct Hsame as (Hq & Hi & Hc & He & _).
  rewrite (Cursor_extend_unfold res w c outstanding Ho), Hfetch.
  pose proof (extend_internal_spec res c1) as Hspec. simpl in Hspec.
  destruct (Cursor__extend_internal res c1) as [r c'] eqn:Hint.
  simpl in Hspec. destruct Hspec as (Ht & Hdone & Hpart & Hseq & Herr).
  rewrite Hq, Hi, Hc, He in *.
  exists r, c'. split; [reflexivity|]. split; [exact Ht|].
  split; [|split; [exact Hpart|split; [exact Hseq|exact Herr]]].
  intros Hcomp. destruct (Hdone Hcomp) as [-> ->]. simpl.
  rewrite Hi, Hc, He. done.
Qed.

(** C6 (what [extend] does with a response), on every cursor the code
    creates: [__init__] leaves [outstanding_requests] unassigned, so
    [extend] raises [AttributeError] at its first statement, before it
    looks at the response: the connection and the cursor are as they
    were, the items of a non-empty response are not appended, and on the
    cursor of a SUCCESS_PARTIAL first response no later response sets
    [completed] or records an error. *)
Theorem extend_raises_before_consuming query first c w res :
  Cursor_init query first = Ok c ->
  Cursor_extend res (w, c)
  = (Raise (AttributeError "outstanding_requests"), (w, c)) /\
  (r_data res <> [] ->
   c_items (snd (snd (Cursor_extend res (w, c))))
   <> c_items c ++ r_data res) /\
  (is_success_partial first = true ->
   c_items (snd (snd (Cursor_extend res (w, c)))) = r_data first /\
   c_completed (snd (snd (Cursor_extend res (w, c)))) = false /\
   c_error (snd (snd (Cursor_extend res (w, c)))) = Unset).
Proof.
  intros Hinit.
  assert (Cursor_extend res (w, c)
          = (Raise (AttributeError "outstanding_requests"), (w, c))) as Hraise.
  { apply extend_without_counter. by eapply Cursor_init_outstanding. }
  rewrite Hraise. cbn [snd]. split; [reflexivity|]. split.
  - intros Hdata Hitems. apply (f_equal length) in Hitems.
    rewrite length_app in Hitems.
    destruct (r_data res); [done|]. simpl in Hitems. lia.
  - intros Hpartial. revert Hinit.
    unfold Cursor_init, Cursor__extend_internal. run_m.
    rewrite Hpartial. by intros [= <-].
Qed.

End CursorExtend.

(** An instance: the cursor of a SUCCESS_PARTIAL first response is given
    the SUCCESS_SEQUENCE batch that ends the stream. *)
Lemma extend_raises_before_consuming_witness :
  let query := Q_Start 0 (Some (JStr "r.table")) None in
  let first := mkResponse 0 ql2_pb2.ResponseType.SUCCESS_PARTIAL [JNum 1]
                 None None None None in
  let batch := mkResponse 0 ql2_pb2.ResponseType.SUCCESS_SEQUENCE [JNum 2]
                 None None None None in
  let c := mkCursor query [JNum 1] false (Assigned 1) Unset Unset in
  let after := snd (snd (Cursor_extend (codec := demo_codec) batch
                           (demo_world [], c))) in
  Cursor_init query first = Ok c /\
  fst (Cursor_extend (codec := demo_codec) batch (demo_world [], c))
  = Raise (AttributeError "outstanding_requests") /\
  c_items after <> [JNum 1; JNum 2] /\
  c_items after = [JNum 1] /\
  c_completed after = false.
Proof.
  cbv zeta.
  destruct (extend_raises_before_consuming (codec := demo_codec)
              (Q_Start 0 (Some (JStr "r.table")) None)
              (mkResponse 0 ql2_pb2.ResponseType.SUCCESS_PARTIAL [JNum 1]
                 None None None None)
              (mkCursor (Q_Start 0 (Some (JStr "r.table")) None) [JNum 1]
                 false (Assigned 1) Unset Unset)
              (demo_world [])
              (mkResponse 0 ql2_pb2.ResponseType.SUCCESS_SEQUENCE [JNum 2]
                 None None None None)
              eq_refl)
    as (Hraise & Hitems & Hpartial).
  split; [reflexivity|]. split; [by rewrite Hraise|].
  split; [exact (Hitems ltac:(discriminate))|].
  destruct (Hpartial eq_refl) as (Hkept & Hcompleted & _).
  split; [exact Hkept|exact Hcompleted].
Defined.

(** An instance: the cursor for a SUCCESS_PARTIAL first response, and the
    batch that follows it. *)
Lemma cursor_counter_never_initialized_witness :
  let query := Q_Start 0 (Some (JStr "r.table")) None in
  let first := mkResponse 0 ql2_pb2.ResponseType.SUCCESS_PARTIAL [JNum 1]
                 None None None None in
  let batch := mkResponse 0 ql2_pb2.ResponseType.SUCCESS_SEQUENCE [JNum 2]
                 None None None None in
  let c := mkCursor query [JNum 1] false (Assigned 1) Unset Unset in
  Cursor_init query first = Ok c /\
  Cursor_extend (codec := demo_codec) batch (demo_world [], c)
  = (Raise (AttributeError "outstanding_requests"), (demo_world [], c)).
Proof.
  split; [reflexivity|].
  exact (proj1 (proj2 (cursor_counter_never_initialized (codec := demo_codec)
           (Q_Start 0 (Some (JStr "r.table")) None)
           (mkResponse 0 ql2_pb2.ResponseType.SUCCESS_PARTIAL [JNum 1]
              None None None None)
           (mkCursor (Q_Start 0 (Some (JStr "r.table")) None) [JNum 1] false
              (Assigned 1) Unset Unset)
           (demo_world []) [] eq_refl))
         (mkResponse 0 ql2_pb2.ResponseType.SUCCESS_SEQUENCE [JNum 2]
            None None None None)).
Defined.

(** ** The router and the transport *)

Section Router.

Context `{codec : !ReqlCodec} `{libs : !HandshakeLibs}.

(** A body whose token has no pending request raises [KeyError] from
    [dict.pop], whether or not a cursor is registered for the token. *)
Lemma read_body_unmatched_token w token body_buff :
  w_waiting_respose w !! token = None ->
  RdbProtocol_read_body token body_buff w = (Raise (KeyError (KToken token)), w).
Proof. intros H. unfold RdbProtocol_read_body. run_m. by rewrite H. Qed.

(** The classification of [get_data], type by type. *)
Lemma get_data_success_atom r q :
  is_success_atom r = true ->
  get_data r q = (let! x := data_0 r in Ok (VJson x)).
Proof. intros H. unfold get_data. by rewrite H. Qed.

Lemma types_distinct r :
  (is_success_atom r = true ->
     is_sequential r = false /\ is_server_info r = false /\
     is_wait_complete r = false) /\
  (is_server_info r = true ->
     is_success_atom r = false /\ is_sequential r = false /\
     is_wait_complete r = false) /\
  (is_wait_complete r = true ->
     is_success_atom r = false /\ is_sequential r = false /\
     is_server_info r = false).
Proof.
  unfold is_sequential, is_success_atom, is_success_partial,
    is_success_sequence, is_server_info, is_wait_complete,
    Response__is_type_of.
  split_and!; intros H%Z.eqb_eq; rewrite H; done.
Qed.

Lemma get_data_server_info r q :
  is_server_info r = true ->
  get_data r q = (let! x := data_0 r in Ok (VJson x)).
Proof.
  intros H. destruct (types_distinct r) as (_ & Hs & _).
  destruct (Hs H) as (Ha & Hq & _). unfold get_data. by rewrite Ha, Hq, H.
Qed.

Lemma get_data_wait_complete r q :
  is_wait_complete r = true -> get_data r q = Ok VNone.
Proof.
  intros H. destruct (types_distinct r) as (_ & _ & Hw).
  destruct (Hw H) as (Ha & Hq & Hs). unfold get_data. by rewrite Ha, Hq, Hs, H.
Qed.

(** Every other type that is not a stream raises what [make_error]
    builds. *)
Lemma get_data_error r q :
  is_success_atom r = false -> is_sequential r = false ->
  is_server_info r = false -> is_wait_complete r = false ->
  get_data r q = (let! e := make_error r q in Raise e).
Proof. intros Ha Hq Hs Hw. unfold get_data. by rewrite Ha, Hq, Hs, Hw. Qed.

(** A runtime error is typed by the error subtype of the response. *)
Lemma make_error_runtime r q m :
  is_runtime_error r = true -> data_0 r = Ok m ->
  make_error r q = Ok (Reql (runtime_error_class (r_error_type r)) [Val m]).
Proof.
  intros H Hm. unfold make_error.
  assert (is_client_error r = false /\ is_compile_error r = false) as [-> ->].
  { revert H. unfold is_runtime_error, is_client_error, is_compile_error,
      Response__is_type_of. intros H%Z.eqb_eq. by rewrite H. }
  by rewrite H, Hm.
Qed.

(** The router on a response for a pending request with no cursor, when
    the response is not a stream: the request is taken off the table, and
    what [get_data] returns is printed. *)
Lemma read_body_single_shot w token body_buff q response :
  w_waiting_respose w !! token = Some q ->
  w_cursor_cache w !! token = None ->
  Response_init token body_buff (q_kwargs q) = Ok response ->
  is_sequential response = false ->
  RdbProtocol_read_body token body_buff w
  = let w' := set_waiting_respose (delete token (w_waiting_respose w)) w in
    match get_data response q with
    | Ok v =>
        (Ok tt, set_trace (w_trace w ++ [EvPrint [PToken token; PValue v]]) w')
    | Raise e => (Raise e, w')
    end.
Proof.
  intros Hw Hc Hr Hs. unfold RdbProtocol_read_body. run_m.
  rewrite Hw, Hr, Hc, Hs. simpl.
  destruct (get_data response q); reflexivity.
Qed.

(** [run_query] has no value to return but [None]. *)
Lemma run_query_returns_None query noreply w v w' :
  DefaultTransport_run_query query noreply w = (Ok v, w') -> v = VNone.
Proof.
  unfold DefaultTransport_run_query. run_m.
  destruct (DefaultTransport_send_query query noreply w) as [[[]|e] w1];
    [|discriminate].
  destruct noreply; [by intros [= <- _]|].
  destruct (DefaultClient_recvall HEADER_SIZE w1) as [[header|e] w2];
    [|discriminate].
  destruct (RdbProtocol_read_header header) as [[token len]|e];
    [|discriminate].
  destruct (DefaultClient_recvall len w2) as [[body|e] w3]; [|discriminate].
  destruct (RdbProtocol_read_body token body w3) as [[[]|e] w4];
    [|discriminate].
  by intros [= <- _].
Qed.

(** Closing the transport without a NOREPLY_WAIT query shuts the socket
    and touches neither the pending requests nor the cursors. *)
Lemma transport_close_keeps_pending w :
  let w' := snd (DefaultTransport_close None w) in
  fst (DefaultTransport_close None w) = Ok tt /\
  w_socket w' = None /\
  w_waiting_respose w' = w_waiting_respose w /\
  w_cursor_cache w' = w_cursor_cache w.
Proof.
  unfold DefaultTransport_close, DefaultClient_close, DefaultClient_is_open.
  run_m. destruct (w_socket w) eqn:Hs; simpl; by rewrite ?Hs.
Qed.

(** What [__init__] makes of a stream response: no error attribute, no
    request counter. *)
Lemma Cursor_init_sequential query first :
  is_sequential first = true ->
  Cursor_init query first
  = Ok (mkCursor query (r_data first) (negb (is_success_partial first))
          (Assigned (Z.of_nat (length (r_data first)))) Unset Unset).
Proof.
  unfold is_sequential, Cursor_init, Cursor__extend_internal. run_m.
  destruct (is_success_partial first); simpl; [done|].
  intros ->. reflexivity.
Qed.

(** C2 (a response for an unknown token): for every token with neither a
    pending request nor a cursor, the router raises the [KeyError] of
    [dict.pop]; that is not a driver error, nor any error of the driver's
    taxonomy, and nothing of the connection changes: it is not closed. *)
Theorem unmatched_token_raises_KeyError w token body_buff :
  w_waiting_respose w !! token = None ->
  w_cursor_cache w !! token = None ->
  RdbProtocol_read_body token body_buff w
  = (Raise (KeyError (KToken token)), w) /\
  is_driver_error (KeyError (KToken token)) = false /\
  is_reql_error (KeyError (KToken token)) = false.
Proof.
  intros Hw _. split; [|done]. by apply read_body_unmatched_token.
Qed.

(** C5 (what a pending request is resolved with): the router classifies
    the response, and nothing hands the value on.  Whatever [run_query]
    returns is [None].  For a pending request without a cursor, a
    SUCCESS_ATOM response has [data[0]] printed and the request taken off
    the table, and that is all; a stream response has the new cursor
    cached, after which printing it raises [AttributeError], because
    formatting a cursor reads its [error] attribute, which [__init__] does
    not assign. *)
Theorem run_query_drops_the_result w token body_buff q response :
  w_waiting_respose w !! token = Some q ->
  w_cursor_cache w !! token = None ->
  Response_init token body_buff (q_kwargs q) = Ok response ->
  let w1 := set_waiting_respose (delete token (w_waiting_respose w)) w in
  (forall query noreply w0 v w',
     DefaultTransport_run_query query noreply w0 = (Ok v, w') -> v = VNone) /\
  (forall x,
     is_success_atom response = true -> data_0 response = Ok x ->
     RdbProtocol_read_body token body_buff w
     = (Ok tt,
        set_trace (w_trace w ++ [EvPrint [PToken token; PValue (VJson x)]])
          w1)) /\
  (is_sequential response = true -> w_ctx w = Assigned tt ->
   exists c,
     Cursor_init q response = Ok c /\
     RdbProtocol_read_body token body_buff w
     = (Raise (AttributeError "error"),
        set_cursor_cache (<[token := c]> (w_cursor_cache w)) w1)).
Proof.
  intros Hw Hc Hr w1. split_and!.
  - intros query noreply w0 v w'. apply run_query_returns_None.
  - intros x Hatom Hx.
    destruct (types_distinct response) as (Hd & _ & _).
    destruct (Hd Hatom) as (Hseq & _ & _).
    rewrite (read_body_single_shot w token body_buff q response Hw Hc Hr Hseq).
    rewrite (get_data_success_atom _ _ Hatom), Hx. reflexivity.
  - intros Hseq Hctx. eexists. split; [by apply Cursor_init_sequential|].
    unfold RdbProtocol_read_body. run_m.
    rewrite Hw, Hr, Hc. simpl. rewrite Hseq. simpl. rewrite Hctx. simpl.
    rewrite (Cursor_init_sequential q response Hseq). reflexivity.
Qed.

(** C1 (closing fails what is pending): closing an open connection without
    waiting for NOREPLY_WAIT shuts the socket down and returns normally;
    the table of pending requests and the cursor cache are exactly what
    they were, so no pending request and no cursor has been failed with
    anything. *)
Theorem close_leaves_pending_untouched w :
  Connection_is_open w = true ->
  exists w',
    Connection_close false w = (Ok tt, w') /\
    Connection_is_open w' = false /\
    w_waiting_respose w' = w_waiting_respose w /\
    w_cursor_cache w' = w_cursor_cache w.
Proof.
  unfold Connection_close, Connection_is_open, DefaultTransport_close,
    DefaultClient_close, DefaultClient_is_open.
  intros Hopen. run_m. destruct (w_socket w) eqn:Hs; [|discriminate].
  simpl. rewrite Hs. simpl. eexists. split; [reflexivity|]. done.
Qed.

End Router.

(** An instance: a frame for token 5 when nothing is pending. *)
Lemma unmatched_token_raises_KeyError_witness :
  RdbProtocol_read_body (codec := demo_codec) 5 [1; 42] (demo_world [])
  = (Raise (KeyError (KToken 5)), demo_world []).
Proof.
  exact (proj1 (unmatched_token_raises_KeyError (codec := demo_codec)
                  (demo_world []) 5 [1; 42] eq_refl eq_refl)).
Defined.

(** The same through [Connection.server], when the frame that arrives
    carries another token than the request: the caller gets the
    [KeyError], the connection stays open and the request stays pending. *)
Example server_info_with_foreign_token :
  let '(r, w') :=
    Connection_server (codec := demo_codec)
      (demo_world [5; 0; 0; 0; 0; 0; 0; 0; 1; 0; 0; 0; 4]) in
  r = Raise (KeyError (KToken 5)) /\ Connection_is_open w' = true /\
  w_waiting_respose w' !! 0 = Some (Q_Server_Info 0 None None).
Proof. vm_compute. repeat split. Qed.

(** An instance: a START query answered by a SUCCESS_ATOM response with
    data [[42]]; the value is printed and the request is gone. *)
Lemma run_query_drops_the_result_witness :
  let query := Q_Start 0 (Some (JStr "r.table")) None in
  let w := set_waiting_respose {[ 0 := query ]} (demo_world []) in
  RdbProtocol_read_body (codec := demo_codec) 0 [1; 42] w
  = (Ok tt,
     set_trace [EvPrint [PToken 0; PValue (VJson (JNum 42))]] (demo_world [])).
Proof.
  exact (proj1 (proj2 (run_query_drops_the_result (codec := demo_codec)
           (set_waiting_respose
              {[ 0 := Q_Start 0 (Some (JStr "r.table")) None ]}
              (demo_world []))
           0 [1; 42] (Q_Start 0 (Some (JStr "r.table")) None)
           (mkResponse 0 1 [JNum 42] None None None None)
           eq_refl eq_refl eq_refl))
         (JNum 42) eq_refl eq_refl).
Defined.

(** The two cases end to end, from [run_query] on a START query: for the
    SUCCESS_ATOM response the caller gets [None] while 42 is printed; for
    a SUCCESS_PARTIAL response the caller gets the [AttributeError]. *)
Example run_query_end_to_end :
  let query := Q_Start 0 (Some (JStr "r.table")) None in
  let atom := [0; 0; 0; 0; 0; 0; 0; 0; 2; 0; 0; 0; 1; 42] in
  let partial := [0; 0; 0; 0; 0; 0; 0; 0; 3; 0; 0; 0; 3; 7; 8] in
  (let '(r, w') :=
     DefaultTransport_run_query (codec := demo_codec) query false
       (demo_world atom) in
   r = Ok VNone /\
   last (w_trace w') = Some (EvPrint [PToken 0; PValue (VJson (JNum 42))]) /\
   w_waiting_respose w' = ∅) /\
  (let '(r, w') :=
     DefaultTransport_run_query (codec := demo_codec) query false
       (demo_world partial) in
   r = Raise (AttributeError "error") /\
   (c_items <$> w_cursor_cache w' !! 0) = Some [JNum 7; JNum 8]).
Proof. vm_compute. repeat split. Qed.

(** An instance: a connection with one pending request and one registered
    cursor; after [close] both are where they were, the cursor without an
    error. *)
Lemma close_leaves_pending_untouched_witness :
  let q1 := Q_Start 1 (Some (JStr "r.table")) None in
  let c2 := mkCursor (Q_Start 2 (Some (JStr "r.table")) None) [JNum 7] false
              (Assigned 1) Unset Unset in
  let w :=
    set_token (mkTokenGenerator 0 3)
      (set_cursor_cache {[ 2 := c2 ]}
         (set_waiting_respose {[ 1 := q1 ]} (demo_world []))) in
  exists w',
    Connection_close (codec := demo_codec) false w = (Ok tt, w') /\
    w_waiting_respose w' !! 1 = Some q1 /\
    w_cursor_cache w' !! 2 = Some c2 /\
    c_error c2 = Unset.
Proof.
  simpl.
  destruct (close_leaves_pending_untouched (codec := demo_codec)
              (set_token (mkTokenGenerator 0 3)
                 (set_cursor_cache
                    {[ 2 := mkCursor (Q_Start 2 (Some (JStr "r.table")) None)
                              [JNum 7] false (Assigned 1) Unset Unset ]}
                    (set_waiting_respose
                       {[ 1 := Q_Start 1 (Some (JStr "r.table")) None ]}
                       (demo_world []))))
              eq_refl)
    as (w' & Hclose & _ & Hw & Hc).
  exists w'. split; [exact Hclose|]. rewrite Hw, Hc.
  split; [reflexivity|]. split; reflexivity.
Defined.

(** With [noreply_wait] the NOREPLY_WAIT exchange is made first (here the
    server answers WAIT_COMPLETE), and the pending request and the cursor
    are again left as they were. *)
Example close_after_noreply_wait :
  let q1 := Q_Start 1 (Some (JStr "r.table")) None in
  let c2 := mkCursor (Q_Start 2 (Some (JStr "r.table")) None) [JNum 7] false
              (Assigned 1) Unset Unset in
  let w :=
    set_token (mkTokenGenerator 0 3)
      (set_cursor_cache {[ 2 := c2 ]}
         (set_waiting_respose {[ 1 := q1 ]}
            (demo_world [3; 0; 0; 0; 0; 0; 0; 0; 1; 0; 0; 0; 4]))) in
  let '(r, w') := Connection_close (codec := demo_codec) true w in
  r = Ok tt /\ Connection_is_open w' = false /\
  w_waiting_respose w' !! 1 = Some q1 /\
  w_cursor_cache w' !! 2 = Some c2.
Proof. vm_compute. repeat split. Qed.

(** ** The handshake *)

Section HandshakeProperties.

Context `{libs : !HandshakeLibs}.

(** C10 (how a rejected handshake message is classified), as the code
    has it: when the [success] field of a decoded server message is
    missing or falsy, the message carries an [error], and [int] converts
    its [error_code] to the integer [code] (a float is truncated), then
    [__decode_json_response] raises; what it raises is a [ReqlAuthError]
    exactly when [10 <= code <= 20], and otherwise a plain
    [ReqlDriverError] (which [ReqlAuthError] derives from). *)
Theorem handshake_failure_classification response json_response v code err :
  json_decode response = Ok json_response ->
  from_option truthy false (dict_get "success" json_response) = false ->
  dict_get "error_code" json_response = Some v ->
  py_int v = Ok code ->
  dict_get "error" json_response = Some err ->
  exists e,
    __decode_json_response response = Raise e /\
    (10 <= code <= 20 -> e = new_ReqlAuthError err) /\
    (~ 10 <= code <= 20 -> e = Reql ReqlDriverError [Val err]) /\
    (is_auth_error e = true <-> 10 <= code <= 20) /\
    is_driver_error e = true.
Proof.
  intros Hd Hs Hc Hi He. unfold __decode_json_response, dict_item.
  rewrite Hd. simpl. rewrite Hs, Hc. simpl. rewrite Hi, He. simpl.
  destruct ((10 <=? code) && (code <=? 20)) eqn:Hrange.
  - apply andb_true_iff in Hrange as [?%Z.leb_le ?%Z.leb_le].
    eexists. split; [reflexivity|]. split_and!; try done; lia.
  - apply andb_false_iff in Hrange.
    assert (~ 10 <= code <= 20)
      by (destruct Hrange as [?%Z.leb_gt|?%Z.leb_gt]; lia).
    eexists. split; [reflexivity|]. split_and!; done.
Qed.

(** A message whose [success] field is truthy is handed on as decoded. *)
Lemma decode_json_response_success response json_response :
  json_decode response = Ok json_response ->
  from_option truthy false (dict_get "success" json_response) = true ->
  __decode_json_response response = Ok json_response.
Proof.
  intros Hd Hs. unfold __decode_json_response. rewrite Hd. simpl.
  by rewrite Hs.
Qed.

(** The step that would yield the client proof raises instead when the
    server's nonce does not start with the client's, and leaves the
    handshake object as it was. *)
Lemma prepare_auth_request_foreign_nonce
    self response json_response a fields server_nonce :
  json_decode response = Ok json_response ->
  from_option truthy false (dict_get "success" json_response) = true ->
  dict_get "authentication" json_response = Some (JStr a) ->
  is_ascii a = true ->
  auth_fields (split_on comma a) ∅ = Ok fields ->
  fields !! "r" = Some server_nonce ->
  String.prefix (_random_nonce self) server_nonce = false ->
  __prepare_auth_request response self
  = (Raise (new_ReqlAuthError (JStr "Invalid nonce from server")), self).
Proof.
  intros Hd Hs Ha Hascii Hf Hr Hp.
  unfold __prepare_auth_request, __get_authentication_message, dict_item,
    bytes_item, text_of, ascii_codec.
  rewrite (decode_json_response_success _ _ Hd Hs). run_m.
  rewrite Ha. simpl. rewrite Hascii. simpl. rewrite Hf. simpl.
  rewrite Hr. simpl. rewrite Hp. reflexivity.
Qed.

(** [__initialize_connection] stores the nonce it sends. *)
Lemma initialize_connection_nonce rand self m h :
  __initialize_connection rand self = (Ok m, h) ->
  _random_nonce h = b64encode rand /\
  hs_username h = hs_username self /\ hs_password h = hs_password self.
Proof.
  unfold __initialize_connection. run_m.
  destruct (ascii_codec _); simpl; [|discriminate].
  by intros [= _ <-].
Qed.

(** C7 (a foreign nonce), as the code has it: when the handshake has
    sent its first message [m0] with the nonce drawn from [rand], the
    server's version message was accepted, and the server's authentication
    message is ASCII text whose pieces are all fields, with a nonce that
    does not start with the client's, then [run] raises a [ReqlAuthError];
    the only values it has yielded are the first message and the empty
    message that follows the version check, so no client proof was
    produced, let alone sent. *)
Theorem nonce_mismatch_fails_before_proof
    self rand init_response auth_response1 auth_response2
    m0 h json_response a fields server_nonce :
  __initialize_connection rand (Handshake_reset self) = (Ok m0, h) ->
  __read_response init_response h = (Ok "", h) ->
  json_decode auth_response1 = Ok json_response ->
  from_option truthy false (dict_get "success" json_response) = true ->
  dict_get "authentication" json_response = Some (JStr a) ->
  is_ascii a = true ->
  auth_fields (split_on comma a) ∅ = Ok fields ->
  fields !! "r" = Some server_nonce ->
  String.prefix (b64encode rand) server_nonce = false ->
  HandshakeV1_0_run rand init_response auth_response1 auth_response2
    (self, [])
  = (Raise (new_ReqlAuthError (JStr "Invalid nonce from server")),
     (h, [m0; ""])) /\
  is_auth_error (new_ReqlAuthError (JStr "Invalid nonce from server")) = true.
Proof.
  intros Hinit Hread Hd Hs Ha Hascii Hf Hr Hp.
  destruct (initialize_connection_nonce _ _ _ _ Hinit) as (Hn & _ & _).
  rewrite <- Hn in Hp.
  pose proof (prepare_auth_request_foreign_nonce
                h auth_response1 _ _ _ _ Hd Hs Ha Hascii Hf Hr Hp) as Hstep.
  split; [|reflexivity].
  unfold HandshakeV1_0_run, yield_. run_m.
  rewrite Hinit. simpl. rewrite Hread. simpl. rewrite Hstep. reflexivity.
Qed.

(** The steps read a server message only through the JSON decoder. *)
Lemma decode_json_response_ext r r' :
  json_decode r = json_decode r' ->
  __decode_json_response r = __decode_json_response r'.
Proof. intros H. unfold __decode_json_response. by rewrite H. Qed.


End HandshakeProperties.

(** C10, as stated, fails: a rejection with the code 12 and no [error]
    field raises the built-in [KeyError], which is neither an
    authentication error nor a driver error; and a rejection whose code is
    20.5, which is not between 10 and 20, raises a [ReqlAuthError], the
    code being truncated by [int]. *)
Lemma rejection_outside_the_classification :
  json_decode (HandshakeLibs := odd_server_libs) "code-without-error"
  = Ok [("success", JBool false); ("error_code", JNum 12)] /\
  __decode_json_response (libs := odd_server_libs) "code-without-error"
  = Raise (KeyError (KStr "error")) /\
  is_auth_error (KeyError (KStr "error")) = false /\
  is_driver_error (KeyError (KStr "error")) = false /\
  json_decode (HandshakeLibs := odd_server_libs) "fractional-code"
  = Ok [("success", JBool false); ("error_code", JFloat (FFinite 41 2));
        ("error", JStr "Wrong password")] /\
  ~ (10 * 2 <= 41 <= 20 * 2) /\
  __decode_json_response (libs := odd_server_libs) "fractional-code"
  = Raise (new_ReqlAuthError (JStr "Wrong password")).
Proof. split_and!; try reflexivity. lia. Qed.

(** An instance: the server rejects the password with error code 12. *)
Lemma handshake_failure_classification_witness :
  exists e,
    __decode_json_response (libs := demo_libs) "wrong-password" = Raise e /\
    is_auth_error e = true.
Proof.
  destruct (handshake_failure_classification (libs := demo_libs)
              "wrong-password"
              [("success", JBool false); ("error_code", JNum 12);
               ("error", JStr "Wrong password")]
              (JNum 12) 12 (JStr "Wrong password")
              eq_refl eq_refl eq_refl eq_refl eq_refl)
    as (e & Hraise & _ & _ & Hiff & _).
  exists e. split; [exact Hraise|]. apply Hiff. lia.
Defined.

(** C7, as stated, fails: the server answers the client nonce [cmFuZG9t]
    with a nonce of its own and a piece that is no field; the message is
    split into its fields before the nonce is looked at, and [run] raises
    the built-in [ValueError], which is no authentication error.  No
    proof has been yielded. *)
Lemma foreign_nonce_in_malformed_message :
  exists m0 h,
    json_decode (HandshakeLibs := odd_server_libs) "malformed-challenge"
    = Ok [("success", JBool true);
          ("authentication", JStr "r=Zm9yZWlnbg==,junk")] /\
    HandshakeV1_0_run (libs := odd_server_libs) "" "versions"
      "malformed-challenge" "signature" (Handshake_init "admin" "secret", [])
    = (Raise ValueError, (h, [m0; ""])) /\
    _random_nonce h = "cmFuZG9t" /\
    String.prefix "cmFuZG9t" "Zm9yZWlnbg==" = false /\
    is_auth_error ValueError = false.
Proof. eexists _, _. split_and!; vm_compute; reflexivity. Qed.

(** An instance: the server answers the client nonce [cmFuZG9t] with a
    nonce of its own. *)
Lemma nonce_mismatch_fails_before_proof_witness :
  exists m0 h,
    HandshakeV1_0_run (libs := demo_libs) "" "versions" "foreign-challenge"
      "signature" (Handshake_init "admin" "secret", [])
    = (Raise (new_ReqlAuthError (JStr "Invalid nonce from server")),
       (h, [m0; ""])).
Proof.
  eexists _, _.
  refine (proj1 (nonce_mismatch_fails_before_proof (libs := demo_libs)
                   (Handshake_init "admin" "secret") "" "versions"
                   "foreign-challenge" "signature" _ _
                   [("success", JBool true);
                    ("authentication", JStr "r=Zm9yZWlnbg==,s=c2FsdA==,i=4096")]
                   "r=Zm9yZWlnbg==,s=c2FsdA==,i=4096"
                   (<["i" := "4096"]> (<["s" := "c2FsdA=="]>
                      (<["r" := "Zm9yZWlnbg=="]> ∅)))
                   "Zm9yZWlnbg=="
                   _ _ _ _ _ _ _ _ _));
    vm_compute; reflexivity.
Defined.


(** ** Connection construction *)

Create HintDb trace.

Section TraceGrows.

Context `{codec : !ReqlCodec} `{libs : !HandshakeLibs}.

Lemma trace_grows_ret {A} (a : A) : trace_grows (mret a).
Proof. intros w. exists []. by rewrite app_nil_r. Qed.

Lemma trace_grows_raise {A} e : trace_grows (@mraise World A e).
Proof. intros w. exists []. by rewrite app_nil_r. Qed.

Lemma trace_grows_lift {A} (r : result A) : trace_grows (mlift r).
Proof. intros w. exists []. by rewrite app_nil_r. Qed.

Lemma trace_grows_get : trace_grows mget.
Proof. intros w. exists []. by rewrite app_nil_r. Qed.

Lemma trace_grows_emit e : trace_grows (emit e).
Proof. intros w. by exists [e]. Qed.

Lemma trace_grows_modify (f : World -> World) :
  (forall w, w_trace (f w) = w_trace w) -> trace_grows (mmodify f).
Proof. intros Hf w. exists []. simpl. by rewrite Hf, app_nil_r. Qed.

Lemma trace_grows_bind {A B} (m : M World A) (k : A -> M World B) :
  trace_grows m -> (forall a, trace_grows (k a)) -> trace_grows (mbind m k).
Proof.
  intros Hm Hk w. unfold mbind. destruct (Hm w) as [evs1 H1].
  destruct (m w) as [[a|e] w1]; simpl in *.
  - destruct (Hk a w1) as [evs2 H2]. exists (evs1 ++ evs2).
    by rewrite H2, H1, app_assoc.
  - by exists evs1.
Qed.

Lemma trace_grows_catch {A} (m : M World A) test handler :
  trace_grows m -> (forall e, trace_grows (handler e)) ->
  trace_grows (mcatch m test handler).
Proof.
  intros Hm Hh w. unfold mcatch. destruct (Hm w) as [evs1 H1].
  destruct (m w) as [[a|e] w1]; simpl in *; [by exists evs1|].
  destruct (test e); simpl; [|by exists evs1].
  destruct (Hh e w1) as [evs2 H2]. exists (evs1 ++ evs2).
  by rewrite H2, H1, app_assoc.
Qed.

Lemma trace_grows_zoom_handshake {A} (m : M HandshakeV1_0 A) :
  trace_grows (zoom_handshake m).
Proof.
  intros w. exists []. unfold zoom_handshake.
  destruct (m (w_handshake w)). simpl. by rewrite app_nil_r.
Qed.

#[local] Hint Resolve trace_grows_ret trace_grows_raise trace_grows_lift
  trace_grows_get trace_grows_emit trace_grows_modify trace_grows_bind
  trace_grows_catch trace_grows_zoom_handshake : trace.

Lemma DefaultClient_close_grows : trace_grows DefaultClient_close.
Proof.
  unfold DefaultClient_close. apply trace_grows_bind; [auto with trace|].
  intros w. destruct (negb _); auto with trace.
Qed.

#[local] Hint Resolve DefaultClient_close_grows : trace.

Lemma DefaultClient_sendall_grows data :
  trace_grows (DefaultClient_sendall data).
Proof.
  unfold DefaultClient_sendall. apply trace_grows_bind; [auto with trace|].
  intros w. destruct data; [auto with trace|].
  destruct (DefaultClient_is_open w); auto with trace.
Qed.

Lemma DefaultClient_readuntil_grows sep :
  trace_grows (DefaultClient_readuntil sep).
Proof.
  unfold DefaultClient_readuntil. apply trace_grows_bind; [auto with trace|].
  intros w. destruct (w_socket w) as [peer|]; [|auto with trace].
  destruct (cut_at sep peer) as [[response rest]|]; auto 7 with trace.
Qed.

#[local] Hint Resolve DefaultClient_sendall_grows DefaultClient_readuntil_grows
  : trace.

Lemma handshake_exchange_grows request :
  trace_grows (handshake_exchange request).
Proof.
  unfold handshake_exchange. apply trace_grows_bind; [|auto with trace].
  destruct (String.eqb request ""); auto with trace.
Qed.

#[local] Hint Resolve handshake_exchange_grows : trace.

(** [DefaultClient.connect] starts with the connection attempt; when a
    trust store is configured, loading it comes second. *)
Lemma DefaultClient_connect_trace env timeout w :
  exists rest,
    w_trace (snd (DefaultClient_connect env timeout w))
    = w_trace w ++ EvConnect (w_host w) (w_port w) timeout :: rest.
Proof.
  unfold DefaultClient_connect. run_m.
  destruct (env_connect env _ _ timeout); simpl; [|by eexists..].
  destruct (w_ssl w); simpl; [|by eexists].
  destruct (env_cert_loads env _); simpl;
    [|rewrite <- !app_assoc; by eexists].
  destruct (env_wrap_ok env); simpl; rewrite <- !app_assoc; by eexists.
Qed.

(** The same holds of [DefaultTransport.connect] as a whole. *)
Lemma DefaultTransport_connect_trace env timeout w :
  exists rest,
    w_trace (snd (DefaultTransport_connect env timeout w))
    = w_trace w ++ EvConnect (w_host w) (w_port w) timeout :: rest.
Proof.
  unfold DefaultTransport_connect.
  destruct (DefaultClient_connect_trace env timeout w) as [rest1 H1].
  unfold mbind at 1.
  destruct (DefaultClient_connect env timeout w) as [[[]|e] w1];
    simpl in H1; [|by exists rest1].
  match goal with
  | |- context [snd (?m w1)] =>
      assert (trace_grows m) as Hm
  end.
  { apply trace_grows_bind; [|auto with trace].
    apply trace_grows_catch; [|auto with trace].
    repeat (apply trace_grows_bind; [auto with trace|intros ?]).
    auto with trace. }
  destruct (Hm w1) as [rest2 H2]. exists (rest1 ++ rest2).
  rewrite H2, H1, <- app_assoc. reflexivity.
Qed.

(** A missing password becomes the empty one; a given one is kept. *)
Lemma or_str_default password :
  or_str (Some password) DEFAULT_PWD = password.
Proof.
  unfold or_str, DEFAULT_PWD.
  destruct (String.eqb password "") eqn:H; [|reflexivity].
  by apply String.eqb_eq in H.
Qed.


End TraceGrows.



(** * Further properties of the code *)

(** ** Frames on the wire *)

Section FrameProperties.

Context `{codec : !ReqlCodec}.

Lemma set_socket_set_socket a b w :
  set_socket a (set_socket b w) = set_socket a w.
Proof. reflexivity. Qed.

(** A read of [n] bytes that the peer's stream can satisfy. *)
Lemma recvall_enough n peer w :
  0 < n -> w_socket w = Some peer -> n <= Z.of_nat (length peer) ->
  DefaultClient_recvall n w
  = (Ok (take (Z.to_nat n) peer),
     set_socket (Some (drop (Z.to_nat n) peer)) w).
Proof.
  intros Hn Hs Hle. unfold DefaultClient_recvall. run_m.
  rewrite (proj2 (Z.leb_gt n 0)) by lia. rewrite Hs.
  rewrite (proj2 (Z.leb_le _ _)) by lia. reflexivity.
Qed.

(** A read that the stream cannot satisfy closes the socket. *)
Lemma recvall_short n peer w :
  w_socket w = Some peer -> Z.of_nat (length peer) < n ->
  DefaultClient_recvall n w
  = (Raise (Reql ReqlDriverError [Lit "Connection is closed."]),
     set_socket None (set_trace (w_trace w ++ [EvShutdown]) w)).
Proof.
  intros Hs Hlt. unfold DefaultClient_recvall, DefaultClient_close,
    DefaultClient_is_open. run_m.
  rewrite (proj2 (Z.leb_gt n 0)) by lia. rewrite Hs.
  rewrite (proj2 (Z.leb_gt _ _)) by lia. reflexivity.
Qed.

(** X1 ([Query.serialize], when it succeeds and what it builds): a query
    serializes exactly when its token is in [0, 2^64) and its encoded
    message is shorter than [2 ^ 32] bytes; the frame is then twelve bytes
    longer than the encoded message and ends with it, and all of it is
    bytes; otherwise [serialize] raises [struct.error]. *)
Theorem serialize_frame_layout query :
  let body := reql_encode (Query_message query) in
  (0 <= q_token query < 2 ^ 64 /\ Z.of_nat (length body) < 2 ^ 32 ->
   exists header,
     Query_serialize query = Ok (header ++ body) /\
     length header = 12%nat /\
     Forall (fun b => 0 <= b < 256) header) /\
  (~ (0 <= q_token query < 2 ^ 64 /\ Z.of_nat (length body) < 2 ^ 32) ->
   Query_serialize query = Raise StructError).
Proof.
  unfold Query_serialize, Query_message, struct.pack_QL. cbv zeta. split.
  - intros [Ht Hl].
    rewrite !bool_decide_eq_true_2 by lia. cbn [andb rbind].
    eexists. split; [reflexivity|]. split.
    + rewrite length_app, !length_little_endian by lia. reflexivity.
    + apply Forall_app. split;
        (eapply Forall_impl;
         [apply (Z_to_little_endian_bound _ 8); lia|intros b Hb; simpl in Hb; lia]).
  - intros Hn.
    destruct (bool_decide (0 <= q_token query < 2 ^ 64)) eqn:Ht; [|done].
    apply bool_decide_eq_true in Ht.
    rewrite bool_decide_eq_false_2; [done|]. lia.
Qed.

(** X2 (writing a frame and reading it back in two phases): when a query
    with a token below [2 ^ 63] serializes to a frame and the peer's stream
    starts with that frame, reading the header and then the body that the
    header announces returns the query's token and its encoded message, and
    leaves in the stream exactly what followed the frame. *)
Theorem frame_two_phase_read query frame rest w :
  Query_serialize query = Ok frame ->
  q_token query < 2 ^ 63 ->
  w_socket w = Some (frame ++ rest) ->
  read_frame w
  = (Ok (q_token query, reql_encode (Query_message query)),
     set_socket (Some rest) w).
Proof.
  intros Hser Hlt Hs.
  pose proof (frame_round_trip query frame Hser Hlt) as Hhead.
  assert (frame = take 12 frame ++ reql_encode (Query_message query)
          /\ length (take 12 frame) = 12%nat) as [Hframe Hlen].
  { revert Hser. unfold Query_serialize, Query_message. cbv zeta.
    destruct (struct.pack_QL _ _) as [header|] eqn:Hp; [|discriminate].
    cbn [rbind]. intros [= <-]. apply pack_QL_inv in Hp as (? & ? & ->).
    match goal with
    | |- context [take 12 (?h ++ _)] =>
        assert (length h = 12%nat) as Hl
          by (rewrite length_app, !length_little_endian by lia; reflexivity)
    end.
    rewrite take_app_length' by done. done. }
  set (body := reql_encode (Query_message query)) in *.
  assert (drop 12 frame = body) as Hdrop.
  { rewrite Hframe at 1. by rewrite drop_app_length' by done. }
  rewrite Hdrop in Hhead.
  unfold read_frame, HEADER_SIZE.
  unfold mbind at 1.
  rewrite (recvall_enough 12 (frame ++ rest) w);
    [|lia|done|rewrite length_app, Hframe, length_app, Hlen; lia].
  change (Z.to_nat 12) with 12%nat.
  assert (take 12 (frame ++ rest) = take 12 frame) as ->.
  { rewrite take_app_le; [done|]. rewrite Hframe, length_app, Hlen. lia. }
  assert (drop 12 (frame ++ rest) = body ++ rest) as ->.
  { rewrite Hframe at 1. rewrite <- app_assoc.
    by rewrite drop_app_length' by done. }
  run_m. rewrite Hhead. simpl.
  destruct (decide (length body = 0%nat)) as [Hz|Hnz].
  - destruct body; [|done]. simpl.
    unfold DefaultClient_recvall. run_m. reflexivity.
  - rewrite (recvall_enough (Z.of_nat (length body)) (body ++ rest));
      [|lia|done|rewrite length_app; lia].
    rewrite Nat2Z.id, take_app_length, drop_app_length. reflexivity.
Qed.

(** X3 (parsing a header): any twelve bytes parse, to a token in
    [[-2^63, 2^63)] and a length in [[0, 2^32)]; a buffer of any other
    size raises [struct.error]. *)
Theorem read_header_bounds header_buff :
  Forall (fun b => 0 <= b < 2 ^ 8) header_buff ->
  (length header_buff = 12%nat ->
   exists token length_,
     RdbProtocol_read_header header_buff = Ok (token, length_) /\
     - 2 ^ 63 <= token < 2 ^ 63 /\ 0 <= length_ < 2 ^ 32) /\
  (length header_buff <> 12%nat ->
   RdbProtocol_read_header header_buff = Raise StructError).
Proof.
  intros Hbytes. unfold RdbProtocol_read_header, struct.unpack_qL. split.
  - intros Hlen. rewrite bool_decide_eq_true_2 by done.
    eexists _, _. split; [reflexivity|].
    pose proof (little_endian_to_Z_bound 8 (take 8 header_buff)
                  ltac:(lia) (Forall_take _ _ _ Hbytes)) as Ht.
    pose proof (little_endian_to_Z_bound 8 (drop 8 header_buff)
                  ltac:(lia) (Forall_drop _ _ _ Hbytes)) as Hl.
    rewrite length_take, Hlen in Ht. rewrite length_drop, Hlen in Hl.
    change (Z.of_nat (8 `min` 12) * 8) with 64 in Ht.
    change (Z.of_nat (12 - 8) * 8) with 32 in Hl.
    split; [|lia]. case_bool_decide; lia.
  - intros Hlen. by rewrite bool_decide_eq_false_2.
Qed.

End FrameProperties.

(** An instance: a START query for the token 7, followed in the stream by
    two more bytes. *)
Lemma frame_two_phase_read_witness :
  read_frame
    (demo_world ([7; 0; 0; 0; 0; 0; 0; 0; 3; 0; 0; 0; 1; 0; 0] ++ [9; 9]))
  = (Ok (7, [1; 0; 0]), set_socket (Some [9; 9]) (demo_world [])).
Proof.
  exact (frame_two_phase_read (codec := demo_codec)
           (Q_Start 7 (Some (JStr "r.table")) None)
           [7; 0; 0; 0; 0; 0; 0; 0; 3; 0; 0; 0; 1; 0; 0] [9; 9]
           (demo_world ([7; 0; 0; 0; 0; 0; 0; 0; 3; 0; 0; 0; 1; 0; 0]
                        ++ [9; 9]))
           eq_refl eq_refl eq_refl).
Defined.

(** An instance: the header of the frame above. *)
Lemma read_header_bounds_witness :
  exists token length_,
    RdbProtocol_read_header [7; 0; 0; 0; 0; 0; 0; 0; 3; 0; 0; 0]
    = Ok (token, length_) /\
    - 2 ^ 63 <= token < 2 ^ 63 /\ 0 <= length_ < 2 ^ 32.
Proof.
  refine (proj1 (read_header_bounds [7; 0; 0; 0; 0; 0; 0; 0; 3; 0; 0; 0] _)
            eq_refl).
  repeat constructor; lia.
Defined.

(** An instance: a NOREPLY_WAIT query for the token 1. *)
Lemma serialize_frame_layout_witness :
  exists header,
    Query_serialize (codec := demo_codec) (Q_NoReplayWait 1 None None)
    = Ok (header ++ [4; 0]) /\ length header = 12%nat.
Proof.
  destruct (proj1 (serialize_frame_layout (codec := demo_codec)
                     (Q_NoReplayWait 1 None None)))
    as (header & Hser & Hlen & _).
  - vm_compute. repeat split; discriminate.
  - exists header. split; [exact Hser|exact Hlen].
Defined.

(** ** The socket client *)

Section ClientProperties.

(** X4 ([recvall] composes): on an open socket whose peer delivers at
    least [a + b] more bytes, reading [a] bytes and then [b] bytes gives,
    joined, what one read of [a + b] bytes gives, and leaves the stream in
    the same place. *)
Theorem recvall_compose a b peer w :
  0 < a -> 0 < b ->
  w_socket w = Some peer ->
  a + b <= Z.of_nat (length peer) ->
  (let* x := DefaultClient_recvall a in
   let* y := DefaultClient_recvall b in
   mret (x ++ y)) w
  = DefaultClient_recvall (a + b) w.
Proof.
  intros Ha Hb Hs Hle. unfold mbind at 1.
  rewrite (recvall_enough a peer w) by (done || lia).
  unfold mbind.
  rewrite (recvall_enough b (drop (Z.to_nat a) peer)); [|lia|done|].
  2:{ rewrite length_drop. lia. }
  rewrite (recvall_enough (a + b) peer w) by (done || lia).
  unfold mret. rewrite set_socket_set_socket, drop_drop.
  rewrite Z2Nat.inj_add by lia.
  f_equal. f_equal. by rewrite take_take_drop.
Qed.

Lemma cut_at_first sep pre post :
  sep ∉ pre -> cut_at sep (pre ++ sep :: post) = Some (pre, post).
Proof.
  induction pre as [|b pre IH]; intros Hnot; simpl.
  - by rewrite Z.eqb_refl.
  - apply not_elem_of_cons in Hnot as [Hne Hnot].
    rewrite (proj2 (Z.eqb_neq b sep)) by done. by rewrite IH.
Qed.

Lemma cut_at_none sep peer :
  sep ∉ peer -> cut_at sep peer = None.
Proof.
  induction peer as [|b peer IH]; intros Hnot; simpl; [done|].
  apply not_elem_of_cons in Hnot as [Hne Hnot].
  rewrite (proj2 (Z.eqb_neq b sep)) by done. by rewrite IH.
Qed.

Lemma readuntil_found sep w pre post :
  w_socket w = Some (pre ++ sep :: post) -> sep ∉ pre ->
  DefaultClient_readuntil sep w = (Ok pre, set_socket (Some post) w).
Proof.
  intros Hs Hnot. unfold DefaultClient_readuntil. run_m.
  rewrite Hs, (cut_at_first _ _ _ Hnot). reflexivity.
Qed.

(** X5 ([readuntil]): on an open socket, when the separator comes in the
    peer's stream, [readuntil] returns what precedes its first occurrence
    and leaves what follows it, the separator itself being dropped; when
    the stream ends without a separator, it closes the socket and raises
    a driver error. *)
Theorem readuntil_first_separator sep w :
  (forall pre post,
     w_socket w = Some (pre ++ sep :: post) -> sep ∉ pre ->
     DefaultClient_readuntil sep w = (Ok pre, set_socket (Some post) w)) /\
  (forall peer,
     w_socket w = Some peer -> sep ∉ peer ->
     DefaultClient_readuntil sep w
     = (Raise (Reql ReqlDriverError [Lit "Connection is closed."]),
        set_socket None (set_trace (w_trace w ++ [EvShutdown]) w))).
Proof.
  split.
  - intros pre post. apply readuntil_found.
  - intros peer Hs Hnot.
    unfold DefaultClient_readuntil, DefaultClient_close,
      DefaultClient_is_open. run_m.
    rewrite Hs, (cut_at_none _ _ Hnot). reflexivity.
Qed.

(** X6 ([DefaultClient.close] is idempotent): closing twice is closing
    once; the socket is shut down at most once, and the client is not
    open afterwards. *)
Theorem client_close_idempotent w :
  (exec DefaultClient_close in DefaultClient_close) w = DefaultClient_close w
  /\ DefaultClient_is_open (snd (DefaultClient_close w)) = false.
Proof.
  unfold DefaultClient_close, DefaultClient_is_open. run_m.
  destruct (w_socket w) eqn:Hs; simpl; by rewrite ?Hs.
Qed.

(** X7 (the client's address and port): [Connection.client_port] returns
    the local port exactly when the connection is open, but
    [Connection.client_address] returns [None] in every state, because
    [DefaultClient.client_address] answers [None] when the socket is open;
    asked directly on a closed socket, the client raises [RuntimeError]. *)
Theorem client_address_is_never_known sockname w :
  Connection_client_address sockname w = Ok None /\
  Connection_client_port sockname w
  = Ok (if Connection_is_open w then Some (snd sockname) else None) /\
  (Connection_is_open w = false ->
   DefaultClient_client_address sockname w = Raise RuntimeError).
Proof.
  unfold Connection_client_address, Connection_client_port,
    DefaultClient_client_address, DefaultClient_client_port,
    Connection_is_open.
  destruct (DefaultClient_is_open w); done.
Qed.

(** X8 ([SMapper]): a registered query pops as the pair of the query and
    no response, and is gone afterwards; no response can be stored for it,
    [set_response] raising [TypeError] on a registered token and
    [KeyError] on any other, the mapper unchanged. *)
Theorem SMapper_never_stores_a_response query response data :
  (exec SMapper_register_query query in SMapper_pop_response query) data
  = (Ok (Some (query, None)), delete (q_token query) data) /\
  (r_token response = q_token query ->
   (exec SMapper_register_query query in SMapper_set_response response) data
   = (Raise TypeError, <[q_token query := (query, None)]> data)) /\
  (data !! r_token response = None ->
   SMapper_set_response response data
   = (Raise (KeyError (KToken (r_token response))), data)).
Proof.
  unfold SMapper_register_query, SMapper_pop_response, SMapper_set_response.
  run_m. split_and!.
  - by rewrite lookup_insert_eq, delete_insert_eq.
  - intros ->. by rewrite lookup_insert_eq.
  - by intros ->.
Qed.

End ClientProperties.

(** An instance: four bytes read as one and three. *)
Lemma recvall_compose_witness :
  (let* x := DefaultClient_recvall 1 in
   let* y := DefaultClient_recvall 3 in
   mret (x ++ y)) (demo_world [1; 2; 3; 4; 5])
  = (Ok [1; 2; 3; 4], demo_world [5]).
Proof.
  rewrite (recvall_compose 1 3 [1; 2; 3; 4; 5] (demo_world [1; 2; 3; 4; 5]));
    [reflexivity|lia|lia|reflexivity|simpl; lia].
Defined.

(** An instance: a handshake response ending in the null byte. *)
Lemma readuntil_first_separator_witness :
  DefaultClient_readuntil 0 (demo_world [123; 125; 0; 7])
  = (Ok [123; 125], demo_world [7]).
Proof.
  refine (proj1 (readuntil_first_separator 0 (demo_world [123; 125; 0; 7]))
            [123; 125] [7] eq_refl _).
  intros H. repeat (apply elem_of_cons in H as [H|H]; [discriminate|]).
  by apply elem_of_nil in H.
Defined.

(** An instance: a response registered for the token of its query. *)
Lemma SMapper_never_stores_a_response_witness :
  (exec SMapper_register_query (Q_Start 1 None None) in
   SMapper_set_response (mkResponse 1 1 [] None None None None)) ∅
  = (Raise TypeError, {[ 1 := (Q_Start 1 None None, None) ]}).
Proof.
  exact (proj1 (proj2 (SMapper_never_stores_a_response
                         (Q_Start 1 None None)
                         (mkResponse 1 1 [] None None None None) ∅))
           eq_refl).
Defined.

(** An instance: a closed connection. *)
Lemma client_address_is_never_known_witness :
  DefaultClient_client_address ("127.0.0.1", 50000)
    (set_socket None (demo_world []))
  = Raise RuntimeError.
Proof.
  exact (proj2 (proj2 (client_address_is_never_known ("127.0.0.1", 50000)
                         (set_socket None (demo_world []))))
           eq_refl).
Defined.

(** ** Queries through the transport *)

Section TransportProperties.

Context `{codec : !ReqlCodec} `{libs : !HandshakeLibs}.

Lemma serialized_frame_not_empty query frame :
  Query_serialize query = Ok frame -> exists b rest, frame = b :: rest.
Proof.
  intros (header & body & -> & Hlen & _)%Query_serialize_inv.
  destruct header; [discriminate|]. by eexists _, _.
Qed.

Lemma sendall_open data w b rest :
  data = b :: rest -> DefaultClient_is_open w = true ->
  DefaultClient_sendall data w
  = (Ok tt, set_trace (w_trace w ++ [EvSend data]) w).
Proof.
  intros -> Hopen. unfold DefaultClient_sendall. run_m. by rewrite Hopen.
Qed.

Lemma send_query_noreply query frame w :
  Connection_is_open w = true ->
  Query_serialize query = Ok frame ->
  DefaultTransport_send_query query true w
  = (Ok tt, set_trace (w_trace w ++ [EvSend frame]) w).
Proof.
  intros Hopen Hser.
  destruct (serialized_frame_not_empty _ _ Hser) as (b & rest & Hf).
  unfold DefaultTransport_send_query, RdbProtocol_build_query.
  unfold mbind, mlift, mret. rewrite Hser.
  by rewrite (sendall_open frame w b rest Hf Hopen).
Qed.

Lemma send_query_reply query frame w :
  Connection_is_open w = true ->
  Query_serialize query = Ok frame ->
  DefaultTransport_send_query query false w
  = (Ok tt,
     set_trace
       (w_trace w
        ++ [EvPrint [PStr "Add"; PToken (q_token query); PQuery query];
            EvSend frame])
       (set_waiting_respose
          (<[q_token query := query]> (w_waiting_respose w)) w)).
Proof.
  intros Hopen Hser.
  destruct (serialized_frame_not_empty _ _ Hser) as (b & rest & Hf).
  unfold DefaultTransport_send_query, RdbProtocol_build_query.
  unfold mbind, mlift, mret, emit, mmodify. rewrite Hser.
  erewrite (sendall_open frame _ b rest Hf) by exact Hopen.
  simpl. by rewrite <- app_assoc.
Qed.

(** [run_query] awaiting a reply is the sending, the two-phase read and
    the router on what was read. *)
Lemma run_query_unfold query w :
  DefaultTransport_run_query query false w
  = (exec DefaultTransport_send_query query false in
     let* '(token, body_buff) := read_frame in
     exec RdbProtocol_read_body token body_buff in
     mret VNone) w.
Proof.
  unfold DefaultTransport_run_query, read_frame. unfold mbind, mret, mlift.
  destruct (DefaultTransport_send_query query false w) as [[[]|e] w1];
    [|reflexivity].
  destruct (DefaultClient_recvall HEADER_SIZE w1) as [[header|e] w2];
    [|reflexivity].
  destruct (RdbProtocol_read_header header) as [[token len]|e]; [|reflexivity].
  destruct (DefaultClient_recvall len w2) as [[body|e] w3]; reflexivity.
Qed.

(** Reading a frame that was packed for a token below [2 ^ 63]. *)
Lemma read_frame_packed token header body rest w :
  struct.pack_QL token (Z.of_nat (length body)) = Ok header ->
  token < 2 ^ 63 ->
  w_socket w = Some (header ++ body ++ rest) ->
  read_frame w = (Ok (token, body), set_socket (Some rest) w).
Proof.
  intros Hp Hlt Hs.
  pose proof (unpack_pack _ _ _ Hp) as Hun.
  rewrite bool_decide_eq_true_2 in Hun by done.
  pose proof Hp as Hp'. apply pack_QL_inv in Hp' as (? & ? & Hh).
  assert (length header = 12%nat) as Hlen
    by (rewrite Hh, length_app, !length_little_endian by lia; reflexivity).
  unfold read_frame, HEADER_SIZE, RdbProtocol_read_header. unfold mbind at 1.
  rewrite (recvall_enough 12 (header ++ body ++ rest) w);
    [|lia|done|rewrite length_app, Hlen; lia].
  change (Z.to_nat 12) with 12%nat.
  rewrite take_app_length', drop_app_length' by done.
  run_m. rewrite Hun. simpl.
  destruct body as [|b body].
  - unfold DefaultClient_recvall. run_m. reflexivity.
  - rewrite (recvall_enough _ ((b :: body) ++ rest));
      [|simpl; lia|done|rewrite length_app; lia].
    rewrite Nat2Z.id, take_app_length, drop_app_length. reflexivity.
Qed.

(** X9 (a query and its answer): on an open connection, when the query
    serializes, no cursor is registered for its token, and the peer
    answers with a frame for that token whose body decodes to a response
    that is not a stream and for which [get_data] returns a value, then
    [run_query] sends the frame of the query, consumes exactly the frame of
    the answer, prints the value and returns [None]; the request has been
    entered in the table of pending requests and taken off it again. *)
Theorem run_query_exchange query frame header body rest response v w :
  Query_serialize query = Ok frame ->
  q_token query < 2 ^ 63 ->
  w_cursor_cache w !! q_token query = None ->
  struct.pack_QL (q_token query) (Z.of_nat (length body)) = Ok header ->
  w_socket w = Some (header ++ body ++ rest) ->
  Response_init (q_token query) body (q_kwargs query) = Ok response ->
  is_sequential response = false ->
  get_data response query = Ok v ->
  exists w',
    DefaultTransport_run_query query false w = (Ok VNone, w') /\
    w_socket w' = Some rest /\
    w_waiting_respose w' = delete (q_token query) (w_waiting_respose w) /\
    w_cursor_cache w' = w_cursor_cache w /\
    w_trace w'
    = w_trace w
      ++ [EvPrint [PStr "Add"; PToken (q_token query); PQuery query];
          EvSend frame;
          EvPrint [PToken (q_token query); PValue v]].
Proof.
  intros Hser Hlt Hc Hp Hs Hr Hseq Hv.
  rewrite run_query_unfold. unfold mbind at 1.
  rewrite (send_query_reply query frame w) by (done || (unfold
    Connection_is_open, DefaultClient_is_open; by rewrite Hs)).
  unfold mbind at 1.
  erewrite (read_frame_packed (q_token query) header body rest) by done.
  unfold mbind at 1.
  erewrite (read_body_single_shot _ (q_token query) body query response);
    [|simpl; by rewrite lookup_insert_eq|done|done|done].
  rewrite Hv. unfold mret. eexists. split; [reflexivity|]. simpl.
  split_and!; try done.
  - by rewrite delete_insert_eq.
  - by rewrite <- app_assoc.
Qed.

(** X10 (a query that awaits no reply): on an open connection
    [run_query(query, noreply=True)] sends the frame of the query and does
    nothing else: the request is not entered among the pending ones and
    nothing is read from the socket. *)
Theorem run_query_noreply_only_sends query frame w :
  Connection_is_open w = true ->
  Query_serialize query = Ok frame ->
  DefaultTransport_run_query query true w
  = (Ok VNone, set_trace (w_trace w ++ [EvSend frame]) w).
Proof.
  intros Hopen Hser. unfold DefaultTransport_run_query. unfold mbind, mret.
  by rewrite (send_query_noreply query frame w Hopen Hser).
Qed.

(** X11 (a token that does not fit the frame): a query whose token is
    negative or not below [2 ^ 64] is refused by [run_query] with
    [struct.error] before anything is registered or sent, whether or not a
    reply is awaited and whether or not the connection is open. *)
Theorem run_query_token_out_of_range query noreply w :
  ~ 0 <= q_token query < 2 ^ 64 ->
  DefaultTransport_run_query query noreply w = (Raise StructError, w).
Proof.
  intros Hout.
  assert (Query_serialize query = Raise StructError) as Hser.
  { unfold Query_serialize, struct.pack_QL. cbv zeta.
    by rewrite bool_decide_eq_false_2. }
  unfold DefaultTransport_run_query, DefaultTransport_send_query,
    RdbProtocol_build_query. unfold mbind, mlift. by rewrite Hser.
Qed.

(** X12 (the peer hangs up before answering): when the stream ends before
    a full header has arrived, [run_query] raises the driver error
    "Connection is closed." and the socket is closed; the request stays in
    the table of pending requests. *)
Theorem run_query_peer_hangs_up query frame peer w :
  w_socket w = Some peer ->
  Z.of_nat (length peer) < 12 ->
  Query_serialize query = Ok frame ->
  exists w',
    DefaultTransport_run_query query false w
    = (Raise (Reql ReqlDriverError [Lit "Connection is closed."]), w') /\
    Connection_is_open w' = false /\
    w_waiting_respose w' !! q_token query = Some query.
Proof.
  intros Hs Hshort Hser.
  unfold DefaultTransport_run_query. unfold mbind at 1.
  rewrite (send_query_reply query frame w) by (done || (unfold
    Connection_is_open, DefaultClient_is_open; by rewrite Hs)).
  unfold mbind at 1.
  erewrite (recvall_short HEADER_SIZE peer) by (done || (unfold HEADER_SIZE; lia)).
  eexists. split; [reflexivity|]. split; [reflexivity|].
  simpl. by rewrite lookup_insert_eq.
Qed.

(** X13 (a closed connection fails fast): when the connection is not
    open, [resume], [stop], [server], [noreply_wait] and a cursor's
    [close] raise the driver error "Connection is closed." and change
    nothing (no token is drawn, nothing is registered or sent), and
    [Connection.close] returns at once, changing nothing either. *)
Theorem closed_connection_fails_fast w c noreply_wait :
  Connection_is_open w = false ->
  Connection_resume c w
  = (Raise (Reql ReqlDriverError [Lit "Connection is closed."]), w) /\
  Connection_stop c w
  = (Raise (Reql ReqlDriverError [Lit "Connection is closed."]), w) /\
  Connection_server w
  = (Raise (Reql ReqlDriverError [Lit "Connection is closed."]), w) /\
  Connection_noreply_wait w
  = (Raise (Reql ReqlDriverError [Lit "Connection is closed."]), w) /\
  Cursor_close (w, c)
  = (Raise (Reql ReqlDriverError [Lit "Connection is closed."]), (w, c)) /\
  Connection_close noreply_wait w = (Ok tt, w).
Proof.
  intros Hclosed.
  unfold Cursor_close.
  unfold Connection_resume, Connection_stop, Connection_server,
    Connection_noreply_wait, Connection_close,
    Connection__check_open, Connection_is_open, DefaultClient_is_open in *.
  run_m. destruct (w_socket w) eqn:Hs; [discriminate|]. simpl.
  rewrite ?Hs. done.
Qed.

Lemma close_when_closed noreply_wait w :
  Connection_is_open w = false -> Connection_close noreply_wait w = (Ok tt, w).
Proof.
  unfold Connection_close, Connection_is_open, DefaultClient_is_open.
  intros Hclosed. run_m. by destruct (w_socket w).
Qed.

Lemma client_close_closes w :
  fst (DefaultClient_close w) = Ok tt /\
  w_socket (snd (DefaultClient_close w)) = None.
Proof.
  unfold DefaultClient_close, DefaultClient_is_open. run_m.
  destruct (w_socket w) eqn:Hs; simpl; by rewrite ?Hs.
Qed.

(** X14 ([Connection.close] is idempotent): after a [close] that returned
    normally the connection is not open, and closing it again, with or
    without waiting, returns normally and changes nothing. *)
Theorem connection_close_idempotent noreply_wait noreply_wait' w w' :
  Connection_close noreply_wait w = (Ok tt, w') ->
  Connection_is_open w' = false /\
  Connection_close noreply_wait' w' = (Ok tt, w').
Proof.
  intros Hclose.
  assert (Connection_is_open w' = false) as Hclosed.
  { revert Hclose.
    unfold Connection_close, Connection_is_open, DefaultTransport_close.
    unfold mbind at 1. unfold mget.
    destruct (DefaultClient_is_open w) eqn:Hopen; simpl.
    - unfold mbind. unfold mmodify at 2.
      match goal with
      | |- context [match ?m w with _ => _ end] =>
          destruct (m w) as [[q|e] w1]; [|discriminate]
      end.
      unfold mmodify at 1.
      match goal with
      | |- context [match ?m (set_closing true w1) with _ => _ end] =>
          destruct (m (set_closing true w1)) as [[[]|e] w2]; [|discriminate]
      end.
      pose proof (client_close_closes w2) as [Hok Hnone].
      destruct (DefaultClient_close w2) as [[[]|e] w3]; [|discriminate].
      simpl in *. intros [= <-]. unfold DefaultClient_is_open. simpl.
      by rewrite Hnone.
    - unfold mret. by intros [= <-]. }
  split; [exact Hclosed|]. by apply close_when_closed.
Qed.

End TransportProperties.

(** An instance: a SERVER_INFO query for the token 0, answered by a
    SERVER_INFO response with the data [[42]], followed by one more byte. *)
Lemma run_query_exchange_witness :
  exists w',
    DefaultTransport_run_query (codec := demo_codec)
      (Q_Server_Info 0 None None) false
      (demo_world ([0; 0; 0; 0; 0; 0; 0; 0; 2; 0; 0; 0] ++ [5; 42] ++ [9]))
    = (Ok VNone, w') /\
    w_socket w' = Some [9] /\
    w_waiting_respose w' = delete 0 ∅.
Proof.
  destruct (run_query_exchange (codec := demo_codec)
              (Q_Server_Info 0 None None)
              [0; 0; 0; 0; 0; 0; 0; 0; 2; 0; 0; 0; 5; 0]
              [0; 0; 0; 0; 0; 0; 0; 0; 2; 0; 0; 0] [5; 42] [9]
              (mkResponse 0 5 [JNum 42] None None None None)
              (VJson (JNum 42))
              (demo_world ([0; 0; 0; 0; 0; 0; 0; 0; 2; 0; 0; 0]
                           ++ [5; 42] ++ [9]))
              eq_refl eq_refl eq_refl eq_refl eq_refl eq_refl eq_refl eq_refl)
    as (w' & Hrun & Hs & Hw & _).
  exists w'. split; [exact Hrun|]. split; [exact Hs|exact Hw].
Defined.

(** An instance: the CONTINUE query of a cursor with the token 3. *)
Lemma run_query_noreply_only_sends_witness :
  DefaultTransport_run_query (codec := demo_codec)
    (Q_Continue 3 None None) true (demo_world [1; 2])
  = (Ok VNone,
     set_trace [EvSend [3; 0; 0; 0; 0; 0; 0; 0; 2; 0; 0; 0; 2; 0]]
       (demo_world [1; 2])).
Proof.
  exact (run_query_noreply_only_sends (codec := demo_codec)
           (Q_Continue 3 None None)
           [3; 0; 0; 0; 0; 0; 0; 0; 2; 0; 0; 0; 2; 0]
           (demo_world [1; 2]) eq_refl eq_refl).
Defined.

(** An instance: the STOP query for a token that was read off the wire as
    a negative number. *)
Lemma run_query_token_out_of_range_witness :
  DefaultTransport_run_query (codec := demo_codec)
    (Q_Stop (-1) None None) true (demo_world [])
  = (Raise StructError, demo_world []).
Proof.
  apply (run_query_token_out_of_range (codec := demo_codec)). simpl. lia.
Defined.

(** An instance: the peer closes the stream after five bytes. *)
Lemma run_query_peer_hangs_up_witness :
  exists w',
    DefaultTransport_run_query (codec := demo_codec)
      (Q_Start 0 (Some (JStr "r.table")) None) false
      (demo_world [0; 0; 0; 0; 0])
    = (Raise (Reql ReqlDriverError [Lit "Connection is closed."]), w') /\
    Connection_is_open w' = false /\
    w_waiting_respose w' !! 0 = Some (Q_Start 0 (Some (JStr "r.table")) None).
Proof.
  apply (run_query_peer_hangs_up (codec := demo_codec)
           (Q_Start 0 (Some (JStr "r.table")) None)
           [0; 0; 0; 0; 0; 0; 0; 0; 3; 0; 0; 0; 1; 0; 0]
           [0; 0; 0; 0; 0]);
    [reflexivity|simpl; lia|reflexivity].
Defined.

(** An instance: a cursor whose connection has been closed. *)
Lemma closed_connection_fails_fast_witness :
  let w := set_socket None (demo_world []) in
  let c := mkCursor (Q_Start 2 None None) [] false (Assigned 0) Unset Unset in
  Cursor_close (codec := demo_codec) (w, c)
  = (Raise (Reql ReqlDriverError [Lit "Connection is closed."]), (w, c)).
Proof.
  simpl.
  destruct (closed_connection_fails_fast (codec := demo_codec)
              (set_socket None (demo_world []))
              (mkCursor (Q_Start 2 None None) [] false (Assigned 0)
                 Unset Unset)
              true eq_refl)
    as (_ & _ & _ & _ & Hclose & _).
  exact Hclose.
Defined.

(** An instance: a connection closed twice. *)
Lemma connection_close_idempotent_witness :
  let w' := snd (Connection_close (codec := demo_codec) false (demo_world [])) in
  Connection_is_open w' = false /\
  Connection_close (codec := demo_codec) true w' = (Ok tt, w').
Proof.
  exact (connection_close_idempotent (codec := demo_codec)
           false true (demo_world [])
           (snd (Connection_close (codec := demo_codec) false (demo_world [])))
           eq_refl).
Defined.

(** ** The cursor and the connection *)

Section CursorFlow.

Context `{codec : !ReqlCodec}.

Lemma resume_open cursor frame w :
  Connection_is_open w = true ->
  Query_serialize (Q_Continue (q_token (c_query cursor)) None None) = Ok frame ->
  Connection_resume cursor w
  = (Ok VNone, set_trace (w_trace w ++ [EvSend frame]) w).
Proof.
  intros Hopen Hser. unfold Connection_resume, Connection__check_open.
  unfold mbind at 1. unfold mbind at 1. unfold mget. rewrite Hopen. simpl.
  unfold mret at 1. unfold mbind.
  by rewrite (send_query_noreply _ frame w Hopen Hser).
Qed.

Lemma stop_open cursor frame w :
  Connection_is_open w = true ->
  Query_serialize (Q_Stop (q_token (c_query cursor)) None None) = Ok frame ->
  Connection_stop cursor w
  = (Ok VNone, set_trace (w_trace w ++ [EvSend frame]) w).
Proof.
  intros Hopen Hser. unfold Connection_stop, Connection__check_open.
  unfold mbind at 1. unfold mbind at 1. unfold mget. rewrite Hopen. simpl.
  unfold mret at 1. unfold mbind.
  by rewrite (send_query_noreply _ frame w Hopen Hser).
Qed.

(** X15 ([Cursor.close] can be repeated): on an open connection each
    [close] of a cursor sends one STOP frame for the cursor's token and
    returns normally; the cursor itself is not changed by it (no error is
    set, nothing is discarded), so that a second [close] sends a second
    STOP. *)
Theorem cursor_close_sends_stop w c frame :
  Connection_is_open w = true ->
  Query_serialize (Q_Stop (q_token (c_query c)) None None) = Ok frame ->
  Cursor_close (w, c)
  = (Ok tt, (set_trace (w_trace w ++ [EvSend frame]) w, c)) /\
  (exec Cursor_close in Cursor_close) (w, c)
  = (Ok tt, (set_trace (w_trace w ++ [EvSend frame; EvSend frame]) w, c)).
Proof.
  intros Hopen Hser.
  assert (forall w0, Connection_is_open w0 = true ->
            Cursor_close (w0, c)
            = (Ok tt, (set_trace (w_trace w0 ++ [EvSend frame]) w0, c)))
    as Hclose.
  { intros w0 Hopen0. unfold Cursor_close. run_m.
    by rewrite (stop_open c frame w0 Hopen0 Hser). }
  split; [by apply Hclose|].
  unfold mbind. rewrite (Hclose w Hopen).
  rewrite Hclose by exact Hopen. simpl. by rewrite <- app_assoc.
Qed.

(** X16 (one step of the prefetch rule): on a cursor whose [error],
    [threshold] and [outstanding_requests] are assigned, on an open
    connection, [extend] leaves the counter at one and sends a CONTINUE
    frame exactly when no error is set, fewer items are buffered than the
    threshold of the previous batch, and the counter was one; in every
    other case it sends nothing and leaves the counter one lower than it
    was.  The decision is taken before the response given to [extend] is
    looked at. *)
Theorem extend_prefetch_step res w c error threshold outstanding frame :
  c_error c = Assigned error ->
  c_threshold c = Assigned threshold ->
  c_outstanding_requests c = Assigned outstanding ->
  Connection_is_open w = true ->
  Query_serialize (Q_Continue (q_token (c_query c)) None None) = Ok frame ->
  let fetch :=
    bool_decide (error = None)
    && (Z.of_nat (length (c_items c)) <? threshold)
    && (outstanding =? 1) in
  let st := snd (Cursor_extend res (w, c)) in
  c_outstanding_requests (snd st)
  = Assigned (if fetch then 1 else outstanding - 1) /\
  fst st
  = (if fetch then set_trace (w_trace w ++ [EvSend frame]) w else w).
Proof.
  intros He Ht Ho Hopen Hser fetch st. subst st fetch.
  rewrite (Cursor_extend_unfold res w c outstanding Ho).
  rewrite (maybe_fetch_batch_spec w
             (set_outstanding_requests (outstanding - 1) c)
             error threshold (outstanding - 1) He Ht eq_refl).
  simpl c_items.
  replace (outstanding - 1 =? 0) with (outstanding =? 1)
    by (destruct (Z.eqb_spec outstanding 1), (Z.eqb_spec (outstanding - 1) 0);
        (done || lia)).
  destruct (bool_decide (error = None)
            && (Z.of_nat (length (c_items c)) <? threshold)
            && (outstanding =? 1)); simpl.
  - rewrite (resume_open _ frame w Hopen) by exact Hser.
    pose proof (extend_internal_outstanding res
                  (set_outstanding_requests 1
                     (set_outstanding_requests (outstanding - 1) c))) as Hk.
    destruct (Cursor__extend_internal res _) as [r c']. simpl in *.
    by rewrite Hk.
  - pose proof (extend_internal_outstanding res
                  (set_outstanding_requests (outstanding - 1) c)) as Hk.
    destruct (Cursor__extend_internal res _) as [r c']. simpl in *.
    by rewrite Hk.
Qed.

End CursorFlow.

(** An instance: a cursor with the token 2 closed twice. *)
Lemma cursor_close_sends_stop_witness :
  let c := mkCursor (Q_Start 2 None None) [JNum 1] false (Assigned 1)
             Unset Unset in
  let stop := EvSend [2; 0; 0; 0; 0; 0; 0; 0; 2; 0; 0; 0; 3; 0] in
  (exec Cursor_close (codec := demo_codec) in
   Cursor_close (codec := demo_codec)) (demo_world [], c)
  = (Ok tt, (set_trace [stop; stop] (demo_world []), c)).
Proof.
  exact (proj2 (cursor_close_sends_stop (codec := demo_codec)
                  (demo_world [])
                  (mkCursor (Q_Start 2 None None) [JNum 1] false (Assigned 1)
                     Unset Unset)
                  [2; 0; 0; 0; 0; 0; 0; 0; 2; 0; 0; 0; 3; 0]
                  eq_refl eq_refl)).
Defined.

(** An instance: a drained cursor with one request outstanding gets its
    answer and asks for the next batch. *)
Lemma extend_prefetch_step_witness :
  let c := mkCursor (Q_Start 2 None None) [] false (Assigned 2) (Assigned 1)
             (Assigned None) in
  let res := mkResponse 2 ql2_pb2.ResponseType.SUCCESS_PARTIAL
               [JNum 5; JNum 6] None None None None in
  let st := snd (Cursor_extend (codec := demo_codec) res (demo_world [], c)) in
  c_outstanding_requests (snd st) = Assigned 1 /\
  w_trace (fst st) = [EvSend [2; 0; 0; 0; 0; 0; 0; 0; 2; 0; 0; 0; 2; 0]].
Proof.
  destruct (extend_prefetch_step (codec := demo_codec)
              (mkResponse 2 ql2_pb2.ResponseType.SUCCESS_PARTIAL
                 [JNum 5; JNum 6] None None None None)
              (demo_world [])
              (mkCursor (Q_Start 2 None None) [] false (Assigned 2)
                 (Assigned 1) (Assigned None))
              None 2 1 [2; 0; 0; 0; 0; 0; 0; 0; 2; 0; 0; 0; 2; 0]
              eq_refl eq_refl eq_refl eq_refl eq_refl)
    as [Hcount Hworld].
  split; [exact Hcount|exact (f_equal w_trace Hworld)].
Defined.

(** ** Errors *)

Section ErrorProperties.

(** X17 (what an error response raises): for a response with a message in
    [data[0]], [get_data] raises a [ReqlDriverError] for a CLIENT_ERROR, a
    [ReqlServerCompileError] for a COMPILE_ERROR, and for a RUNTIME_ERROR,
    whatever its error subtype, known, unknown or absent, an error that is
    a [ReqlRuntimeError] and not a driver error; each carries the message.
    A response of none of the eight known types raises a
    [ReqlDriverError] that names the type. *)
Theorem error_response_taxonomy r q m :
  data_0 r = Ok m ->
  (is_client_error r = true ->
   get_data r q = Raise (Reql ReqlDriverError [Val m])) /\
  (is_compile_error r = true ->
   get_data r q = Raise (Reql ReqlServerCompileError [Val m])) /\
  (is_runtime_error r = true ->
   exists cls,
     get_data r q = Raise (Reql cls [Val m]) /\
     issubclass cls ReqlRuntimeError = true /\
     issubclass cls ReqlDriverError = false) /\
  (is_success_atom r = false -> is_sequential r = false ->
   is_server_info r = false -> is_wait_complete r = false ->
   is_client_error r = false -> is_compile_error r = false ->
   is_runtime_error r = false ->
   get_data r q
   = Raise (Reql ReqlDriverError
              [Lit "Unknown Response type "; Int (r_type r);
               Lit " encountered in a response."])).
Proof.
  intros Hm.
  assert (forall k, (r_type r =? k) = true -> r_type r = k) as Hk
    by (intros k; apply Z.eqb_eq).
  unfold get_data, make_error, is_sequential, is_success_atom,
    is_success_partial, is_success_sequence, is_server_info,
    is_wait_complete, is_client_error, is_compile_error, is_runtime_error,
    Response__is_type_of.
  rewrite Hm. split_and!.
  - intros ->%Hk. reflexivity.
  - intros ->%Hk. reflexivity.
  - intros H%Hk. rewrite H. simpl.
    exists (runtime_error_class (r_error_type r)). split; [reflexivity|].
    unfold runtime_error_class.
    destruct (r_error_type r) as [e|]; [|done].
    repeat case_match; done.
  - intros Ha [Hp Hs]%orb_false_iff Hi Hw Hc Hco Hr.
    by rewrite Ha, Hp, Hs, Hi, Hw, Hc, Hco, Hr.
Qed.

(** X18 (a response without data): when [data] is empty, [get_data]
    raises [IndexError], which is no error of the driver's taxonomy, for
    the types SUCCESS_ATOM and SERVER_INFO and for the three error types;
    a stream type returns the empty list and WAIT_COMPLETE returns
    [None]. *)
Theorem get_data_without_data r q :
  r_data r = [] ->
  (is_success_atom r = true \/ is_server_info r = true \/
   is_client_error r = true \/ is_compile_error r = true \/
   is_runtime_error r = true ->
   get_data r q = Raise IndexError /\ is_reql_error IndexError = false) /\
  (is_sequential r = true -> get_data r q = Ok (VList [])) /\
  (is_wait_complete r = true -> get_data r q = Ok VNone).
Proof.
  intros Hd.
  assert (forall k, (r_type r =? k) = true -> r_type r = k) as Hk
    by (intros k; apply Z.eqb_eq).
  unfold get_data, make_error, data_0, is_sequential, is_success_atom,
    is_success_partial, is_success_sequence, is_server_info,
    is_wait_complete, is_client_error, is_compile_error, is_runtime_error,
    Response__is_type_of.
  rewrite Hd. split_and!.
  - intros [H|[H|[H|[H|H]]]]; apply Hk in H; rewrite H; done.
  - intros [H|H]%orb_true_iff; apply Hk in H; rewrite H; done.
  - intros H%Hk. rewrite H. done.
Qed.

(** X19 (the class tree of [core/errors.py]): subclassing is a partial
    order in which every class derives from [ReqlError]; the driver
    errors, the runtime errors and the compile errors are three disjoint
    families; [ReqlAuthError] and [ReqlTimeoutError] are driver errors;
    and [ReqlCursorEmpty], which derives from [Exception], is none of
    them. *)
Theorem error_classes_form_a_tree :
  (forall c, issubclass c c = true) /\
  (forall c d e,
     issubclass c d = true -> issubclass d e = true ->
     issubclass c e = true) /\
  (forall c d,
     issubclass c d = true -> issubclass d c = true -> c = d) /\
  (forall c, issubclass c ReqlError = true) /\
  (forall c,
     Nat.b2n (issubclass c ReqlDriverError)
     + Nat.b2n (issubclass c ReqlRuntimeError)
     + Nat.b2n (issubclass c ReqlCompileError) <= 1)%nat /\
  issubclass ReqlAuthError ReqlDriverError = true /\
  issubclass ReqlTimeoutError ReqlDriverError = true /\
  is_reql_error ReqlCursorEmpty = false.
Proof.
  split_and!; try done.
  - by intros [].
  - intros c d e. destruct c, d; try (intros; discriminate);
      destruct e; vm_compute; congruence.
  - intros c d. destruct c, d; vm_compute; congruence.
  - by intros [].
  - intros []; vm_compute; lia.
Qed.

End ErrorProperties.

(** An instance: a runtime error with the subtype QUERY_LOGIC. *)
Lemma error_response_taxonomy_witness :
  get_data
    (mkResponse 0 ql2_pb2.ResponseType.RUNTIME_ERROR [JStr "No such table"]
       None None (Some ql2_pb2.ErrorType.QUERY_LOGIC) None)
    (Q_Start 0 None None)
  = Raise (Reql ReqlQueryLogicError [Val (JStr "No such table")]).
Proof.
  destruct (error_response_taxonomy
              (mkResponse 0 ql2_pb2.ResponseType.RUNTIME_ERROR
                 [JStr "No such table"] None None
                 (Some ql2_pb2.ErrorType.QUERY_LOGIC) None)
              (Q_Start 0 None None) (JStr "No such table") eq_refl)
    as (_ & _ & Hrun & _).
  destruct (Hrun eq_refl) as (cls & Hraise & _).
  rewrite Hraise. vm_compute in Hraise. exact (eq_sym Hraise).
Defined.

(** An instance: a client error without its message. *)
Lemma get_data_without_data_witness :
  get_data
    (mkResponse 0 ql2_pb2.ResponseType.CLIENT_ERROR [] None None None None)
    (Q_Start 0 None None)
  = Raise IndexError.
Proof.
  destruct (get_data_without_data
              (mkResponse 0 ql2_pb2.ResponseType.CLIENT_ERROR [] None None
                 None None)
              (Q_Start 0 None None) eq_refl)
    as (Herr & _ & _).
  exact (proj1 (Herr (or_intror (or_intror (or_introl eq_refl))))).
Defined.

(** ** Connecting *)

Section ConnectProperties.

Context `{codec : !ReqlCodec} `{libs : !HandshakeLibs}.

Lemma client_connect_raises_no_auth_error env timeout w e w' :
  DefaultClient_connect env timeout w = (Raise e, w') ->
  is_auth_error e = false.
Proof.
  unfold DefaultClient_connect, new_ReqlTimeoutError. run_m.
  destruct (env_connect env _ _ timeout); simpl.
  - destruct (w_ssl w); simpl; [|discriminate].
    destruct (env_cert_loads env _); simpl; [|by intros [= <- _]].
    destruct (env_wrap_ok env); simpl; [discriminate|by intros [= <- _]].
  - destruct (negb _ && negb _); by intros [= <- _].
  - by intros [= <- _].
Qed.

(** X20 ([connect] never raises an authentication error): whatever the
    network and the server do, an exception that leaves
    [DefaultTransport.connect] is not a [ReqlAuthError]; the ones the
    handshake raises are replaced by a plain [ReqlDriverError]. *)
Theorem connect_never_raises_auth_error env timeout w e w' :
  DefaultTransport_connect env timeout w = (Raise e, w') ->
  is_auth_error e = false.
Proof.
  unfold DefaultTransport_connect. unfold mbind at 1.
  destruct (DefaultClient_connect env timeout w) as [[[]|e1] w1] eqn:Hc.
  - unfold mbind at 1. unfold mcatch.
    match goal with
    | |- context [match ?m w1 with _ => _ end] =>
        destruct (m w1) as [[[]|e2] w2]
    end.
    + discriminate.
    + destruct (is_auth_error e2) eqn:Hauth.
      * unfold mbind, mget, mraise. by intros [= <- _].
      * intros [= <- _]. exact Hauth.
  - intros [= <- _]. by eapply client_connect_raises_no_auth_error.
Qed.

Lemma handshake_exchange_answer request pre post w :
  w_socket w = Some (pre ++ 0 :: post) -> 0 ∉ pre ->
  exists w1,
    handshake_exchange request w = (Ok (string_of_bytes pre), w1) /\
    w_socket w1 = Some post /\ w_handshake w1 = w_handshake w /\
    w_ctx w1 = w_ctx w /\ w_host w1 = w_host w /\ w_port w1 = w_port w.
Proof.
  intros Hs Hnot. unfold handshake_exchange.
  destruct (String.eqb request "").
  - unfold mbind, mret.
    rewrite (readuntil_found 0 w pre post Hs Hnot).
    by eexists.
  - unfold mbind at 1. unfold DefaultClient_sendall, DefaultClient_is_open.
    unfold mbind at 1. unfold mget. rewrite Hs.
    destruct (bytes_of_string request) as [|b data]; unfold mret, emit, mmodify;
      unfold mbind; erewrite (readuntil_found 0 _ pre post);
      try done; by eexists.
Qed.

(** X21 (a rejected login during [connect]): when the socket connects
    without TLS, the first message of the handshake is built, and the
    server's first answer is a rejection that [__decode_json_response]
    classifies as an authentication error, then [connect] raises the
    driver error "Server host:port", the socket is left open and the
    router has no connection set: the connection reports itself open
    although the handshake failed. *)
Theorem connect_rejected_login env timeout w peer m0 h answer rest err :
  env_connect env (w_host w) (w_port w) timeout = Connected peer ->
  w_ssl w = None ->
  __initialize_connection (env_random env) (Handshake_reset (w_handshake w))
  = (Ok m0, h) ->
  peer = answer ++ 0 :: rest ->
  0 ∉ answer ->
  __decode_json_response (string_of_bytes answer)
  = Raise (new_ReqlAuthError err) ->
  exists w',
    DefaultTransport_connect env timeout w
    = (Raise (Reql ReqlDriverError
                [Lit "Server "; Lit (w_host w); Lit ":"; Int (w_port w)]),
       w') /\
    Connection_is_open w' = true /\
    w_ctx w' = w_ctx w.
Proof.
  intros Hconn Hssl Hinit -> Hnot Hdec.
  unfold DefaultTransport_connect. unfold mbind at 1.
  assert (DefaultClient_connect env timeout w
          = (Ok tt,
             set_socket (Some (answer ++ 0 :: rest))
               (set_trace (w_trace w
                           ++ [EvConnect (w_host w) (w_port w) timeout]) w)))
    as -> by (unfold DefaultClient_connect; run_m; by rewrite Hconn, Hssl).
  set (w1 := set_socket _ _).
  unfold mbind at 1. unfold mcatch. unfold mbind at 1.
  unfold zoom_handshake at 1. unfold mbind at 1. unfold mmodify at 1.
  change (w_handshake w1) with (w_handshake w). rewrite Hinit.
  set (w2 := set_handshake h w1).
  destruct (handshake_exchange_answer m0 answer rest w2 eq_refl Hnot)
    as (w3 & Hex & Hs3 & Hh3 & Hc3 & Hhost3 & Hport3).
  unfold mbind at 1. rewrite Hex.
  unfold mbind at 1. unfold zoom_handshake at 1, __read_response.
  unfold mbind at 1. unfold mlift at 1. rewrite Hdec.
  cbn [is_auth_error new_ReqlAuthError]. change (issubclass _ _) with true.
  cbv iota. unfold mbind, mget, mraise.
  change (w_host (set_handshake (w_handshake w3) w3)) with (w_host w3).
  change (w_port (set_handshake (w_handshake w3) w3)) with (w_port w3).
  eexists. split; [by rewrite Hhost3, Hport3|].
  unfold Connection_is_open, DefaultClient_is_open. simpl.
  rewrite Hs3. split; [done|]. by rewrite Hc3.
Qed.

End ConnectProperties.

(** An instance: the rejected login surfaces as a driver error. *)
Lemma connect_never_raises_auth_error_witness :
  is_auth_error
    (Reql ReqlDriverError
       [Lit "Server "; Lit "localhost"; Lit ":"; Int 28015]) = false.
Proof.
  refine (connect_never_raises_auth_error (libs := demo_libs) rejecting_env None
            (set_socket None (demo_world [])) _
            (snd (DefaultTransport_connect (libs := demo_libs) rejecting_env None
                    (set_socket None (demo_world [])))) _).
  vm_compute. reflexivity.
Defined.

(** An instance: the same server; the connection is left open. *)
Lemma connect_rejected_login_witness :
  exists w',
    DefaultTransport_connect (libs := demo_libs)
      rejecting_env None (set_socket None (demo_world []))
    = (Raise (Reql ReqlDriverError
                [Lit "Server "; Lit "localhost"; Lit ":"; Int 28015]), w') /\
    Connection_is_open w' = true /\
    w_ctx w' = Assigned tt.
Proof.
  refine (connect_rejected_login (libs := demo_libs)
            rejecting_env None (set_socket None (demo_world []))
            (bytes_of_string "wrong-password" ++ [0])
            _ _
            (bytes_of_string "wrong-password") [] (JStr "Wrong password")
            eq_refl eq_refl _ eq_refl _ _).
  - vm_compute. reflexivity.
  - intros H. vm_compute in H.
    repeat (apply elem_of_cons in H as [H|H]; [discriminate|]).
    by apply elem_of_nil in H.
  - vm_compute. reflexivity.
Defined.

(** ** The handshake's texts *)

Section HandshakeTexts.

Context `{libs : !HandshakeLibs}.

Lemma occurs_app c s t :
  occurs c (s +:+ t) = occurs c s || occurs c t.
Proof.
  induction s as [|a s IH]; simpl; [done|].
  rewrite IH. by rewrite orb_assoc.
Qed.

Lemma unescape_other a s :
  a <> equals_sign ->
  unescape_username (String a s) = String a (unescape_username s).
Proof.
  intros Ha. destruct a as [[] [] [] [] [] [] [] []]; try reflexivity.
  by destruct Ha.
Qed.

(** X22 (the username's escaping): [HandshakeV1_0.__init__] stores the
    username with every equals sign written [=3D] and every comma written
    [=2C]; the stored name contains no comma, the password is stored as
    given, and undoing the escaping gives the username back, so that two
    different usernames are never stored as the same text. *)
Theorem username_escaping_round_trip username password :
  let self := Handshake_init username password in
  occurs comma (hs_username self) = false /\
  unescape_username (hs_username self) = username /\
  hs_password self = password /\
  (forall username',
     hs_username (Handshake_init username' password) = hs_username self ->
     username' = username).
Proof.
  assert (forall u,
            occurs comma (hs_username (Handshake_init u password)) = false /\
            unescape_username (hs_username (Handshake_init u password)) = u)
    as Hesc.
  { intros u. unfold Handshake_init, Handshake_reset. cbn [hs_username].
    induction u as [|a u [IH1 IH2]]; [done|].
    cbn [replace_char].
    destruct (Ascii.eqb a equals_sign) eqn:Heq.
    - apply Ascii.eqb_eq in Heq as ->.
      change ("=3D" +:+ ?s) with (String "=" (String "3" (String "D" s))).
      cbn [replace_char]. change (Ascii.eqb "=" comma) with false.
      change (Ascii.eqb "3" comma) with false.
      change (Ascii.eqb "D" comma) with false. cbv iota.
      split; [exact IH1|]. cbn [unescape_username]. by rewrite IH2.
    - cbn [replace_char].
      destruct (Ascii.eqb a comma) eqn:Hc.
      + apply Ascii.eqb_eq in Hc as ->.
        change ("=2C" +:+ ?s) with (String "=" (String "2" (String "C" s))).
        split; [exact IH1|]. cbn [unescape_username]. by rewrite IH2.
      + split.
        * cbn [occurs]. by rewrite Hc, IH1.
        * rewrite unescape_other; [by rewrite IH2|].
          intros ->. by rewrite Ascii.eqb_refl in Heq. }
  cbv zeta. split; [apply Hesc|]. split; [apply Hesc|]. split; [done|].
  intros u' Heq. rewrite <- (proj2 (Hesc u')), Heq. apply Hesc.
Qed.

Lemma split_on_piece c p :
  occurs c p = false -> split_on c p = [p].
Proof.
  induction p as [|a p IH]; simpl; [done|].
  destruct (Ascii.eqb a c); simpl; [done|]. intros H. by rewrite IH.
Qed.

Lemma split_on_cons c p s :
  occurs c p = false ->
  split_on c (p +:+ String c s) = p :: split_on c s.
Proof.
  induction p as [|a p IH]; simpl.
  - by rewrite Ascii.eqb_refl.
  - destruct (Ascii.eqb a c); simpl; [done|]. intros H. by rewrite IH.
Qed.

Lemma split_on_join c pieces :
  pieces <> [] -> Forall (fun p => occurs c p = false) pieces ->
  split_on c (join_with c pieces) = pieces.
Proof.
  intros Hne Hall. induction Hall as [|p rest Hp Hrest IH]; [done|].
  destruct rest as [|q rest].
  - simpl. by apply split_on_piece.
  - change (join_with c (p :: q :: rest))
      with (p +:+ String c (join_with c (q :: rest))).
    rewrite split_on_cons by done. by rewrite IH.
Qed.

Lemma split_once_field k v :
  occurs equals_sign k = false ->
  split_once equals_sign (auth_field (k, v)) = Ok (k, v).
Proof.
  unfold auth_field. simpl fst. simpl snd.
  induction k as [|a k IH]; simpl; [done|].
  destruct (Ascii.eqb a equals_sign); simpl; [done|].
  intros H. by rewrite IH.
Qed.

Lemma split_once_absent s :
  occurs equals_sign s = false -> split_once equals_sign s = Raise ValueError.
Proof.
  induction s as [|a s IH]; simpl; [done|].
  destruct (Ascii.eqb a equals_sign); simpl; [done|].
  intros H. by rewrite IH.
Qed.

Lemma auth_fields_good kvs message :
  Forall (fun kv => occurs equals_sign (fst kv) = false) kvs ->
  auth_fields (map auth_field kvs) message
  = Ok (foldl (fun m kv => <[fst kv := snd kv]> m) message kvs).
Proof.
  intros Hall. revert message.
  induction Hall as [|[k v] kvs Hk _ IH]; intros message; [done|].
  cbn [map auth_fields]. rewrite split_once_field by done.
  simpl. apply IH.
Qed.

Lemma auth_fields_bad kvs bad rest message :
  Forall (fun kv => occurs equals_sign (fst kv) = false) kvs ->
  occurs equals_sign bad = false ->
  auth_fields (map auth_field kvs ++ bad :: rest) message = Raise ValueError.
Proof.
  intros Hall Hbad. revert message.
  induction Hall as [|[k v] kvs Hk _ IH]; intros message.
  - simpl. by rewrite split_once_absent.
  - cbn [map app auth_fields]. rewrite split_once_field by done.
    simpl. apply IH.
Qed.

Lemma foldl_insert_reverse (kvs : list (string * string))
    (message : gmap string string) :
  foldl (fun m kv => <[fst kv := snd kv]> m) message kvs
  = list_to_map (reverse kvs) ∪ message.
Proof.
  revert message. induction kvs as [|[k v] kvs IH]; intros message; simpl.
  - by rewrite (left_id_L ∅ (∪)).
  - rewrite IH, reverse_cons, list_to_map_app. simpl.
    rewrite <- (assoc_L (∪)). f_equal.
    rewrite insert_empty, <- insert_union_singleton_l. done.
Qed.

(** X23 (the fields of the authentication text): for an ASCII
    authentication text made of comma-separated pieces, when every piece
    is [key=value] with a key free of equals signs and commas and a value
    free of commas, [__get_authentication_message] returns the dictionary
    of the fields in which a later field overwrites an earlier one of the
    same key; when the first piece that is not of this form has no equals
    sign at all, it raises [ValueError]. *)
Theorem authentication_message_fields response text kvs :
  dict_get "authentication" response = Some (JStr text) ->
  is_ascii text = true ->
  Forall (fun kv => occurs equals_sign (fst kv) = false /\
                    occurs comma (fst kv) = false /\
                    occurs comma (snd kv) = false) kvs ->
  (kvs <> [] -> text = join_with comma (map auth_field kvs) ->
   __get_authentication_message response = Ok (list_to_map (reverse kvs))) /\
  (forall bad rest,
     occurs equals_sign bad = false -> occurs comma bad = false ->
     Forall (fun p => occurs comma p = false) rest ->
     text = join_with comma (map auth_field kvs ++ bad :: rest) ->
     __get_authentication_message response = Raise ValueError).
Proof.
  intros Hget Hascii Hall.
  assert (Forall (fun p => occurs comma p = false) (map auth_field kvs))
    as Hpieces.
  { apply Forall_map. eapply Forall_impl; [exact Hall|].
    intros [k v] (_ & Hk & Hv). unfold auth_field. simpl in *.
    rewrite occurs_app. simpl. by rewrite Hk, Hv. }
  assert (Forall (fun kv : string * string =>
                    occurs equals_sign (fst kv) = false) kvs) as Hkeys.
  { eapply Forall_impl; [exact Hall|]. by intros kv (? & _). }
  unfold __get_authentication_message, dict_item, ascii_codec.
  rewrite Hget. cbn [rbind text_of]. rewrite Hascii. cbn [rbind].
  split.
  - intros Hne ->. rewrite split_on_join; [| |done].
    + rewrite auth_fields_good by done.
      by rewrite foldl_insert_reverse, (right_id_L ∅ (∪)).
    + by destruct kvs.
  - intros bad rest Hbad Hbadc Hrest ->. rewrite split_on_join.
    + by apply auth_fields_bad.
    + by destruct kvs.
    + apply Forall_app. split; [done|]. by constructor.
Qed.

(** X24 (a rejection that lacks its fields): when the decoded message has
    no truthy [success], [__decode_json_response] looks up [error_code]
    and then [error] and raises the built-in [KeyError] for the one that
    is missing, which is no [ReqlError]; a message with a truthy [success]
    is returned as decoded, whatever else it carries. *)
Theorem decode_json_response_missing_fields response json_response :
  json_decode response = Ok json_response ->
  (from_option truthy false (dict_get "success" json_response) = false ->
   (dict_get "error_code" json_response = None ->
    __decode_json_response response = Raise (KeyError (KStr "error_code"))) /\
   (forall c code,
      dict_get "error_code" json_response = Some c -> py_int c = Ok code ->
      dict_get "error" json_response = None ->
      __decode_json_response response = Raise (KeyError (KStr "error"))) /\
   (forall c e,
      dict_get "error_code" json_response = Some c -> py_int c = Raise e ->
      __decode_json_response response = Raise e)) /\
  (from_option truthy false (dict_get "success" json_response) = true ->
   __decode_json_response response = Ok json_response) /\
  is_reql_error (KeyError (KStr "error_code")) = false /\
  is_reql_error (KeyError (KStr "error")) = false.
Proof.
  intros Hdec. unfold __decode_json_response, dict_item. rewrite Hdec.
  cbn [rbind]. split; [|split; [|done]].
  - intros ->. cbn [negb]. split; [|split].
    + by intros ->.
    + intros c code -> Hc Herr. cbn [rbind]. rewrite Hc, Herr. cbn [rbind].
      by destruct ((10 <=? code) && (code <=? 20)).
    + intros c e -> Hc. cbn [rbind]. by rewrite Hc.
  - by intros ->.
Qed.

End HandshakeTexts.

(** ** The configuration *)

(** X25 (a URL decides the database and the timeout):
    when [ConnectionConfig.new] is given a URL, the [db] and [timeout]
    arguments play no part in the result: the database is the URL's path
    without its slashes, or [test] when that is empty, and the timeout is
    the first [timeout] of the query string, or 20 when there is none. *)
Theorem config_url_overrides_db_and_timeout host port db db' user password
    timeout timeout' ssl url :
  ConnectionConfig_new host port db user password timeout ssl (Some url)
  = ConnectionConfig_new host port db' user password timeout' ssl (Some url)
  /\
  (forall cfg,
     ConnectionConfig_new host port db user password timeout ssl (Some url)
     = Ok cfg ->
     cfg_db cfg <> "" /\
     cfg_db cfg = or_str (Some (replace_char slash "" (u_path url))) "test" /\
     (u_timeouts url = [] -> cfg_timeout cfg = 20) /\
     cfg_ssl cfg = ssl).
Proof.
  split; [reflexivity|].
  unfold ConnectionConfig_new. intros cfg.
  destruct (u_port url) as [p|]; [|discriminate]. cbn [rbind].
  destruct (u_timeouts url) as [|[t|] ts]; cbn [rbind]; try discriminate;
    intros [= <-]; cbn [cfg_db cfg_timeout cfg_ssl]; (split; [|done]);
    unfold or_str, DEFAULT_DB;
    destruct (String.eqb (replace_char slash "" (u_path url)) "") eqn:He;
    try done; by apply String.eqb_neq in He.
Qed.

(** An instance: a username with a comma and an equals sign. *)
Lemma username_escaping_round_trip_witness :
  hs_username (Handshake_init "a,b=c" "pw") = "a=2Cb=3Dc" /\
  unescape_username "a=2Cb=3Dc" = "a,b=c" /\
  "a,b=c" = "a,b=c".
Proof.
  split; [reflexivity|]. split.
  - exact (proj1 (proj2 (username_escaping_round_trip "a,b=c" "pw"))).
  - exact (proj2 (proj2 (proj2 (username_escaping_round_trip "a,b=c" "pw")))
             "a,b=c" eq_refl).
Defined.

(** An instance: a server-first message that repeats the field [r], and
    one whose second piece is no field. *)
Lemma authentication_message_fields_witness :
  __get_authentication_message
    [("authentication", JStr "r=abc,s=def,i=4096,r=xyz")]
  = Ok (list_to_map [("r", "xyz"); ("i", "4096"); ("s", "def"); ("r", "abc")])
  /\
  __get_authentication_message [("authentication", JStr "r=abc,garbage,s=1")]
  = Raise ValueError.
Proof.
  split.
  - refine (proj1 (authentication_message_fields
                     [("authentication", JStr "r=abc,s=def,i=4096,r=xyz")]
                     "r=abc,s=def,i=4096,r=xyz"
                     [("r", "abc"); ("s", "def"); ("i", "4096"); ("r", "xyz")]
                     eq_refl eq_refl _) _ eq_refl).
    + repeat constructor.
    + discriminate.
  - refine (proj2 (authentication_message_fields
                     [("authentication", JStr "r=abc,garbage,s=1")]
                     "r=abc,garbage,s=1" [("r", "abc")]
                     eq_refl eq_refl _) "garbage" ["s=1"] eq_refl eq_refl _
                  eq_refl).
    + repeat constructor.
    + repeat constructor.
Defined.

(** An instance: a rejection that carries nothing but [success]. *)
Lemma decode_json_response_missing_fields_witness :
  __decode_json_response (libs := bare_rejection_libs) "{}"
  = Raise (KeyError (KStr "error_code")).
Proof.
  exact (proj1 (proj1 (decode_json_response_missing_fields
                         (libs := bare_rejection_libs) "{}"
                         [("success", JBool false)] eq_refl) eq_refl)
           eq_refl).
Defined.

(** An instance: a URL with a path and no timeout, against the arguments
    [db="mydb"] and [timeout=5]. *)
Lemma config_url_overrides_db_and_timeout_witness :
  ConnectionConfig_new "localhost" 28015 "mydb" "admin" None 5 None
    (Some (mkParsedUrl None None (Some "db.example") (Ok (Some 28016))
             "/prod/" []))
  = Ok (mkConnectionConfig "db.example" 28016 "prod" "admin" "" 20 None) /\
  cfg_timeout (mkConnectionConfig "db.example" 28016 "prod" "admin" "" 20 None)
  = 20.
Proof.
  split; [reflexivity|].
  exact (proj1 (proj2 (proj2
           (proj2 (config_url_overrides_db_and_timeout "localhost" 28015
                     "mydb" "mydb" "admin" None 5 5 None
                     (mkParsedUrl None None (Some "db.example")
                        (Ok (Some 28016)) "/prod/" []))
              (mkConnectionConfig "db.example" 28016 "prod" "admin" "" 20 None)
              eq_refl))) eq_refl).
Defined.

(** ** [connect] and the handshake generator *)

Section ConnectHandshake.

Context `{libs : !HandshakeLibs}.

Ltac next_step :=
  eexists _, _; split; [first [eassumption|reflexivity]|]; cbv beta iota.

Lemma handshake_run_inv rand r1 r2 r3 h0 log outcome h msgs :
  HandshakeV1_0_run rand r1 r2 r3 (h0, log) = (outcome, (h, msgs)) ->
  exists o0 h1,
    __initialize_connection rand (Handshake_reset h0) = (o0, h1) /\
    match o0 with
    | Raise e => outcome = Raise e /\ h = h1 /\ msgs = log
    | Ok m0 =>
        exists o1 h2,
          __read_response r1 h1 = (o1, h2) /\
          match o1 with
          | Raise e => outcome = Raise e /\ h = h2 /\ msgs = log ++ [m0]
          | Ok m1 =>
              exists o2 h3,
                __prepare_auth_request r2 h2 = (o2, h3) /\
                match o2 with
                | Raise e =>
                    outcome = Raise e /\ h = h3 /\ msgs = log ++ [m0; m1]
                | Ok m2 =>
                    exists o3,
                      __read_auth_response r3 h3 = (o3, h) /\
                      outcome = o3 /\ msgs = log ++ [m0; m1; m2]
                end
          end
    end.
Proof.
  unfold HandshakeV1_0_run, yield_, zoom_fst, mbind, mmodify. cbn [fst snd].
  destruct (__initialize_connection rand (Handshake_reset h0))
    as [[m0|e0] h1] eqn:H0; cbn [fst snd].
  2:{ intros [= <- <- <-]. by eexists _, _. }
  destruct (__read_response r1 h1) as [[m1|e1] h2] eqn:H1; cbn [fst snd].
  2:{ intros [= <- <- <-]. do 2 next_step. done. }
  destruct (__prepare_auth_request r2 h2) as [[m2|e2] h3] eqn:H2; cbn [fst snd].
  2:{ intros [= <- <- <-]. do 3 next_step.
      by rewrite <- !(assoc_L (++)). }
  destruct (__read_auth_response r3 h3) as [o3 h4] eqn:H3; cbn [fst snd].
  intros [= <- <- <-]. do 3 next_step.
  eexists. split; [done|]. split; [by destruct o3 as [[]|]|].
  by rewrite <- !(assoc_L (++)).
Qed.

Lemma set_trace_nil w : set_trace (w_trace w ++ []) w = w.
Proof. destruct w. unfold set_trace. simpl. by rewrite app_nil_r. Qed.

Lemma handshake_exchange_spec request pre post w :
  w_socket w = Some (pre ++ 0 :: post) -> 0 ∉ pre ->
  handshake_exchange request w
  = (Ok (string_of_bytes pre),
     set_socket (Some post)
       (set_trace
          (w_trace w ++ (if String.eqb request "" then []
                         else [EvSend (bytes_of_string request)])) w)).
Proof.
  intros Hs Hnot. unfold handshake_exchange.
  destruct (String.eqb request "") eqn:He.
  - unfold mbind, mret. rewrite set_trace_nil.
    by rewrite (readuntil_found 0 w pre post Hs Hnot).
  - destruct request as [|a request]; [done|].
    unfold mbind at 1. unfold DefaultClient_sendall, DefaultClient_is_open.
    unfold mbind at 1. unfold mget. rewrite Hs.
    cbn [bytes_of_string list_ascii_of_string map].
    unfold emit, mmodify, mbind.
    by erewrite (readuntil_found 0 _ pre post).
Qed.

Ltac exchange_step Hn :=
  unfold mbind at 1;
  erewrite handshake_exchange_spec; [|reflexivity|exact Hn];
  unfold mbind at 1; unfold zoom_handshake at 1; cbn [w_handshake set_socket set_trace set_handshake].

Ltac connect_failed :=
  cbv iota;
  match goal with
  | |- context [is_auth_error ?e] => destruct (is_auth_error e)
  end;
  unfold mbind, mget, mraise;
  (eexists; split; [reflexivity|]);
  cbn [w_handshake w_trace w_ctx w_host w_port set_socket set_trace
       set_handshake];
  unfold Connection_is_open, DefaultClient_is_open;
  cbn [w_socket set_socket set_trace set_handshake].

Ltac connect_done :=
  split_and!; try done;
  rewrite <- ?(assoc_L (++)); cbn [List.filter map app negb];
  repeat match goal with
         | |- context [String.eqb ?m ""] => destruct (String.eqb m "")
         end; done.

(** X26 ([connect] drives the handshake generator): when the socket
    connects without TLS and the peer's stream holds three null-terminated
    answers, [DefaultTransport.connect] ends as [HandshakeV1_0.run] does
    when it is sent these answers, except that an authentication error is
    replaced by the driver error "Server host:port"; it leaves the
    handshake object as the run leaves it, sends exactly the non-empty
    messages the run yields, in order, and leaves the socket open; the
    router's connection is set only when the run completes. *)
Theorem connect_drives_the_handshake env timeout w r1 r2 r3 rest
    outcome h msgs :
  env_connect env (w_host w) (w_port w) timeout
  = Connected (r1 ++ 0 :: r2 ++ 0 :: r3 ++ 0 :: rest) ->
  w_ssl w = None ->
  0 ∉ r1 -> 0 ∉ r2 -> 0 ∉ r3 ->
  HandshakeV1_0_run (env_random env) (string_of_bytes r1)
    (string_of_bytes r2) (string_of_bytes r3) (w_handshake w, [])
  = (outcome, (h, msgs)) ->
  exists w',
    DefaultTransport_connect env timeout w
    = (match outcome with
       | Ok _ => Ok tt
       | Raise e =>
           Raise (if is_auth_error e
                  then Reql ReqlDriverError
                         [Lit "Server "; Lit (w_host w); Lit ":";
                          Int (w_port w)]
                  else e)
       end, w') /\
    w_handshake w' = h /\
    Connection_is_open w' = true /\
    w_trace w'
    = w_trace w
      ++ EvConnect (w_host w) (w_port w) timeout
         :: map (fun m => EvSend (bytes_of_string m))
              (List.filter (fun m => negb (String.eqb m "")) msgs) /\
    w_ctx w' = match outcome with
               | Ok _ => Assigned tt
               | Raise _ => w_ctx w
               end /\
    (outcome = Ok tt -> w_socket w' = Some rest).
Proof.
  intros Hconn Hssl Hn1 Hn2 Hn3 Hrun.
  apply handshake_run_inv in Hrun as (o0 & h1 & H0 & Hrun).
  unfold DefaultTransport_connect. unfold mbind at 1.
  assert (DefaultClient_connect env timeout w
          = (Ok tt,
             set_socket (Some (r1 ++ 0 :: r2 ++ 0 :: r3 ++ 0 :: rest))
               (set_trace (w_trace w
                           ++ [EvConnect (w_host w) (w_port w) timeout]) w)))
    as -> by (unfold DefaultClient_connect; run_m; by rewrite Hconn, Hssl).
  unfold mbind at 1. unfold mcatch. unfold mbind at 1.
  unfold zoom_handshake at 1. unfold mbind at 1. unfold mmodify at 1.
  cbn [w_handshake set_socket set_trace]. rewrite H0.
  destruct o0 as [m0|e0].
  2:{ destruct Hrun as (-> & -> & ->). connect_failed; connect_done. }
  destruct Hrun as (o1 & h2 & H1 & Hrun). exchange_step Hn1. rewrite H1.
  destruct o1 as [m1|e1].
  2:{ destruct Hrun as (-> & -> & ->). connect_failed; connect_done. }
  destruct Hrun as (o2 & h3 & H2 & Hrun). exchange_step Hn2. rewrite H2.
  destruct o2 as [m2|e2].
  2:{ destruct Hrun as (-> & -> & ->). connect_failed; connect_done. }
  destruct Hrun as (o3 & H3 & -> & ->). exchange_step Hn3. rewrite H3.
  destruct o3 as [[]|e3]; [|connect_failed; connect_done].
  unfold mbind, mmodify. eexists. split; [reflexivity|].
  cbn [w_handshake w_trace w_ctx w_host w_port set_socket set_trace
       set_handshake set_ctx].
  unfold Connection_is_open, DefaultClient_is_open.
  cbn [w_socket set_socket set_trace set_handshake set_ctx].
  connect_done.
Qed.

End ConnectHandshake.

Ltac no_zero_byte :=
  let H := fresh in
  intros H; vm_compute in H;
  repeat (apply elem_of_cons in H as [H|H]; [discriminate|]);
  by apply elem_of_nil in H.

(** An instance: a login that succeeds; the byte after the third answer
    stays in the stream. *)
Lemma connect_drives_the_handshake_witness :
  exists w',
    DefaultTransport_connect (libs := accepting_libs) accepting_env None
      fresh_world = (Ok tt, w') /\
    w_ctx w' = Assigned tt /\
    w_socket w' = Some [9] /\
    length (w_trace w') = 3%nat.
Proof.
  assert (HandshakeV1_0_run (libs := accepting_libs) ""
            (string_of_bytes (bytes_of_string "versions"))
            (string_of_bytes (bytes_of_string "challenge"))
            (string_of_bytes (bytes_of_string "good-signature"))
            (Handshake_init "admin" "", [])
          = (Ok tt,
             snd (HandshakeV1_0_run (libs := accepting_libs) ""
                    "versions" "challenge" "good-signature"
                    (Handshake_init "admin" "", [])))) as Hrun
    by (vm_compute; reflexivity).
  destruct (connect_drives_the_handshake (libs := accepting_libs)
              accepting_env None fresh_world
              (bytes_of_string "versions") (bytes_of_string "challenge")
              (bytes_of_string "good-signature") [9] (Ok tt) _ _
              eq_refl eq_refl ltac:(no_zero_byte) ltac:(no_zero_byte)
              ltac:(no_zero_byte) Hrun)
    as (w' & Hconnect & _ & _ & Htrace & Hctx & Hsocket).
  exists w'. split; [exact Hconnect|]. split; [exact Hctx|].
  split; [exact (Hsocket eq_refl)|]. rewrite Htrace. reflexivity.
Defined.

(** ** Reconnecting *)

Section Reconnect.

Context `{codec : !ReqlCodec} `{libs : !HandshakeLibs}.

(** X27 ([reconnect] against a server that is gone): when the network
    refuses the connection, [Connection.reconnect(noreply_wait=False)]
    raises "Could not connect to host:port" on an open connection as on a
    closed one; the old socket has been shut down by then and the
    connection is left closed; the attempt is made with the given
    timeout, or with the connection's own when none is given, and the
    pending requests and the cursors are as before. *)
Theorem reconnect_refused env timeout w :
  (forall t, env_connect env (w_host w) (w_port w) t = ConnectFailed) ->
  exists w',
    Connection_reconnect env false timeout w
    = (Raise (Reql ReqlDriverError
                [Lit "Could not connect to "; Lit (w_host w); Lit ":";
                 Int (w_port w)]), w') /\
    Connection_is_open w' = false /\
    w_trace w'
    = w_trace w
      ++ (if Connection_is_open w then [EvShutdown] else [])
      ++ [EvConnect (w_host w) (w_port w)
            (Some (match timeout with
                   | None => w_timeout w
                   | Some t => t
                   end))] /\
    w_waiting_respose w' = w_waiting_respose w /\
    w_cursor_cache w' = w_cursor_cache w.
Proof.
  intros Hrefused.
  unfold Connection_reconnect, Connection_close, DefaultTransport_close,
    DefaultTransport_connect, DefaultClient_connect, DefaultClient_close,
    Connection_is_open, DefaultClient_is_open.
  run_m. destruct (w_socket w) eqn:Hs; simpl; rewrite ?Hs; simpl;
    rewrite Hrefused; simpl; eexists; (split; [reflexivity|]); simpl;
    rewrite ?Hs; split_and!; try done.
  by rewrite <- (assoc_L (++)).
Qed.

End Reconnect.

(** An instance: an open connection and a network that refuses. *)
Lemma reconnect_refused_witness :
  exists w',
    Connection_reconnect (codec := demo_codec) (libs := demo_libs)
      refusing_env false (Some 0) (demo_world [])
    = (Raise (Reql ReqlDriverError
                [Lit "Could not connect to "; Lit "localhost"; Lit ":";
                 Int 28015]), w') /\
    Connection_is_open w' = false /\
    w_trace w' = [EvShutdown; EvConnect "localhost" 28015 (Some 0)].
Proof.
  destruct (reconnect_refused (codec := demo_codec) (libs := demo_libs)
              refusing_env (Some 0) (demo_world []) (fun _ => eq_refl))
    as (w' & Hraise & Hclosed & Htrace & _).
  exists w'. split; [exact Hraise|]. split; [exact Hclosed|]. exact Htrace.
Defined.

(** ** [Cursor.next] *)

(** X28 ([Cursor.next] yields no item): [next] turns its [wait] argument
    into a timeout that is absent or not negative, or raises the driver
    error for a negative number or a value that is neither a [bool] nor a
    [float]; with a valid timeout it calls [_get_next], which no class
    implements, so that it raises [NotImplementedError]: no call of
    [next] returns an item. *)
Theorem cursor_next_never_yields wait :
  (forall t,
     _wait_to_timeout wait = Ok t ->
     Cursor_next wait = Raise NotImplementedError /\
     from_option (Z.leb 0) true t = true) /\
  (forall e,
     _wait_to_timeout wait = Raise e ->
     Cursor_next wait = Raise e /\
     e = Reql ReqlDriverError [Lit "Invalid wait timeout"]) /\
  (forall v, Cursor_next wait <> Ok v).
Proof.
  unfold Cursor_next, Cursor__get_next.
  destruct wait as [[]|f|]; simpl; try destruct (0 <=? f) eqn:Hf; simpl;
    split_and!; try done; intros ? [= <-]; try done.
  all: by (split; [done|]; simpl).
Qed.

(** An instance: waiting for a second and a half. *)
Lemma cursor_next_never_yields_witness :
  Cursor_next (WaitFloat 1500) = Raise NotImplementedError /\
  Cursor_next (WaitFloat (-1))
  = Raise (Reql ReqlDriverError [Lit "Invalid wait timeout"]).
Proof.
  split.
  - exact (proj1 (proj1 (cursor_next_never_yields (WaitFloat 1500))
                    (Some 1500) eq_refl)).
  - exact (proj1 (proj1 (proj2 (cursor_next_never_yields (WaitFloat (-1))))
                    _ eq_refl)).
Defined.

(** An instance: an authentication error is a driver error, hence a
    [ReqlError], and no runtime error. *)
Lemma error_classes_form_a_tree_witness :
  issubclass ReqlAuthError ReqlError = true /\
  (Nat.b2n (issubclass ReqlAuthError ReqlDriverError)
   + Nat.b2n (issubclass ReqlAuthError ReqlRuntimeError)
   + Nat.b2n (issubclass ReqlAuthError ReqlCompileError) <= 1)%nat.
Proof.
  split.
  - exact (proj1 (proj2 error_classes_form_a_tree)
             ReqlAuthError ReqlDriverError ReqlError eq_refl eq_refl).
  - exact (proj1 (proj2 (proj2 (proj2 (proj2 error_classes_form_a_tree))))
             ReqlAuthError).
Defined.
